(** * Perception dashboard (streamlit_app.py): shallow embedding and properties

    The program is one script: four helpers ([to_pct], [metric_block],
    [make_stacked_bar], [donut]) and four page sections that read sheets of a
    workbook, normalise percentages and hand chart descriptions to the UI.

    Python numbers (the floats and integers pandas reads from the workbook)
    are modelled as exact rationals [Q]; arithmetic facts are stated up to
    [Qeq] where two different fractions denote the same number.  Calls into
    pandas, plotly and streamlit are modelled by what they return or show
    for the arguments the script passes. *)

From Stdlib Require Import String Ascii.
From Stdlib Require Import QArith Qround List Bool Arith Lia Lqa.
From Stdlib Require Import Permutation Sorted.
Import ListNotations.

Local Open Scope string_scope.
Local Open Scope list_scope.

(** ** Values, exceptions *)

(** A cell of a table or a Python scalar.  [Missing] stands for the values
    [pd.isna] accepts (None, NaN): the script never tells them apart. *)
Inductive value : Type :=
| Missing
| Num (q : Q)
| Str (s : string).

Inductive exn : Type :=
| KeyError | TypeError | IndexError | AttributeError | ValueError
| FileNotFoundError.

Inductive res (A : Type) : Type :=
| Ok (a : A)
| Raise (e : exn).
Arguments Ok {A} a.
Arguments Raise {A} e.

Definition res_bind {A B} (r : res A) (k : A -> res B) : res B :=
  match r with
  | Ok a => k a
  | Raise e => Raise e
  end.

Fixpoint res_map {A B} (f : A -> res B) (l : list A) : res (list B) :=
  match l with
  | [] => Ok []
  | x :: l' =>
      res_bind (f x) (fun y => res_bind (res_map f l') (fun ys => Ok (y :: ys)))
  end.

Definition isna (v : value) : bool :=
  match v with
  | Missing => true
  | _ => false
  end.

Definition is_str (v : value) : bool :=
  match v with
  | Str _ => true
  | _ => false
  end.

(** [str.lower()] on ASCII letters. *)
Definition lower_ascii (c : ascii) : ascii :=
  let n := nat_of_ascii c in
  if ((65 <=? n) && (n <=? 90))%nat then ascii_of_nat (n + 32) else c.

Fixpoint lower (s : string) : string :=
  match s with
  | EmptyString => EmptyString
  | String c s' => String (lower_ascii c) (lower s')
  end.

(** ** Tables (pandas DataFrame) *)

Module Pandas.

(** Row labels and named columns, in column order.  Every column is as long
    as [index].  Column names are text, as the headers of the workbook the
    script reads are. *)
Record DataFrame : Type := {
  index : list nat;
  columns : list (string * list value)
}.

Definition column_names (df : DataFrame) : list string := map fst (columns df).
Definition nrows (df : DataFrame) : nat := length (index df).

(** [df.empty]: no columns or no rows. *)
Definition empty (df : DataFrame) : bool :=
  (length (columns df) =? 0)%nat || (nrows df =? 0)%nat.

Fixpoint assoc_get {A} (k : string) (l : list (string * A)) : option A :=
  match l with
  | [] => None
  | (k', a) :: l' => if String.eqb k k' then Some a else assoc_get k l'
  end.

(** Replace the value under the first [k], or add [k] at the end. *)
Fixpoint assoc_set {A} (k : string) (a : A) (l : list (string * A))
  : list (string * A) :=
  match l with
  | [] => [(k, a)]
  | (k', a') :: l' =>
      if String.eqb k k' then (k', a) :: l' else (k', a') :: assoc_set k a l'
  end.

(** [df[c]] *)
Definition getitem (df : DataFrame) (c : string) : res (list value) :=
  match assoc_get c (columns df) with
  | Some col => Ok col
  | None => Raise KeyError
  end.

(** [df[c] = vals] as a new table value; see [obj_setitem] for the update of
    a shared object. *)
Definition setitem (df : DataFrame) (c : string) (vals : list value)
  : DataFrame :=
  {| index := index df; columns := assoc_set c vals (columns df) |}.

(** [series.apply(f)] *)
Definition series_apply (f : value -> res value) (col : list value)
  : res (list value) :=
  res_map f col.

(** [df.copy()]: a new object with the same contents.  A copy is bound to one
    local name only, so it is a plain value here. *)
Definition copy (df : DataFrame) : DataFrame := df.

(** Entries of a column at the given positions, in that order. *)
Definition rows_at (pos : list nat) (col : list value) : list value :=
  map (fun i => nth i col Missing) pos.

(** Rows at the given positions, in that order. *)
Definition take_rows (pos : list nat) (df : DataFrame) : DataFrame :=
  {| index := map (fun i => nth i (index df) 0%nat) pos;
     columns := map (fun c => (fst c, rows_at pos (snd c))) (columns df) |}.

Definition sort_key (v : value) : Q :=
  match v with
  | Num q => q
  | _ => 0%Q
  end.

(** pandas' [nargsort] with [na_position="last"]: positions of the
    non-missing items ordered by the library's [argsort] (on the reversed
    items, the result reversed again, when descending), then the positions of
    the missing items. *)
Definition nargsort (argsort : list Q -> list nat) (ascending : bool)
    (items : list value) : list nat :=
  let idx := seq 0 (length items) in
  let non_nan_idx := filter (fun i => negb (isna (nth i items Missing))) idx in
  let nan_idx := filter (fun i => isna (nth i items Missing)) idx in
  let non_nan_idx := if ascending then non_nan_idx else rev non_nan_idx in
  let non_nans := map (fun i => sort_key (nth i items Missing)) non_nan_idx in
  let indexer := map (fun j => nth j non_nan_idx 0%nat) (argsort non_nans) in
  let indexer := if ascending then indexer else rev indexer in
  indexer ++ nan_idx.

(** [df.sort_values(by, ascending=...)] with the default [kind].  The script
    sorts a column it has just normalised, whose cells are numbers or
    missing; a column that still holds text next to numbers cannot be
    compared and raises TypeError. *)
Definition sort_values (argsort : list Q -> list nat) (df : DataFrame)
    (by_ : string) (ascending : bool) : res DataFrame :=
  res_bind (getitem df by_) (fun col =>
  if existsb is_str col then Raise TypeError
  else Ok (take_rows (nargsort argsort ascending col) df)).

(** [df.head(n)] *)
Definition head (n : nat) (df : DataFrame) : DataFrame :=
  {| index := firstn n (index df);
     columns := map (fun c => (fst c, firstn n (snd c))) (columns df) |}.

(** [df.reset_index(drop=True)] *)
Definition reset_index (df : DataFrame) : DataFrame :=
  {| index := seq 0 (nrows df); columns := columns df |}.

(** [df.rename(columns={old: new})] *)
Definition rename (df : DataFrame) (old new : string) : DataFrame :=
  {| index := index df;
     columns :=
       map (fun c => (if String.eqb (fst c) old then new else fst c, snd c))
           (columns df) |}.

(** [series.round(1)]: one decimal, halves to the even neighbour. *)
Definition round_half_even (x : Q) : Z :=
  let f := Qfloor x in
  let r := (x - inject_Z f)%Q in
  match (r ?= 1 # 2)%Q with
  | Lt => f
  | Gt => (f + 1)%Z
  | Eq => if Z.even f then f else (f + 1)%Z
  end.

Definition round1 (v : value) : value :=
  match v with
  | Num q => Num (Qmake (round_half_even (q * 10)) 10)
  | _ => v
  end.

(** The dtype of a column that [Series.apply] returned: a function that gave
    None for every row leaves an object column of None, and so does a text
    among the results; once there is a number and no text the column is a
    float column, its None cells turned into NaN. *)
Definition object_dtype (col : list value) : bool :=
  existsb is_str col || (negb (length col =? 0)%nat && forallb isna col).

(** [series.round(1)] on such a column: an object column cannot be rounded
    (TypeError), a float column is rounded cell by cell, NaN staying. *)
Definition series_round1 (col : list value) : res (list value) :=
  if object_dtype col then Raise TypeError else Ok (map round1 col).

(** [df.melt(id_vars=[id_var], value_vars=..., var_name=..., value_name=...)].
    A [value_name] that is already a column of the frame is a ValueError, a
    label that is no column a KeyError.  The id column is taken out of the
    frame first, so it is not among the value columns even when
    [value_vars] lists it; then one block of rows per value column, in the
    order of [value_vars]. *)
Definition melt (df : DataFrame) (id_var : string) (value_vars : list string)
    (var_name value_name : string) : res DataFrame :=
  if existsb (String.eqb value_name) (column_names df) then Raise ValueError
  else
  res_bind (getitem df id_var) (fun id_data =>
  res_bind (res_map (getitem df) value_vars) (fun _ =>
  let vars := filter (fun c => negb (String.eqb c id_var)) value_vars in
  res_bind (res_map (getitem df) vars) (fun data =>
  Ok {| index := seq 0 (nrows df * length vars);
        columns :=
          [ (id_var, concat (map (fun _ => id_data) vars));
            (var_name, flat_map (fun c => repeat (Str c) (nrows df)) vars);
            (value_name, concat data) ] |}))).

End Pandas.
Export Pandas.

(** ** The library sort behind [sort_values] (numpy [argsort])

    The script calls [sort_values] without [kind], that is with the default
    "quicksort"; pandas names "mergesort" and "stable" as its only stable
    kinds.  What the library promises for the default is a sorted
    permutation of the positions; which of the rows with equal keys comes
    first is decided inside numpy and is not part of this development.  The
    sort is therefore an argument of the model, and [argsort_spec] is its
    contract.  [stable_argsort] and [backward_argsort] are two functions
    that meet the contract, used where a statement about every such sort is
    applied to one; neither is meant to be numpy's. *)

Module Sorting.

Definition argsort_spec (argsort : list Q -> list nat) : Prop :=
  forall ks : list Q,
    Permutation (argsort ks) (seq 0 (length ks)) /\
    StronglySorted (fun i j => (nth i ks 0 <= nth j ks 0)%Q) (argsort ks).

(** Equal keys keep their relative order. *)
Definition argsort_stable (argsort : list Q -> list nat) : Prop :=
  forall ks : list Q,
    StronglySorted
      (fun i j => (nth i ks 0 < nth j ks 0)%Q \/
                  ((nth i ks 0 == nth j ks 0)%Q /\ (i < j)%nat))
      (argsort ks).

Fixpoint insert_by (le : Q * nat -> Q * nat -> bool) (x : Q * nat)
    (l : list (Q * nat)) : list (Q * nat) :=
  match l with
  | [] => [x]
  | y :: l' => if le x y then x :: y :: l' else y :: insert_by le x l'
  end.

Definition argsort_by (le : Q * nat -> Q * nat -> bool) (ks : list Q)
  : list nat :=
  map snd (fold_right (insert_by le) [] (combine ks (seq 0 (length ks)))).

Definition le_forward (a b : Q * nat) : bool :=
  match (fst a ?= fst b)%Q with
  | Lt => true
  | Eq => (snd a <=? snd b)%nat
  | Gt => false
  end.

Definition le_backward (a b : Q * nat) : bool :=
  match (fst a ?= fst b)%Q with
  | Lt => true
  | Eq => (snd b <=? snd a)%nat
  | Gt => false
  end.

Definition stable_argsort : list Q -> list nat := argsort_by le_forward.
Definition backward_argsort : list Q -> list nat := argsort_by le_backward.

End Sorting.
Export Sorting.

(** ** Chart descriptions (plotly figures) *)

Module Plotly.

Record trace : Type := {
  trace_name : string;
  trace_x : list value;
  trace_y : list value;
  trace_text : list value
}.

Inductive chart_kind : Type :=
| PieChart (hole : Q)
| BarChart (barmode : string)
| LineChart (markers : bool).

Record figure : Type := {
  kind : chart_kind;
  traces : list trace;
  title : option string;
  yaxis_title : option string;
  legend_orientation : option string;
  height : nat
}.

(** [px.pie(values=..., names=..., hole=...)] *)
Definition px_pie (values names : list value) (hole : Q) : figure :=
  {| kind := PieChart hole;
     traces := [ {| trace_name := ""; trace_x := names; trace_y := values;
                    trace_text := [] |} ];
     title := None; yaxis_title := None; legend_orientation := None;
     height := 450 |}.

(** [px.bar(df, x=..., y=..., text=...)]; an unknown column name is a
    ValueError. *)
Definition px_bar (df : DataFrame) (x y : string) (text : list value)
  : res figure :=
  match assoc_get x (columns df), assoc_get y (columns df) with
  | Some xs, Some ys =>
      Ok {| kind := BarChart "relative";
            traces := [ {| trace_name := ""; trace_x := xs; trace_y := ys;
                           trace_text := text |} ];
            title := None; yaxis_title := Some y; legend_orientation := None;
            height := 450 |}
  | _, _ => Raise ValueError
  end.

Definition value_eqb (a b : value) : bool :=
  match a, b with
  | Missing, Missing => true
  | Num p, Num q => Qeq_bool p q
  | Str s, Str t => String.eqb s t
  | _, _ => false
  end.

(** Distinct values in order of first appearance. *)
Fixpoint unique (l : list value) : list value :=
  match l with
  | [] => []
  | v :: l' => v :: filter (fun w => negb (value_eqb v w)) (unique l')
  end.

Definition label_of (v : value) : string :=
  match v with
  | Str s => s
  | _ => ""
  end.

(** Entries of [data] on the rows where [keys] holds [k]. *)
Definition rows_where (k : value) (keys data : list value) : list value :=
  map snd (filter (fun p => value_eqb k (fst p)) (combine keys data)).

(** [px.line(df, x=..., y=..., color=..., markers=True, title=...)]: one line,
    or one line per value of the [color] column. *)
Definition px_line (df : DataFrame) (x y : string) (color : option string)
    (title_ : string) : res figure :=
  match assoc_get x (columns df), assoc_get y (columns df) with
  | Some xs, Some ys =>
      match color with
      | None =>
          Ok {| kind := LineChart true;
                traces := [ {| trace_name := ""; trace_x := xs; trace_y := ys;
                               trace_text := [] |} ];
                title := Some title_; yaxis_title := Some y;
                legend_orientation := None; height := 450 |}
      | Some c =>
          match assoc_get c (columns df) with
          | Some cs =>
              Ok {| kind := LineChart true;
                    traces :=
                      map (fun k => {| trace_name := label_of k;
                                       trace_x := rows_where k cs xs;
                                       trace_y := rows_where k cs ys;
                                       trace_text := [] |})
                          (unique cs);
                    title := Some title_; yaxis_title := Some y;
                    legend_orientation := None; height := 450 |}
          | None => Raise ValueError
          end
      end
  | _, _ => Raise ValueError
  end.

(** [fig.update_layout(...)] for the keys the script sets. *)
Definition update_layout (fig : figure) (kind_ : chart_kind)
    (title_ : option string) (yaxis : option string)
    (legend : option string) (height_ : nat) : figure :=
  {| kind := kind_; traces := traces fig; title := title_;
     yaxis_title := yaxis; legend_orientation := legend;
     height := height_ |}.

End Plotly.
Export Plotly.

(** ** The page being built (streamlit) and the shared sheet set *)

Module Streamlit.

Inductive place : Type :=
| Main
| Sidebar
| SidebarExpander (label : string)
| Column (i : nat)
| Expander (label : string).

Inductive element : Type :=
| Header (s : string)
| Markdown (s : string)
| Info (s : string)
| WriteBullet (s : string)
| Slider (label : string) (lo hi default : nat)
| Columns (weights : list Q)
| Metric (label : string) (percent : Q)
| PlotlyChart (fig : figure)
| DataframeView (df : DataFrame)
| Caption (s : string).

(** The sheet set is a dict from sheet name to table object, in load order.
    The tables are the only objects reachable from two places (the dict and a
    section's local name), so they live in the store; a local name for one is
    its key. *)
Definition ref : Type := string.

Record state : Type := {
  store : list (string * DataFrame);
  ui : list (place * element)
}.

(** Script fragments: they run at a place of the page, change the state, and
    return or raise.  What was shown or changed before a raise stays. *)
Definition M (A : Type) : Type := place -> state -> res A * state.

Definition ret {A} (a : A) : M A := fun _ s => (Ok a, s).

Definition bind {A B} (m : M A) (k : A -> M B) : M B :=
  fun p s =>
    match m p s with
    | (Ok a, s') => k a p s'
    | (Raise e, s') => (Raise e, s')
    end.

Definition lift {A} (r : res A) : M A := fun _ s => (r, s).

Definition emit (e : element) : M unit :=
  fun p s => (Ok tt, {| store := store s; ui := ui s ++ [(p, e)] |}).

(** [with place: ...] *)
Definition within {A} (p : place) (m : M A) : M A := fun _ s => m p s.

(** [try: ... except Exception: pass] *)
Definition try_pass (m : M unit) : M unit :=
  fun p s => (Ok tt, snd (m p s)).

Fixpoint for_each {A} (l : list A) (body : A -> M unit) : M unit :=
  match l with
  | [] => ret tt
  | x :: l' => bind (body x) (fun _ => for_each l' body)
  end.

(** [sheets.get(name)] *)
Definition sheets_get (name : string) : M (option ref) :=
  fun _ s =>
    (Ok (match assoc_get name (store s) with
         | Some _ => Some name
         | None => None
         end), s).

(** The table a local name refers to, as it is now. *)
Definition deref (r : ref) : M DataFrame :=
  fun _ s =>
    (match assoc_get r (store s) with
     | Some df => Ok df
     | None => Raise KeyError
     end, s).

(** [obj[c]] *)
Definition obj_getitem (r : ref) (c : string) : M (list value) :=
  bind (deref r) (fun df => lift (getitem df c)).

(** [obj[c] = vals]: the object is changed in place, for every holder. *)
Definition obj_setitem (r : ref) (c : string) (vals : list value) : M unit :=
  bind (deref r) (fun df =>
  fun _ s =>
    (Ok tt, {| store := assoc_set r (setitem df c vals) (store s);
               ui := ui s |})).

End Streamlit.
Export Streamlit.

Declare Scope script_scope.
Delimit Scope script_scope with script.
Notation "x <- m ;; k" := (bind m (fun x => k))
  (at level 61, m at next level, right associativity) : script_scope.
Notation "m ;; k" := (bind m (fun _ => k))
  (at level 61, right associativity) : script_scope.
Local Open Scope script_scope.

(** ** Helpers of the script *)

Module Helpers.

Definition workbook : Type := list (string * DataFrame).

(** [load_excel]: every sheet of the workbook at [fp], by name. *)
Definition load_excel (fs : string -> option workbook) (fp : string)
  : res (list (string * DataFrame)) :=
  match fs fp with
  | None => Raise FileNotFoundError
  | Some xls =>
      Ok (flat_map (fun name =>
                      match assoc_get name xls with
                      | Some df => [(name, df)]
                      | None => []
                      end)
                   (map fst xls))
  end.

(** [to_pct]: [None] for a missing value, [v*100] when [v <= 1], else [v].
    Comparing a text value with [1] raises TypeError. *)
Definition to_pct (v : value) : res value :=
  if isna v then Ok Missing
  else match v with
       | Num q => Ok (Num (if Qle_bool q 1 then q * 100 else q))
       | _ => Raise TypeError
       end.

(** [metric_block]: the value goes through [to_pct] and is formatted with
    one decimal (the metric carries the number formatted); formatting [None]
    that way raises TypeError. *)
Definition metric_block (title_ : string) (v : value) : M unit :=
  x <- lift (to_pct v) ;;
  match x with
  | Num q => emit (Metric title_ q)
  | _ => lift (Raise TypeError)
  end.

Definition bar (name : string) (x y : list value) : trace :=
  {| trace_name := name; trace_x := x; trace_y := y; trace_text := [] |}.

(** [make_stacked_bar] *)
Definition make_stacked_bar (df : DataFrame)
    (y_col pos_col neu_col neg_col title_ : string) : res figure :=
  let plot_df := copy df in
  res_bind
    (fold_left
       (fun acc c =>
          res_bind acc (fun plot_df =>
          res_bind (getitem plot_df c) (fun col =>
          res_bind (series_apply to_pct col) (fun col' =>
          Ok (setitem plot_df c col')))))
       [pos_col; neu_col; neg_col] (Ok plot_df))
    (fun plot_df =>
  res_bind (getitem plot_df y_col) (fun x1 =>
  res_bind (getitem plot_df pos_col) (fun y1 =>
  res_bind (getitem plot_df y_col) (fun x2 =>
  res_bind (getitem plot_df neu_col) (fun y2 =>
  res_bind (getitem plot_df y_col) (fun x3 =>
  res_bind (getitem plot_df neg_col) (fun y3 =>
  Ok {| kind := BarChart "stack";
        traces := [bar "Positive" x1 y1; bar "Neutral" x2 y2;
                   bar "Negative" x3 y3];
        title := Some title_; yaxis_title := Some "Percent";
        legend_orientation := None; height := 420 |}))))))).

(** [donut] *)
Definition donut (values labels : list value) (title_ : string) : figure :=
  let fig := px_pie values labels (55 # 100) in
  update_layout fig (kind fig) (Some title_) (yaxis_title fig) (Some "h") 300.

End Helpers.
Export Helpers.

(** ** The sections of the page *)

Module Page.

(** [series.str.lower()]: only for a column that holds text. *)
Definition str_lower (col : list value) : res (list value) :=
  if existsb is_str col then
    Ok (map (fun v => match v with Str s => Str (lower s) | _ => Missing end)
            col)
  else Raise AttributeError.

(** [values[0]] *)
Definition first_value (l : list value) : res value :=
  match l with
  | v :: _ => Ok v
  | [] => Raise IndexError
  end.

(** Rows of [data] selected by a boolean mask. *)
Definition select (mask : list bool) (data : list value) : list value :=
  map snd (filter fst (combine mask data)).

Definition not_found (sheet : string) : string :=
  String.append "Sheet '" (String.append sheet "' not found.").

(** The three metrics of the Overall Summary: the columns, then for each
    label the first row of that category, inside try/except. *)
Definition overall_metrics (overall : ref) : M unit :=
  emit (Columns [1; 1; 1]%Q) ;;
  for_each (combine [0; 1; 2]%nat ["Positive"; "Neutral"; "Negative"])
    (fun cl =>
       let col := fst cl in
       let label := snd cl in
       try_pass
         (cat <- obj_getitem overall "Category" ;;
          low <- lift (str_lower cat) ;;
          pct <- obj_getitem overall "Percentage" ;;
          val <- lift (first_value
                         (select (map (value_eqb (Str (lower label))) low)
                                 pct)) ;;
          within (Column col) (metric_block label val))).

Definition overall_section : M unit :=
  emit (Markdown "## Dataset Descriptive Summary") ;;
  overall <- sheets_get "Overall Summary" ;;
  match overall with
  | None => emit (Info (not_found "Overall Summary"))
  | Some overall =>
    df <- deref overall ;;
    if empty df then emit (Info (not_found "Overall Summary"))
    else
      p <- obj_getitem overall "Percentage" ;;
      p' <- lift (series_apply to_pct p) ;;
      obj_setitem overall "Percentage" p' ;;
      overall_metrics overall ;;
      emit (Columns [12 # 10; 13 # 10]%Q) ;;
      within (Column 0)
        (values <- obj_getitem overall "Percentage" ;;
         labels <- obj_getitem overall "Category" ;;
         emit (PlotlyChart (donut values labels "Overall Perception"))) ;;
      within (Column 1)
        (pct <- obj_getitem overall "Percentage" ;;
         text <- lift (series_round1 pct) ;;
         df <- deref overall ;;
         barfig <- lift (px_bar df "Category" "Percentage" text) ;;
         emit (PlotlyChart
                 (update_layout barfig (kind barfig) (title barfig)
                    (Some "Percent") (legend_orientation barfig) 300)))
  end.

(** Strengths and Areas to Improve run the same statements with another
    sheet, sort direction and texts. *)
Definition ranked_section (argsort : list Q -> list nat)
    (heading sheet title_ : string) (ascending : bool) (top_n : nat)
  : M unit :=
  emit (Markdown heading) ;;
  r <- sheets_get sheet ;;
  match r with
  | None => emit (Info (not_found sheet))
  | Some r =>
    df <- deref r ;;
    if empty df then emit (Info (not_found sheet))
    else
      let disp := copy df in
      pos <- lift (getitem disp "Positive") ;;
      pos' <- lift (series_apply to_pct pos) ;;
      let disp := setitem disp "Positive" pos' in
      neu <- lift (getitem disp "Neutral") ;;
      neu' <- lift (series_apply to_pct neu) ;;
      let disp := setitem disp "Neutral" neu' in
      neg <- lift (getitem disp "Negative") ;;
      neg' <- lift (series_apply to_pct neg) ;;
      let disp := setitem disp "Negative" neg' in
      sorted <- lift (sort_values argsort disp "Positive" ascending) ;;
      let disp := head top_n sorted in
      fig <- lift (make_stacked_bar disp "Question" "Positive" "Neutral"
                     "Negative" title_) ;;
      emit (PlotlyChart fig) ;;
      within (Expander "View data") (emit (DataframeView (reset_index disp)))
  end.

Definition strengths_section (argsort : list Q -> list nat) (top_n : nat)
  : M unit :=
  ranked_section argsort
    "## Strength Areas (by % Positive, with Neutral & Negative)"
    "Top Strengths" "Top Strengths" false top_n.

Definition improve_section (argsort : list Q -> list nat) (top_n : nat)
  : M unit :=
  ranked_section argsort
    "## Areas to Improve (lowest % Positive, with Neutral & Negative)"
    "Areas to Improve" "Areas to Improve" true top_n.

Definition is_category (c : string) : bool :=
  existsb (String.eqb (lower c)) ["positive"; "neutral"; "negative"].

(** [cols.index(x)] for an [x] that is in [cols]. *)
Fixpoint index_of (x : string) (cols : list string) : nat :=
  match cols with
  | [] => 0
  | c :: cols' => if String.eqb x c then 0 else S (index_of x cols')
  end.

Definition trend_section : M unit :=
  emit (Markdown "## Yearly Trend") ;;
  trend <- sheets_get "Yearly Trend" ;;
  match trend with
  | None => emit (Info (not_found "Yearly Trend"))
  | Some trend =>
    df <- deref trend ;;
    if empty df then emit (Info (not_found "Yearly Trend"))
    else
      let cols := map lower (column_names df) in
      if existsb (String.eqb "positive %") cols then
        let t := rename df (nth (index_of "positive %" cols)
                                (column_names df) "")
                        "Positive %" in
        fig <- lift (px_line t (nth 0 (column_names t) "") "Positive %" None
                       "Positive % over time") ;;
        emit (PlotlyChart
                (update_layout fig (kind fig) (title fig) (Some "Percent")
                   (legend_orientation fig) 340)) ;;
        within (Expander "View data") (emit (DataframeView t))
      else
        for_each (column_names df)
          (fun col =>
             if is_category col then
               c <- obj_getitem trend col ;;
               c' <- lift (series_apply to_pct c) ;;
               obj_setitem trend col c'
             else ret tt) ;;
        df <- deref trend ;;
        melted <- lift (melt df (nth 0 (column_names df) "")
                          (filter is_category (column_names df))
                          "Category" "Percent") ;;
        fig <- lift (px_line melted (nth 0 (column_names melted) "")
                       "Percent" (Some "Category") "Perception over time") ;;
        emit (PlotlyChart
                (update_layout fig (kind fig) (title fig) (Some "Percent")
                   (legend_orientation fig) 340)) ;;
        df <- deref trend ;;
        within (Expander "View data") (emit (DataframeView df))
  end.

(** The sections in page order. *)
Inductive section_id : Type := Overall | Strengths | Improve | Trend.

Definition sheet_of (x : section_id) : string :=
  match x with
  | Overall => "Overall Summary"
  | Strengths => "Top Strengths"
  | Improve => "Areas to Improve"
  | Trend => "Yearly Trend"
  end.

Definition heading_of (x : section_id) : string :=
  match x with
  | Overall => "## Dataset Descriptive Summary"
  | Strengths => "## Strength Areas (by % Positive, with Neutral & Negative)"
  | Improve =>
      "## Areas to Improve (lowest % Positive, with Neutral & Negative)"
  | Trend => "## Yearly Trend"
  end.

Definition section (argsort : list Q -> list nat) (top_n : nat)
    (x : section_id) : M unit :=
  match x with
  | Overall => overall_section
  | Strengths => strengths_section argsort top_n
  | Improve => improve_section argsort top_n
  | Trend => trend_section
  end.

Definition sections (argsort : list Q -> list nat) (top_n : nat) : M unit :=
  overall_section ;;
  strengths_section argsort top_n ;;
  improve_section argsort top_n ;;
  trend_section.


Definition run {A} (m : M A) (sheets : list (string * DataFrame))
  : res A * state :=
  m Main {| store := sheets; ui := [] |}.

End Page.
Export Page.

(** ** Notions used to state the properties *)

Module Derived.

(** The result of [to_pct] where it returns. *)
Definition normalized (v : value) : value :=
  match to_pct v with
  | Ok x => x
  | Raise _ => v
  end.

(** Numbers or missing: what [to_pct] accepts. *)
Definition numeric (col : list value) : Prop :=
  Forall (fun v => is_str v = false) col.

(** A column with rows and not one value in them. *)
Definition all_missing (col : list value) : bool :=
  negb (length col =? 0)%nat && forallb isna col.

(** Every column is as long as the index. *)
Definition well_formed (df : DataFrame) : Prop :=
  Forall (fun c => length (snd c) = nrows df) (columns df).

(** Two values that denote the same cell content. *)
Definition value_eq (a b : value) : Prop :=
  match a, b with
  | Missing, Missing => True
  | Num p, Num q => (p == q)%Q
  | Str s, Str t => s = t
  | _, _ => False
  end.

(** What a section shows in place of its content when its sheet is absent or
    empty. *)
Definition notice_only (x : section_id) : M unit :=
  emit (Markdown (heading_of x)) ;;
  emit (Info (not_found (sheet_of x))).

(** The chart [make_stacked_bar] builds from a category axis and three
    series. *)
Definition stacked_figure (title_ : string) (x yp yn yg : list value)
  : figure :=
  {| kind := BarChart "stack";
     traces := [bar "Positive" x yp; bar "Neutral" x yn; bar "Negative" x yg];
     title := Some title_; yaxis_title := Some "Percent";
     legend_orientation := None; height := 420 |}.

(** Positions of the rows a ranked section keeps, best first: the first
    [top_n] of the sort on the normalised Positive column [pos]. *)
Definition ranked_selection (argsort : list Q -> list nat) (ascending : bool)
    (top_n : nat) (pos : list value) : list nat :=
  firstn top_n (nargsort argsort ascending (map normalized pos)).

(** The working copy of a ranked section after its three assignments. *)
Definition ranked_copy (df : DataFrame) (pos neu neg : list value)
  : DataFrame :=
  setitem (setitem (setitem df "Positive" (map normalized pos))
                   "Neutral" (map normalized neu))
          "Negative" (map normalized neg).

(** Ranking of two cells of the sorted column: [ranks_before] when the first
    must come first (a number before a missing value, or the strictly better
    number for the direction), [ranks_equal] for a tie. *)
Definition ranks_before (ascending : bool) (v w : value) : Prop :=
  isna v = false /\
  (isna w = true \/
   (isna w = false /\
    if ascending then (sort_key v < sort_key w)%Q
    else (sort_key w < sort_key v)%Q)).

Definition ranks_equal (v w : value) : Prop :=
  (isna v = true /\ isna w = true) \/
  (isna v = false /\ isna w = false /\ (sort_key v == sort_key w)%Q).

(** A fragment that leaves every table of the sheet set as it is. *)
Definition preserves_store {A} (m : M A) : Prop :=
  forall (p : place) (s : state), store (snd (m p s)) = store s.

(** Two states hold the same table (or none) under sheet name [k]. *)
Definition agree (k : string) (s1 s2 : state) : Prop :=
  assoc_get k (store s1) = assoc_get k (store s2).

(** A fragment confined to the sheet [k]: it changes no other sheet, and
    what it returns, shows and leaves under [k] is determined by the table
    under [k]. *)
Definition confined (k : string) {A} (m : M A) : Prop :=
  (forall (p : place) (s : state) (k' : string),
      k' <> k ->
      assoc_get k' (store (snd (m p s))) = assoc_get k' (store s)) /\
  (forall (p : place) (s1 s2 : state),
      agree k s1 s2 ->
      exists out : list (place * element),
        fst (m p s1) = fst (m p s2) /\
        ui (snd (m p s1)) = ui s1 ++ out /\
        ui (snd (m p s2)) = ui s2 ++ out /\
        agree k (snd (m p s1)) (snd (m p s2))).

Definition section_id_eqb (x y : section_id) : bool :=
  match x, y with
  | Overall, Overall | Strengths, Strengths
  | Improve, Improve | Trend, Trend => true
  | _, _ => false
  end.

(** The column [c] of a table, empty when there is none. *)
Definition column (df : DataFrame) (c : string) : list value :=
  match getitem df c with
  | Ok col => col
  | Raise _ => []
  end.

(** The sheet [k] is not in the sheet set, or its table is empty. *)
Definition absent_or_empty (k : string) (sheets : list (string * DataFrame))
  : Prop :=
  match assoc_get k sheets with
  | None => True
  | Some df => empty df = true
  end.

(** The Percentage cell of the first row of the Overall Summary whose
    Category is [label], letter case apart; what the metric loop reads. *)
Definition category_cell (df : DataFrame) (label : string) : res value :=
  res_bind (getitem df "Category") (fun cat =>
  res_bind (str_lower cat) (fun low =>
  res_bind (getitem df "Percentage") (fun pct =>
  first_value (select (map (value_eqb (Str (lower label))) low) pct)))).

(** The metric shown for [label] in column [col]: none unless that cell is a
    number. *)
Definition metric_shown (df : DataFrame) (col : nat) (label : string)
  : list (place * element) :=
  match res_bind (category_cell df label) to_pct with
  | Ok (Num q) => [(Column col, Metric label q)]
  | _ => []
  end.

(** The bar chart of the Overall Summary, for category labels [cat] and
    percentages [pct]. *)
Definition overall_bar (cat pct : list value) : figure :=
  {| kind := BarChart "relative";
     traces := [ {| trace_name := ""; trace_x := cat; trace_y := pct;
                    trace_text := map round1 pct |} ];
     title := None; yaxis_title := Some "Percent";
     legend_orientation := None; height := 300 |}.

(** One pass of the trend loop over the column [c]: a
    Positive/Neutral/Negative column is replaced by its normalised values. *)
Definition normalize_in_place (df : DataFrame) (c : string) : DataFrame :=
  if is_category c then setitem df c (map normalized (column df c)) else df.

(** The trend table after the loop over its columns. *)
Definition trend_normalized (df : DataFrame) : DataFrame :=
  fold_left normalize_in_place (column_names df) df.

(** The category columns among [names] are there and hold numbers. *)
Definition loop_ready (names : list string) (df : DataFrame) : Prop :=
  forall c, In c names -> is_category c = true ->
            exists col, getitem df c = Ok col /\ numeric col.

(** The long form of a wide table: for each category column in turn, the
    [x] column next to the column's name and its values. *)
Definition long_form (df : DataFrame) (x : string) (cats : list string)
  : DataFrame :=
  {| index := seq 0 (nrows df * length cats);
     columns :=
       [ (x, concat (map (fun _ => column df x) cats));
         ("Category", flat_map (fun c => repeat (Str c) (nrows df)) cats);
         ("Percent", concat (map (column df) cats)) ] |}.

(** The rows of a three-column table as triples. *)
Definition triples (x : string) (long : DataFrame)
  : list (value * value * value) :=
  combine (combine (column long x) (column long "Category"))
          (column long "Percent").

(** The figure of the three-series trend chart for a long table. *)
Definition trend_figure (fig : figure) : figure :=
  update_layout fig (kind fig) (title fig) (Some "Percent")
    (legend_orientation fig) 340.

(** Sort direction of the two ranked sections. *)
Definition ascending_of (x : section_id) : bool :=
  match x with
  | Improve => true
  | _ => false
  end.

(** [to_pct] applied to its own result. *)
Definition to_pct_twice (v : value) : res value := res_bind (to_pct v) to_pct.

End Derived.
Export Derived.

(** ** Sample tables *)

Module Samples.

Definition empty_ranked_table : DataFrame :=
  {| index := [];
     columns := [("Question", []); ("Positive", []); ("Neutral", []);
                 ("Negative", [])] |}.

(** Four questions whose Positive values are 10, 90, 50, 90. *)
Definition ranking_table : DataFrame :=
  {| index := [0; 1; 2; 3]%nat;
     columns := [("Question", [Str "Q1"; Str "Q2"; Str "Q3"; Str "Q4"]);
                 ("Positive", [Num 10; Num 90; Num 50; Num 90]);
                 ("Neutral", [Num 20; Num 5; Num 25; Num 4]);
                 ("Negative", [Num 70; Num 5; Num 25; Num 6])] |}.

Definition ranking_sheets : list (string * DataFrame) :=
  [("Top Strengths", ranking_table); ("Areas to Improve", ranking_table)].

(** The wide trend table of the reshape example. *)
Definition trend_wide : DataFrame :=
  {| index := [0; 1]%nat;
     columns := [("Year", [Num 2020; Num 2021]);
                 ("Positive", [Num (8 # 10); Num (9 # 10)]);
                 ("Neutral", [Num (15 # 100); Num (5 # 100)]);
                 ("Negative", [Num (5 # 100); Num (5 # 100)])] |}.

(** A trend table with a ready percentage column. *)
Definition trend_single : DataFrame :=
  {| index := [0; 1]%nat;
     columns := [("Year", [Num 2020; Num 2021]);
                 ("POSITIVE %", [Num 80; Num 90])] |}.

(** An Overall Summary whose Neutral percentage is missing. *)
Definition overall_table : DataFrame :=
  {| index := [0; 1; 2]%nat;
     columns := [("Category", [Str "Positive"; Str "Neutral"; Str "Negative"]);
                 ("Percentage", [Num (6 # 10); Missing; Num (1 # 10)])] |}.

(** The same sheets, the second one with its columns but no rows. *)
Definition sheets_with_empty_improve : list (string * DataFrame) :=
  [("Top Strengths", ranking_table); ("Areas to Improve", empty_ranked_table)].

(** A ranking table without the Neutral column. *)
Definition ranking_no_neutral : DataFrame :=
  {| index := [0; 1]%nat;
     columns := [("Question", [Str "Q1"; Str "Q2"]);
                 ("Positive", [Num 10; Num 90]);
                 ("Negative", [Num 70; Num 5])] |}.

(** A ranking table with a text cell among the ratings. *)
Definition ranking_with_text : DataFrame :=
  {| index := [0; 1]%nat;
     columns := [("Question", [Str "Q1"; Str "Q2"]);
                 ("Positive", [Num 10; Num 90]);
                 ("Neutral", [Num 20; Str "n/a"]);
                 ("Negative", [Num 70; Num 5])] |}.

(** An Overall Summary without the Category column. *)
Definition overall_no_category : DataFrame :=
  {| index := [0; 1]%nat;
     columns := [("Percentage", [Num (6 # 10); Num (4 # 10)])] |}.

(** An Overall Summary whose column is named otherwise. *)
Definition overall_no_percentage : DataFrame :=
  {| index := [0; 1]%nat;
     columns := [("Category", [Str "Positive"; Str "Negative"]);
                 ("Percent", [Num (6 # 10); Num (4 # 10)])] |}.

(** A trend table with none of the columns the section knows. *)
Definition trend_other : DataFrame :=
  {| index := [0; 1]%nat;
     columns := [("Year", [Num 2020; Num 2021]);
                 ("Score", [Num 3; Num 4])] |}.

(** A ranking table whose Positive values differ. *)
Definition ranking_distinct : DataFrame :=
  {| index := [0; 1; 2]%nat;
     columns := [("Question", [Str "Q1"; Str "Q2"; Str "Q3"]);
                 ("Positive", [Num 10; Num 90; Num 50]);
                 ("Neutral", [Num 20; Num 5; Num 25]);
                 ("Negative", [Num 70; Num 5; Num 25])] |}.

(** An Overall Summary with a text cell among the percentages. *)
Definition overall_with_text : DataFrame :=
  {| index := [0; 1]%nat;
     columns := [("Category", [Str "Positive"; Str "Negative"]);
                 ("Percentage", [Num (6 # 10); Str "n/a"])] |}.

(** A wide trend table with a text cell in its Neutral column. *)
Definition trend_with_text : DataFrame :=
  {| index := [0; 1]%nat;
     columns := [("Year", [Num 2020; Num 2021]);
                 ("Positive", [Num (8 # 10); Num (9 # 10)]);
                 ("Neutral", [Num (15 # 100); Str "n/a"]);
                 ("Negative", [Num (5 # 100); Num (5 # 100)])] |}.

(** An Overall Summary whose percentages are all blank. *)
Definition overall_blank : DataFrame :=
  {| index := [0; 1; 2]%nat;
     columns := [("Category", [Str "Positive"; Str "Neutral"; Str "Negative"]);
                 ("Percentage", [Missing; Missing; Missing])] |}.

(** A wide trend table that has a column named Percent. *)
Definition trend_percent : DataFrame :=
  {| index := [0; 1]%nat;
     columns := [("Year", [Num 2020; Num 2021]);
                 ("Positive", [Num (8 # 10); Num (9 # 10)]);
                 ("Percent", [Num 80; Num 90])] |}.


Definition ranking_state : state := {| store := ranking_sheets; ui := [] |}.

Definition trend_state (df : DataFrame) : state :=
  {| store := [("Yearly Trend", df)]; ui := [] |}.

Definition overall_state : state :=
  {| store := [("Overall Summary", overall_table)]; ui := [] |}.

End Samples.
Export Samples.

(** ** The cache around [load_excel]; notions for further properties *)

Module Further.

(** [@st.cache_data] on [load_excel]: the sheets loaded for a path are kept
    and handed out again for that path; a call that raises keeps nothing. *)
Definition cache : Type := list (string * list (string * DataFrame)).

Definition cached_load_excel (fs : string -> option workbook) (fp : string)
    (c : cache) : res (list (string * DataFrame)) * cache :=
  match assoc_get fp c with
  | Some sheets => (Ok sheets, c)
  | None =>
      match load_excel fs fp with
      | Ok sheets => (Ok sheets, assoc_set fp sheets c)
      | Raise e => (Raise e, c)
      end
  end.

(** The path the script loads. *)
Definition workbook_path : string := "data/perception_summary.xlsx".


(** Heading and not-found notice of a section, shown at [p]. *)
Definition notice_shown (p : place) (x : section_id)
  : list (place * element) :=
  [(p, Markdown (heading_of x)); (p, Info (not_found (sheet_of x)))].




(** A not-found notice among what is shown. *)
Definition is_notice (e : place * element) : bool :=
  match snd e with
  | Info _ => true
  | _ => false
  end.

(** A fragment that only adds to the page, and no notice. *)
Definition quiet {A} (m : M A) : Prop :=
  forall (p : place) (s : state),
  exists out : list (place * element),
    ui (snd (m p s)) = ui s ++ out /\
    Forall (fun e => is_notice e = false) out.

Definition page_order : list section_id :=
  [Overall; Strengths; Improve; Trend].

(** The sections [ys] run in turn from [s], as the script runs them: for
    each section reached, what it returned and what it added to the page;
    the sections after one that raised are not reached. *)
Fixpoint rendered (argsort : list Q -> list nat) (top_n : nat)
    (ys : list section_id) (p : place) (s : state)
  : list (section_id * (res unit * list (place * element))) :=
  match ys with
  | [] => []
  | y :: ys' =>
      let r := section argsort top_n y p s in
      (y, (fst r, skipn (length (ui s)) (ui (snd r)))) ::
      match fst r with
      | Ok _ => rendered argsort top_n ys' p (snd r)
      | Raise _ => []
      end
  end.

(** The entry of section [x] replaced by its heading and notice. *)
Definition noticed (x : section_id) (p : place)
    (r : section_id * (res unit * list (place * element)))
  : section_id * (res unit * list (place * element)) :=
  if section_id_eqb (fst r) x then (x, (Ok tt, notice_shown p x)) else r.

(** No two numbers of the column are equal. *)
Definition no_ties (items : list value) : Prop :=
  forall i j : nat,
    (i < length items)%nat -> (j < length items)%nat -> i <> j ->
    isna (nth i items Missing) = false ->
    isna (nth j items Missing) = false ->
    ~ (sort_key (nth i items Missing) == sort_key (nth j items Missing))%Q.

End Further.
Export Further.

(** * Properties *)

Local Open Scope Q_scope.

Lemma Qle_bool_false_iff (x y : Q) : Qle_bool x y = false <-> ~ x <= y.
Proof.
  rewrite <- Qle_bool_iff. destruct (Qle_bool x y); split; intros; easy.
Qed.

(** C1. Contract of the percentage normaliser: a missing input gives the
    missing value; a number [v] gives [v*100] when [v <= 1] and [v] itself
    otherwise. *)
Theorem to_pct_contract :
  to_pct Missing = Ok Missing /\
  forall v : Q,
    (v <= 1 -> to_pct (Num v) = Ok (Num (v * 100))) /\
    (~ v <= 1 -> to_pct (Num v) = Ok (Num v)).
Proof.
  split; [reflexivity|].
  intros v; split; intros H; unfold to_pct; simpl.
  - apply Qle_bool_iff in H. now rewrite H.
  - apply Qle_bool_false_iff in H. now rewrite H.
Qed.

Lemma to_pct_contract_witness :
  to_pct (Num (1 # 2)) = Ok (Num ((1 # 2) * 100)) /\
  to_pct (Num 75) = Ok (Num 75).
Proof.
  split.
  - apply (proj1 (proj2 to_pct_contract (1 # 2))). vm_compute. discriminate.
  - apply (proj2 (proj2 to_pct_contract 75)). vm_compute. intros H. now apply H.
Defined.

Lemma to_pct_le (v : Q) : v <= 1 -> to_pct (Num v) = Ok (Num (v * 100)).
Proof.
  intros H. unfold to_pct. simpl. apply Qle_bool_iff in H. now rewrite H.
Qed.

Lemma to_pct_gt (v : Q) : 1 < v -> to_pct (Num v) = Ok (Num v).
Proof.
  intros H. unfold to_pct. simpl.
  apply Qlt_not_le, Qle_bool_false_iff in H. now rewrite H.
Qed.

(** C4. A value above 1 is returned as it is, so normalising it again changes
    nothing; but some value [v <= 1] is changed again by a second call. *)
Theorem to_pct_idempotent_above_one_only :
  (forall v : Q,
      1 < v ->
      to_pct (Num v) = Ok (Num v) /\
      res_bind (to_pct (Num v)) to_pct = to_pct (Num v)) /\
  (exists v a b : Q,
      v <= 1 /\
      to_pct (Num v) = Ok (Num a) /\
      res_bind (to_pct (Num v)) to_pct = Ok (Num b) /\
      ~ b == a).
Proof.
  split.
  - intros v Hv. rewrite (to_pct_gt v Hv). simpl. now rewrite (to_pct_gt v Hv).
  - exists (5 # 1000), ((5 # 1000) * 100), ((5 # 1000) * 100 * 100).
    repeat split; try reflexivity; vm_compute; discriminate.
Qed.

Lemma to_pct_idempotent_above_one_only_witness :
  to_pct (Num 75) = Ok (Num 75) /\
  res_bind (to_pct (Num 75)) to_pct = to_pct (Num 75).
Proof.
  apply (proj1 to_pct_idempotent_above_one_only 75). reflexivity.
Defined.

(** ** Association lists, columns *)

Lemma assoc_get_set {A} (k k' : string) (a : A) (l : list (string * A)) :
  assoc_get k (assoc_set k' a l) =
  if String.eqb k k' then Some a else assoc_get k l.
Proof.
  induction l as [|[k0 a0] l IH]; simpl.
  - destruct (String.eqb_spec k k'); reflexivity.
  - destruct (String.eqb_spec k' k0) as [->|Hne]; simpl.
    + destruct (String.eqb_spec k k0); reflexivity.
    + rewrite IH. destruct (String.eqb_spec k k0) as [->|Hne'].
      * destruct (String.eqb_spec k0 k'); congruence.
      * reflexivity.
Qed.

Lemma assoc_get_set_same {A} (k : string) (a : A) (l : list (string * A)) :
  assoc_get k (assoc_set k a l) = Some a.
Proof. rewrite assoc_get_set. now rewrite String.eqb_refl. Qed.

Lemma assoc_get_set_other {A} (k k' : string) (a : A) (l : list (string * A)) :
  k <> k' -> assoc_get k (assoc_set k' a l) = assoc_get k l.
Proof.
  intros H. rewrite assoc_get_set. destruct (String.eqb_spec k k'); congruence.
Qed.

Lemma getitem_setitem_same (df : DataFrame) (c : string) (vals : list value) :
  getitem (setitem df c vals) c = Ok vals.
Proof. unfold getitem, setitem; simpl. now rewrite assoc_get_set_same. Qed.

Lemma getitem_setitem_other (df : DataFrame) (c c' : string)
    (vals : list value) :
  c <> c' -> getitem (setitem df c' vals) c = getitem df c.
Proof.
  intros H. unfold getitem, setitem; simpl. now rewrite assoc_get_set_other.
Qed.

Lemma getitem_Ok (df : DataFrame) (c : string) (col : list value) :
  getitem df c = Ok col <-> assoc_get c (columns df) = Some col.
Proof.
  unfold getitem. destruct (assoc_get c (columns df)); split; congruence.
Qed.

Lemma assoc_get_In {A} (k : string) (a : A) (l : list (string * A)) :
  assoc_get k l = Some a -> In (k, a) l.
Proof.
  induction l as [|[k0 a0] l IH]; simpl; [discriminate|].
  destruct (String.eqb_spec k k0) as [->|Hne]; intros H.
  - injection H as ->. now left.
  - right. auto.
Qed.

(** ** [to_pct] on a column *)

Lemma to_pct_normalized (v : value) :
  is_str v = false -> to_pct v = Ok (normalized v).
Proof.
  destruct v; simpl; try discriminate; intros _; reflexivity.
Qed.

Lemma normalized_not_str (v : value) :
  is_str v = false -> is_str (normalized v) = false.
Proof. destruct v; simpl; try discriminate; reflexivity. Qed.

Lemma series_apply_numeric (col : list value) :
  numeric col -> series_apply to_pct col = Ok (map normalized col).
Proof.
  unfold series_apply. induction 1 as [|v col Hv _ IH]; simpl; [reflexivity|].
  rewrite (to_pct_normalized v Hv). simpl. now rewrite IH.
Qed.

Lemma numeric_normalized (col : list value) :
  numeric col -> numeric (map normalized col).
Proof.
  unfold numeric. intros H. apply Forall_map.
  eapply Forall_impl; [|exact H]. apply normalized_not_str.
Qed.

Lemma series_apply_inv (col col' : list value) :
  series_apply to_pct col = Ok col' ->
  numeric col /\ col' = map normalized col.
Proof.
  unfold series_apply. revert col'.
  induction col as [|v col IH]; simpl; intros col' H.
  - injection H as <-. split; [constructor | reflexivity].
  - destruct v as [|q|s]; simpl in H; try discriminate;
      destruct (res_map to_pct col) as [ys|] eqn:E; simpl in H;
      try discriminate; injection H as <-;
      destruct (IH ys eq_refl) as [Hn ->];
      (split; [constructor; [reflexivity | exact Hn] | reflexivity]).
Qed.

(** ** [make_stacked_bar] and [donut] *)

Lemma make_stacked_bar_run (df : DataFrame) (y p n g t : string)
    (x cp cn cg yp yn yg : list value) :
  getitem df y = Ok x -> getitem df p = Ok cp ->
  getitem df n = Ok cn -> getitem df g = Ok cg ->
  series_apply to_pct cp = Ok yp ->
  series_apply to_pct cn = Ok yn ->
  series_apply to_pct cg = Ok yg ->
  y <> p -> y <> n -> y <> g -> p <> n -> p <> g -> n <> g ->
  make_stacked_bar df y p n g t = Ok (stacked_figure t x yp yn yg).
Proof.
  intros Hy Hp Hn Hg Ap An Ag Hyp Hyn Hyg Hpn Hpg Hng.
  unfold make_stacked_bar, copy. simpl.
  rewrite Hp. simpl. rewrite Ap. simpl.
  rewrite (getitem_setitem_other df n p) by congruence.
  rewrite Hn. simpl. rewrite An. simpl.
  rewrite (getitem_setitem_other _ g n) by congruence.
  rewrite (getitem_setitem_other _ g p) by congruence.
  rewrite Hg. simpl. rewrite Ag. simpl.
  rewrite !(getitem_setitem_other _ y g) by congruence.
  rewrite !(getitem_setitem_other _ y n) by congruence.
  rewrite !(getitem_setitem_other _ y p) by congruence.
  rewrite Hy. simpl.
  rewrite (getitem_setitem_other _ p g) by congruence.
  rewrite (getitem_setitem_other _ p n) by congruence.
  rewrite getitem_setitem_same. simpl.
  rewrite (getitem_setitem_other _ n g) by congruence.
  rewrite getitem_setitem_same. simpl.
  rewrite getitem_setitem_same. simpl.
  reflexivity.
Qed.

Lemma getitem_setitem_noop (df : DataFrame) (c k : string) (v : list value) :
  getitem df c = Ok v -> getitem (setitem df c v) k = getitem df k.
Proof.
  intros H. destruct (String.eqb_spec k c) as [->|Hne].
  - now rewrite getitem_setitem_same.
  - now apply getitem_setitem_other.
Qed.

Lemma zero_rows_column (df : DataFrame) (c : string) (col : list value) :
  well_formed df -> nrows df = 0%nat -> getitem df c = Ok col -> col = [].
Proof.
  intros Hwf Hn Hc. apply getitem_Ok, assoc_get_In in Hc.
  unfold well_formed in Hwf. rewrite Forall_forall in Hwf.
  specialize (Hwf _ Hc). simpl in Hwf. rewrite Hn in Hwf.
  now apply length_zero_iff_nil.
Qed.

Lemma getitem_present (df : DataFrame) (c : string) :
  assoc_get c (columns df) <> None -> exists col, getitem df c = Ok col.
Proof.
  unfold getitem. destruct (assoc_get c (columns df)) as [col|]; [|congruence].
  intros _. now exists col.
Qed.

(** C10. The chart shapers return a chart description for empty input: a table
    with the expected columns and no rows gives a stacked bar chart whose
    three series are empty, and [donut] of no values gives a pie without
    entries. *)
Theorem shapers_accept_empty_input :
  (forall (df : DataFrame) (y p n g t : string),
      well_formed df -> nrows df = 0%nat ->
      assoc_get y (columns df) <> None ->
      assoc_get p (columns df) <> None ->
      assoc_get n (columns df) <> None ->
      assoc_get g (columns df) <> None ->
      make_stacked_bar df y p n g t = Ok (stacked_figure t [] [] [] [])) /\
  (forall t : string,
      traces (donut [] [] t) =
      [ {| trace_name := ""; trace_x := []; trace_y := []; trace_text := [] |} ]).
Proof.
  split; [|reflexivity].
  intros df y p n g t Hwf Hrows Hy Hp Hn Hg.
  destruct (getitem_present df y Hy) as [x Hx].
  destruct (getitem_present df p Hp) as [cp Hcp].
  destruct (getitem_present df n Hn) as [cn Hcn].
  destruct (getitem_present df g Hg) as [cg Hcg].
  rewrite (zero_rows_column df y x Hwf Hrows Hx) in Hx.
  rewrite (zero_rows_column df p cp Hwf Hrows Hcp) in Hcp.
  rewrite (zero_rows_column df n cn Hwf Hrows Hcn) in Hcn.
  rewrite (zero_rows_column df g cg Hwf Hrows Hcg) in Hcg.
  unfold make_stacked_bar, copy. simpl.
  rewrite Hcp. simpl.
  rewrite (getitem_setitem_noop df p n [] Hcp), Hcn. simpl.
  assert (H1 : forall k, getitem (setitem (setitem df p []) n []) k
                         = getitem df k).
  { intros k. rewrite getitem_setitem_noop.
    - now apply getitem_setitem_noop.
    - now rewrite (getitem_setitem_noop df p n [] Hcp). }
  rewrite H1, Hcg. simpl.
  assert (H2 : forall k,
             getitem (setitem (setitem (setitem df p []) n []) g []) k
             = getitem df k).
  { intros k. rewrite getitem_setitem_noop; [apply H1|]. now rewrite H1. }
  rewrite !H2, Hx, Hcp, Hcn, Hcg. reflexivity.
Qed.

Lemma shapers_accept_empty_input_witness :
  make_stacked_bar empty_ranked_table "Question" "Positive" "Neutral"
    "Negative" "Top Strengths"
  = Ok (stacked_figure "Top Strengths" [] [] [] []).
Proof.
  apply (proj1 shapers_accept_empty_input empty_ranked_table).
  - repeat constructor.
  - reflexivity.
  - simpl; discriminate.
  - simpl; discriminate.
  - simpl; discriminate.
  - simpl; discriminate.
Defined.

(** ** Row selection *)

Lemma assoc_get_map {A B} (f : A -> B) (k : string) (l : list (string * A)) :
  assoc_get k (map (fun c => (fst c, f (snd c))) l)
  = option_map f (assoc_get k l).
Proof.
  induction l as [|[k0 a0] l IH]; simpl; [reflexivity|].
  destruct (String.eqb k k0); [reflexivity | exact IH].
Qed.

Lemma getitem_take_rows (pos : list nat) (df : DataFrame) (c : string)
    (col : list value) :
  getitem df c = Ok col -> getitem (take_rows pos df) c = Ok (rows_at pos col).
Proof.
  rewrite !getitem_Ok. intros H. unfold take_rows; simpl.
  now rewrite assoc_get_map, H.
Qed.

Lemma getitem_head (n : nat) (df : DataFrame) (c : string) (col : list value) :
  getitem df c = Ok col -> getitem (head n df) c = Ok (firstn n col).
Proof.
  rewrite !getitem_Ok. intros H. unfold head; simpl.
  now rewrite assoc_get_map, H.
Qed.

Lemma firstn_rows_at (n : nat) (pos : list nat) (col : list value) :
  firstn n (rows_at pos col) = rows_at (firstn n pos) col.
Proof. unfold rows_at. apply firstn_map. Qed.

Lemma numeric_rows_at (pos : list nat) (col : list value) :
  numeric col -> numeric (rows_at pos col).
Proof.
  unfold numeric, rows_at. intros H. apply Forall_map, Forall_forall.
  intros i _. destruct (Nat.lt_ge_cases i (length col)) as [Hi|Hi].
  - rewrite Forall_forall in H. apply H. now apply nth_In.
  - now rewrite nth_overflow.
Qed.

Lemma rows_at_normalized (pos : list nat) (col : list value) :
  rows_at pos (map normalized col) = map normalized (rows_at pos col).
Proof.
  unfold rows_at. rewrite map_map. apply map_ext. intros i.
  change Missing with (normalized Missing) at 1. apply map_nth.
Qed.

Lemma numeric_no_str (col : list value) :
  numeric col -> existsb is_str col = false.
Proof.
  induction 1 as [|v col Hv _ IH]; simpl; [reflexivity|]. now rewrite Hv.
Qed.

(** ** The ranked sections, run on a table with the expected columns *)

Lemma ranked_section_run (argsort : list Q -> list nat)
    (heading sheet t : string) (asc : bool) (N : nat) (p : place) (s : state)
    (df : DataFrame) (q pos neu neg : list value) :
  assoc_get sheet (store s) = Some df ->
  empty df = false ->
  getitem df "Question" = Ok q ->
  getitem df "Positive" = Ok pos ->
  getitem df "Neutral" = Ok neu ->
  getitem df "Negative" = Ok neg ->
  numeric pos -> numeric neu -> numeric neg ->
  let sel := ranked_selection argsort asc N pos in
  ranked_section argsort heading sheet t asc N p s =
  (Ok tt,
   {| store := store s;
      ui := ui s ++
            [ (p, Markdown heading);
              (p, PlotlyChart
                    (stacked_figure t (rows_at sel q)
                       (map normalized (map normalized (rows_at sel pos)))
                       (map normalized (map normalized (rows_at sel neu)))
                       (map normalized (map normalized (rows_at sel neg)))));
              (Expander "View data",
               DataframeView
                 (reset_index
                    (head N
                       (take_rows
                          (nargsort argsort asc (map normalized pos))
                          (ranked_copy df pos neu neg))))) ] |}).
Proof.
  intros Hs He Hq Hp Hn Hg Np Nn Ng sel.
  set (order := nargsort argsort asc (map normalized pos)).
  set (df3 := ranked_copy df pos neu neg).
  assert (G3q : getitem df3 "Question" = Ok q).
  { unfold df3, ranked_copy.
    rewrite !getitem_setitem_other by discriminate. exact Hq. }
  assert (G3p : getitem df3 "Positive" = Ok (map normalized pos)).
  { unfold df3, ranked_copy.
    rewrite !getitem_setitem_other by discriminate.
    apply getitem_setitem_same. }
  assert (G3n : getitem df3 "Neutral" = Ok (map normalized neu)).
  { unfold df3, ranked_copy.
    rewrite getitem_setitem_other by discriminate.
    apply getitem_setitem_same. }
  assert (G3g : getitem df3 "Negative" = Ok (map normalized neg)).
  { unfold df3, ranked_copy. apply getitem_setitem_same. }
  assert (Hsel : forall col,
             firstn N (rows_at order col) = rows_at sel col).
  { intros col. apply firstn_rows_at. }
  assert (Hbar :
    make_stacked_bar (head N (take_rows order df3)) "Question" "Positive"
      "Neutral" "Negative" t
    = Ok (stacked_figure t (rows_at sel q)
            (map normalized (map normalized (rows_at sel pos)))
            (map normalized (map normalized (rows_at sel neu)))
            (map normalized (map normalized (rows_at sel neg))))).
  { assert (Hcol : forall c col,
               getitem df3 c = Ok (map normalized col) ->
               getitem (head N (take_rows order df3)) c
               = Ok (map normalized (rows_at sel col))).
    { intros c col Hc. rewrite <- rows_at_normalized, <- Hsel.
      now apply getitem_head, getitem_take_rows. }
    eapply make_stacked_bar_run; try discriminate.
    - rewrite <- Hsel. now apply getitem_head, getitem_take_rows.
    - apply Hcol; eassumption.
    - apply Hcol; eassumption.
    - apply Hcol; eassumption.
    - apply series_apply_numeric, numeric_normalized.
      now apply numeric_rows_at.
    - apply series_apply_numeric, numeric_normalized.
      now apply numeric_rows_at.
    - apply series_apply_numeric, numeric_normalized.
      now apply numeric_rows_at. }
  unfold ranked_section, bind, emit, sheets_get, deref, lift, within, copy.
  cbn [store ui]. rewrite Hs. cbn [store ui]. rewrite Hs, He.
  rewrite Hp, (series_apply_numeric pos Np).
  rewrite (getitem_setitem_other df "Neutral" "Positive") by discriminate.
  rewrite Hn, (series_apply_numeric neu Nn).
  rewrite !(getitem_setitem_other _ "Negative") by discriminate.
  rewrite Hg, (series_apply_numeric neg Ng).
  fold (ranked_copy df pos neu neg). fold df3.
  unfold sort_values. rewrite G3p. cbn [res_bind].
  rewrite (numeric_no_str _ (numeric_normalized pos Np)).
  fold order. rewrite Hbar. cbn [store ui].
  rewrite <- !app_assoc. reflexivity.
Qed.

Lemma section_ranked (argsort : list Q -> list nat) (N : nat)
    (x : section_id) :
  x = Strengths \/ x = Improve ->
  exists t,
    section argsort N x
    = ranked_section argsort (heading_of x) (sheet_of x) t (ascending_of x) N.
Proof.
  intros [->| ->]; [exists "Top Strengths" | exists "Areas to Improve"];
    reflexivity.
Qed.

Lemma to_pct_twice_normalized (col : list value) :
  numeric col ->
  Forall2 (fun v y => to_pct_twice v = Ok y) col
          (map normalized (map normalized col)).
Proof.
  induction 1 as [|v col Hv _ IH]; simpl; constructor; [|exact IH].
  unfold to_pct_twice. rewrite (to_pct_normalized v Hv). simpl.
  apply to_pct_normalized. now apply normalized_not_str.
Qed.

Lemma to_pct_twice_small (v : Q) :
  v <= 1 # 100 -> to_pct_twice (Num v) = Ok (Num (v * 100 * 100)).
Proof.
  intros H. unfold to_pct_twice.
  rewrite to_pct_le by lra. simpl res_bind. apply to_pct_le. lra.
Qed.

Lemma to_pct_twice_large (v : Q) :
  1 # 100 < v -> to_pct_twice (Num v) = to_pct (Num v).
Proof.
  intros H. unfold to_pct_twice.
  destruct (Qlt_le_dec 1 v) as [Hgt|Hle].
  - rewrite (to_pct_gt v Hgt). simpl. now apply to_pct_gt.
  - rewrite (to_pct_le v Hle). simpl. apply to_pct_gt. lra.
Qed.

(** C5. In the Strengths and Areas-to-Improve sections every charted
    Positive/Neutral/Negative value is [to_pct (to_pct v)] of the sheet value
    [v] of its row: the section normalises the column and [make_stacked_bar]
    normalises it again.  For [0 < v <= 0.01] that is [v*10000] and not
    [v*100]; for [v > 0.01] it is the same as one normalisation. *)
Theorem ranked_sections_chart_to_pct_twice :
  (forall (argsort : list Q -> list nat) (N : nat) (x : section_id)
          (p : place) (s : state) (df : DataFrame)
          (q pos neu neg : list value),
      x = Strengths \/ x = Improve ->
      assoc_get (sheet_of x) (store s) = Some df ->
      empty df = false ->
      getitem df "Question" = Ok q ->
      getitem df "Positive" = Ok pos ->
      getitem df "Neutral" = Ok neu ->
      getitem df "Negative" = Ok neg ->
      numeric pos -> numeric neu -> numeric neg ->
      exists (tp tn tg : trace) (fig : figure) (shown : DataFrame),
        section argsort N x p s =
          (Ok tt,
           {| store := store s;
              ui := ui s ++ [ (p, Markdown (heading_of x));
                              (p, PlotlyChart fig);
                              (Expander "View data", DataframeView shown) ] |})
        /\ traces fig = [tp; tn; tg]
        /\ Forall2 (fun v y => to_pct_twice v = Ok y)
             (rows_at (ranked_selection argsort (ascending_of x) N pos) pos)
             (trace_y tp)
        /\ Forall2 (fun v y => to_pct_twice v = Ok y)
             (rows_at (ranked_selection argsort (ascending_of x) N pos) neu)
             (trace_y tn)
        /\ Forall2 (fun v y => to_pct_twice v = Ok y)
             (rows_at (ranked_selection argsort (ascending_of x) N pos) neg)
             (trace_y tg)) /\
  (forall v : Q,
      0 < v -> v <= 1 # 100 ->
      exists y : Q,
        to_pct_twice (Num v) = Ok (Num y) /\ y == v * 10000 /\ ~ y == v * 100)
  /\
  (forall v : Q, 1 # 100 < v -> to_pct_twice (Num v) = to_pct (Num v)).
Proof.
  split; [|split].
  - intros argsort N x p s df q pos neu neg Hx Hs He Hq Hp Hn Hg Np Nn Ng.
    destruct (section_ranked argsort N x Hx) as [t Ht]. rewrite Ht.
    rewrite (ranked_section_run argsort (heading_of x) (sheet_of x) t
               (ascending_of x) N p s df q pos neu neg) by assumption.
    do 5 eexists. split; [reflexivity|]. split; [reflexivity|].
    cbn [bar trace_y].
    repeat split; apply to_pct_twice_normalized; now apply numeric_rows_at.
  - intros v Hpos Hle. exists (v * 100 * 100). split; [|split].
    + now apply to_pct_twice_small.
    + ring.
    + intros H. lra.
  - apply to_pct_twice_large.
Qed.

Lemma ranking_table_numeric :
  numeric [Num 10; Num 90; Num 50; Num 90] /\
  numeric [Num 20; Num 5; Num 25; Num 4] /\
  numeric [Num 70; Num 5; Num 25; Num 6].
Proof. repeat split; repeat constructor. Qed.

Lemma ranked_sections_chart_to_pct_twice_witness :
  (exists (tp tn tg : trace) (fig : figure) (shown : DataFrame),
      section stable_argsort 2 Strengths Main ranking_state =
        (Ok tt,
         {| store := store ranking_state;
            ui := ui ranking_state ++
                  [ (Main, Markdown (heading_of Strengths));
                    (Main, PlotlyChart fig);
                    (Expander "View data", DataframeView shown) ] |})
      /\ traces fig = [tp; tn; tg]
      /\ Forall2 (fun v y => to_pct_twice v = Ok y)
           (rows_at (ranked_selection stable_argsort (ascending_of Strengths)
                       2 [Num 10; Num 90; Num 50; Num 90])
                    [Num 10; Num 90; Num 50; Num 90])
           (trace_y tp)
      /\ Forall2 (fun v y => to_pct_twice v = Ok y)
           (rows_at (ranked_selection stable_argsort (ascending_of Strengths)
                       2 [Num 10; Num 90; Num 50; Num 90])
                    [Num 20; Num 5; Num 25; Num 4])
           (trace_y tn)
      /\ Forall2 (fun v y => to_pct_twice v = Ok y)
           (rows_at (ranked_selection stable_argsort (ascending_of Strengths)
                       2 [Num 10; Num 90; Num 50; Num 90])
                    [Num 70; Num 5; Num 25; Num 6])
           (trace_y tg)) /\
  (exists y : Q,
      to_pct_twice (Num (5 # 1000)) = Ok (Num y) /\
      y == (5 # 1000) * 10000 /\ ~ y == (5 # 1000) * 100) /\
  to_pct_twice (Num (1 # 2)) = to_pct (Num (1 # 2)).
Proof.
  destruct ranking_table_numeric as [Np [Nn Ng]].
  split; [|split].
  - apply (proj1 ranked_sections_chart_to_pct_twice stable_argsort 2%nat
             Strengths Main ranking_state ranking_table
             [Str "Q1"; Str "Q2"; Str "Q3"; Str "Q4"]);
      try reflexivity; try assumption.
    now left.
  - apply (proj1 (proj2 ranked_sections_chart_to_pct_twice) (5 # 1000));
      reflexivity || (vm_compute; discriminate).
  - apply (proj2 (proj2 ranked_sections_chart_to_pct_twice) (1 # 2)).
    reflexivity.
Defined.

(** ** Sorted lists *)

Lemma StronglySorted_map_in {A B} (f : A -> B) (R : A -> A -> Prop)
    (R' : B -> B -> Prop) (l : list A) :
  (forall x y, In x l -> In y l -> R x y -> R' (f x) (f y)) ->
  StronglySorted R l -> StronglySorted R' (map f l).
Proof.
  intros H HS. induction HS as [|a l HS IH Ha]; simpl; constructor.
  - apply IH. intros x y Hx Hy. apply H; now right.
  - apply Forall_map. rewrite Forall_forall in *. intros y Hy.
    apply H; [now left | now right | now apply Ha].
Qed.

Lemma StronglySorted_app {A} (R : A -> A -> Prop) (l1 l2 : list A) :
  StronglySorted R l1 -> StronglySorted R l2 ->
  (forall x y, In x l1 -> In y l2 -> R x y) ->
  StronglySorted R (l1 ++ l2).
Proof.
  intros H1 H2 H. induction H1 as [|a l H1 IH Ha]; simpl; [exact H2|].
  constructor.
  - apply IH. intros x y Hx. apply H. now right.
  - apply Forall_app. split; [exact Ha|].
    rewrite Forall_forall. intros y Hy. apply H; [now left | exact Hy].
Qed.

Lemma StronglySorted_rev {A} (R : A -> A -> Prop) (l : list A) :
  StronglySorted R l -> StronglySorted (fun x y => R y x) (rev l).
Proof.
  induction 1 as [|a l HS IH Ha]; simpl; [constructor|].
  apply StronglySorted_app; [exact IH | repeat constructor |].
  intros x y Hx [<-|[]]. rewrite Forall_forall in Ha. apply Ha.
  now apply in_rev.
Qed.

Lemma StronglySorted_filter_seq (f : nat -> bool) (a n : nat) :
  StronglySorted lt (filter f (seq a n)).
Proof.
  revert a. induction n as [|n IH]; intros a; simpl; [constructor|].
  destruct (f a); [|apply IH]. constructor; [apply IH|].
  rewrite Forall_forall. intros y Hy. apply filter_In in Hy as [Hy _].
  apply in_seq in Hy. lia.
Qed.

Lemma StronglySorted_nth_lt (l : list nat) (a b : nat) :
  StronglySorted lt l -> (a < b)%nat -> (b < length l)%nat ->
  (nth a l 0 < nth b l 0)%nat.
Proof.
  intros HS. revert a b. induction HS as [|x l HS IH Hx]; simpl; [lia|].
  intros a b Hab Hb. destruct b as [|b]; [lia|]. destruct a as [|a].
  - rewrite Forall_forall in Hx. apply Hx. apply nth_In. lia.
  - apply IH; lia.
Qed.

Lemma map_nth_seq (l : list nat) :
  map (fun j => nth j l 0%nat) (seq 0 (length l)) = l.
Proof.
  induction l as [|x l IH]; simpl; [reflexivity|]. f_equal.
  rewrite <- seq_shift, map_map. exact IH.
Qed.

Lemma filter_partition_perm {A} (f : A -> bool) (l : list A) :
  Permutation (filter (fun x => negb (f x)) l ++ filter f l) l.
Proof.
  induction l as [|x l IH]; simpl; [constructor|].
  destruct (f x); simpl.
  - apply Permutation_sym, Permutation_cons_app, Permutation_sym, IH.
  - now constructor.
Qed.

(** ** The two sample sorts meet the contract *)

Section InsertionSort.

Variable le : Q * nat -> Q * nat -> bool.
Variable R : Q * nat -> Q * nat -> Prop.
Hypothesis R_trans : forall a b c, R a b -> R b c -> R a c.
Hypothesis le_true : forall a b, le a b = true -> R a b.
Hypothesis le_false : forall a b, le a b = false -> R b a.

Lemma insert_by_perm (x : Q * nat) (l : list (Q * nat)) :
  Permutation (insert_by le x l) (x :: l).
Proof.
  induction l as [|y l IH]; simpl; [constructor; constructor|].
  destruct (le x y); [apply Permutation_refl|].
  eapply perm_trans; [apply perm_skip, IH | apply perm_swap].
Qed.

Lemma insert_by_sorted (x : Q * nat) (l : list (Q * nat)) :
  StronglySorted R l -> StronglySorted R (insert_by le x l).
Proof.
  induction 1 as [|y l HS IH Hy]; simpl; [repeat constructor|].
  destruct (le x y) eqn:E.
  - constructor; [now constructor|]. constructor; [now apply le_true|].
    eapply Forall_impl; [|exact Hy]. intros z. apply R_trans.
    now apply le_true.
  - constructor; [exact IH|].
    eapply Permutation_Forall; [apply Permutation_sym, insert_by_perm|].
    constructor; [now apply le_false | exact Hy].
Qed.

Lemma isort_perm (l : list (Q * nat)) :
  Permutation (fold_right (insert_by le) [] l) l.
Proof.
  induction l as [|x l IH]; simpl; [constructor|].
  eapply perm_trans; [apply insert_by_perm | now constructor].
Qed.

Lemma isort_sorted (l : list (Q * nat)) :
  StronglySorted R (fold_right (insert_by le) [] l).
Proof.
  induction l as [|x l IH]; simpl; [constructor|].
  now apply insert_by_sorted.
Qed.

End InsertionSort.

Lemma map_snd_combine {A B} (l : list A) (l' : list B) :
  length l = length l' -> map snd (combine l l') = l'.
Proof.
  revert l'. induction l as [|x l IH]; intros [|y l'] H; simpl in *;
    try discriminate; [reflexivity|]. f_equal. apply IH. lia.
Qed.

Lemma in_combine_seq (ks : list Q) (a : nat) (k : Q) (i : nat) :
  In (k, i) (combine ks (seq a (length ks))) ->
  (a <= i)%nat /\ nth (i - a) ks 0 = k.
Proof.
  revert a. induction ks as [|k0 ks IH]; intros a; simpl; [tauto|].
  intros [H|H].
  - injection H as -> ->. rewrite Nat.sub_diag. split; [lia | reflexivity].
  - apply IH in H as [Hle Hn]. split; [lia|].
    replace (i - a)%nat with (S (i - S a)) by lia. exact Hn.
Qed.

Lemma argsort_by_perm (le : Q * nat -> Q * nat -> bool) (ks : list Q) :
  Permutation (argsort_by le ks) (seq 0 (length ks)).
Proof.
  unfold argsort_by.
  rewrite <- (map_snd_combine ks (seq 0 (length ks))) at 2
    by now rewrite length_seq.
  apply Permutation_map, isort_perm.
Qed.

Lemma argsort_by_sorted (le : Q * nat -> Q * nat -> bool)
    (R : Q * nat -> Q * nat -> Prop) (ks : list Q) :
  (forall a b c, R a b -> R b c -> R a c) ->
  (forall a b, le a b = true -> R a b) ->
  (forall a b, le a b = false -> R b a) ->
  StronglySorted (fun i j => R (nth i ks 0, i) (nth j ks 0, j))
    (argsort_by le ks).
Proof.
  intros Ht Hl Hf. unfold argsort_by.
  apply StronglySorted_map_in with (R := R);
    [|now apply isort_sorted].
  assert (Hin : forall x,
             In x (fold_right (insert_by le) []
                     (combine ks (seq 0 (length ks)))) ->
             x = (nth (snd x) ks 0, snd x)).
  { intros [k i] Hx.
    apply (Permutation_in _ (isort_perm le _)) in Hx.
    apply in_combine_seq in Hx as [_ Hx]. rewrite Nat.sub_0_r in Hx.
    simpl. now rewrite Hx. }
  intros x y Hx Hy HR.
  now rewrite <- (Hin x Hx), <- (Hin y Hy).
Qed.

Lemma le_forward_true (a b : Q * nat) :
  le_forward a b = true ->
  fst a < fst b \/ (fst a == fst b /\ (snd a <= snd b)%nat).
Proof.
  unfold le_forward. destruct (fst a ?= fst b) eqn:E; intros H.
  - right. split; [now apply Qeq_alt | now apply Nat.leb_le].
  - left. now apply Qlt_alt.
  - discriminate.
Qed.

Lemma le_forward_false (a b : Q * nat) :
  le_forward a b = false ->
  fst b < fst a \/ (fst b == fst a /\ (snd b <= snd a)%nat).
Proof.
  unfold le_forward. destruct (fst a ?= fst b) eqn:E; intros H.
  - right. split; [symmetry; now apply Qeq_alt|].
    apply Nat.leb_gt in H. lia.
  - discriminate.
  - left. now apply Qgt_alt.
Qed.

Lemma le_backward_true (a b : Q * nat) :
  le_backward a b = true -> fst a <= fst b.
Proof.
  unfold le_backward. destruct (fst a ?= fst b) eqn:E; intros H.
  - apply Qeq_alt in E. lra.
  - apply Qlt_alt in E. lra.
  - discriminate.
Qed.

Lemma le_backward_false (a b : Q * nat) :
  le_backward a b = false -> fst b <= fst a.
Proof.
  unfold le_backward. destruct (fst a ?= fst b) eqn:E; intros H.
  - apply Qeq_alt in E. lra.
  - discriminate.
  - apply Qgt_alt in E. lra.
Qed.

Lemma stable_argsort_spec : argsort_spec stable_argsort.
Proof.
  intros ks. split; [apply argsort_by_perm|].
  apply (argsort_by_sorted le_forward (fun a b => fst a <= fst b)).
  - intros a b c. apply Qle_trans.
  - intros a b H. apply le_forward_true in H. lra.
  - intros a b H. apply le_forward_false in H. lra.
Qed.

Lemma backward_argsort_spec : argsort_spec backward_argsort.
Proof.
  intros ks. split; [apply argsort_by_perm|].
  apply (argsort_by_sorted le_backward (fun a b => fst a <= fst b)).
  - intros a b c. apply Qle_trans.
  - apply le_backward_true.
  - apply le_backward_false.
Qed.

Lemma StronglySorted_NoDup_strict {A} (R : A -> A -> Prop) (l : list A) :
  StronglySorted R l -> NoDup l ->
  StronglySorted (fun x y => R x y /\ x <> y) l.
Proof.
  induction 1 as [|a l HS IH Ha]; intros Hnd; constructor.
  - apply IH. now inversion Hnd.
  - inversion Hnd as [|? ? Hnotin _]; subst.
    rewrite Forall_forall in *. intros y Hy. split; [now apply Ha|].
    intros ->. contradiction.
Qed.

Lemma stable_argsort_stable : argsort_stable stable_argsort.
Proof.
  intros ks.
  assert (Hnd : NoDup (stable_argsort ks)).
  { eapply Permutation_NoDup;
      [apply Permutation_sym, argsort_by_perm | apply seq_NoDup]. }
  assert (HS : StronglySorted
                 (fun i j => nth i ks 0 < nth j ks 0 \/
                             (nth i ks 0 == nth j ks 0 /\ (i <= j)%nat))
                 (stable_argsort ks)).
  { apply (argsort_by_sorted le_forward
             (fun a b => fst a < fst b \/
                         (fst a == fst b /\ (snd a <= snd b)%nat))).
    - intros a b c [H1|[H1 H1']] [H2|[H2 H2']];
        [left; lra | left; lra | left; lra |].
      right. split; [lra | lia].
    - apply le_forward_true.
    - apply le_forward_false. }
  pose proof (StronglySorted_NoDup_strict _ _ HS Hnd) as H.
  rewrite <- (map_id (stable_argsort ks)).
  eapply StronglySorted_map_in; [|exact H].
  intros x y _ _ [[Hlt|[Heq Hle]] Hne]; [now left|].
  right. split; [exact Heq | lia].
Qed.

(** ** [nargsort]: a sorted permutation, stable when the sort is *)

Lemma StronglySorted_all {A} (R : A -> A -> Prop) (l : list A) :
  (forall x y, In x l -> In y l -> R x y) -> StronglySorted R l.
Proof.
  induction l as [|a l IH]; intros H; constructor.
  - apply IH. intros x y Hx Hy. apply H; now right.
  - rewrite Forall_forall. intros y Hy. apply H; [now left | now right].
Qed.

Section Nargsort.

Variable argsort : list Q -> list nat.
Hypothesis argsort_ok : argsort_spec argsort.
Variable ascending : bool.
Variable items : list value.

Let cell (i : nat) : value := nth i items Missing.
Let idx : list nat := seq 0 (length items).
Let nn : list nat := filter (fun i => negb (isna (cell i))) idx.
Let na : list nat := filter (fun i => isna (cell i)) idx.
Let nn' : list nat := if ascending then nn else rev nn.
Let ks : list Q := map (fun i => sort_key (cell i)) nn'.
Let f (j : nat) : nat := nth j nn' 0%nat.

Lemma nargsort_unfold :
  nargsort argsort ascending items =
  (if ascending then map f (argsort ks) else rev (map f (argsort ks))) ++ na.
Proof. reflexivity. Qed.

Lemma nn'_perm : Permutation nn' nn.
Proof.
  unfold nn'. destruct ascending; [apply Permutation_refl|].
  apply Permutation_sym, Permutation_rev.
Qed.

Lemma ks_length : length ks = length nn'.
Proof. unfold ks. apply length_map. Qed.

Lemma argsort_in_range (x : nat) :
  In x (argsort ks) -> (x < length nn')%nat.
Proof.
  intros H. apply (Permutation_in _ (proj1 (argsort_ok ks))) in H.
  apply in_seq in H. rewrite ks_length in H. lia.
Qed.

Lemma f_in_nn (x : nat) : (x < length nn')%nat -> In (f x) nn.
Proof.
  intros H. apply (Permutation_in _ nn'_perm). now apply nth_In.
Qed.

Lemma nn_not_missing (i : nat) : In i nn -> isna (cell i) = false.
Proof.
  intros H. apply filter_In in H as [_ H]. now apply negb_true_iff.
Qed.

Lemma na_missing (i : nat) : In i na -> isna (cell i) = true.
Proof. intros H. now apply filter_In in H as [_ H]. Qed.

Lemma ks_nth (x : nat) :
  (x < length nn')%nat -> nth x ks 0 = sort_key (cell (f x)).
Proof.
  intros H. unfold ks, f.
  rewrite (nth_indep _ 0 (sort_key (cell 0%nat)))
    by now rewrite length_map.
  apply (map_nth (fun i => sort_key (cell i))).
Qed.

Lemma f_monotone (x y : nat) :
  (x < y)%nat -> (y < length nn')%nat ->
  if ascending then (f x < f y)%nat else (f y < f x)%nat.
Proof.
  intros Hxy Hy. unfold f, nn' in *.
  assert (HS : StronglySorted lt nn) by apply StronglySorted_filter_seq.
  destruct ascending.
  - now apply StronglySorted_nth_lt.
  - rewrite length_rev in Hy. rewrite !rev_nth by lia.
    apply StronglySorted_nth_lt; [exact HS | lia | lia].
Qed.

Lemma nargsort_perm :
  Permutation (nargsort argsort ascending items) (seq 0 (length items)).
Proof.
  rewrite nargsort_unfold.
  apply perm_trans with (nn ++ na);
    [|apply (filter_partition_perm (fun i => isna (cell i)) idx)].
  apply Permutation_app_tail.
  apply perm_trans with (map f (argsort ks)).
  - destruct ascending; [apply Permutation_refl|].
    apply Permutation_sym, Permutation_rev.
  - apply perm_trans with nn'; [|apply nn'_perm].
    apply perm_trans with (map f (seq 0 (length ks))).
    + apply Permutation_map, argsort_ok.
    + rewrite ks_length. unfold f. rewrite map_nth_seq.
      apply Permutation_refl.
Qed.

(** From an order on the sorted keys to an order on the positions. *)
Lemma nargsort_sorted_gen (Rk T : nat -> nat -> Prop) :
  StronglySorted Rk (argsort ks) ->
  (forall x y, (x < length nn')%nat -> (y < length nn')%nat ->
               (if ascending then Rk x y else Rk y x) -> T (f x) (f y)) ->
  (forall i j, In i nn -> In j na -> T i j) ->
  StronglySorted T na ->
  StronglySorted T (nargsort argsort ascending items).
Proof.
  intros HS Hmap Hcross Hna. rewrite nargsort_unfold.
  pose proof argsort_in_range as Hrange.
  pose proof f_in_nn as Hf.
  apply StronglySorted_app; [| exact Hna |].
  - destruct ascending.
    + eapply StronglySorted_map_in; [|exact HS].
      intros x y Hx Hy. apply Hmap; now apply Hrange.
    + rewrite <- map_rev.
      eapply StronglySorted_map_in; [|apply StronglySorted_rev, HS].
      intros x y Hx Hy. apply in_rev in Hx, Hy.
      apply Hmap; now apply Hrange.
  - intros i j Hi Hj. apply Hcross; [|exact Hj].
    assert (Hi' : In i (map f (argsort ks))).
    { destruct ascending; [exact Hi | now apply in_rev]. }
    apply in_map_iff in Hi' as [x [<- Hx]].
    now apply Hf, Hrange.
Qed.

Lemma nargsort_sorted :
  StronglySorted
    (fun i j => ranks_before ascending (cell i) (cell j) \/
                ranks_equal (cell i) (cell j))
    (nargsort argsort ascending items).
Proof.
  apply nargsort_sorted_gen
    with (Rk := fun x y => nth x ks 0 <= nth y ks 0).
  - apply argsort_ok.
  - intros x y Hx Hy HR.
    pose proof (nn_not_missing _ (f_in_nn x Hx)) as Nx.
    pose proof (nn_not_missing _ (f_in_nn y Hy)) as Ny.
    unfold ranks_before, ranks_equal. rewrite Nx, Ny.
    rewrite <- (ks_nth x Hx), <- (ks_nth y Hy).
    clear Nx Ny.
    destruct ascending; apply Qle_lt_or_eq in HR as [HR|HR].
    + left. split; [reflexivity|]. right. now split.
    + right. right. now repeat split.
    + left. split; [reflexivity|]. right. now split.
    + right. right. repeat split. now symmetry.
  - intros i j Hi Hj. left. split; [now apply nn_not_missing|].
    left. now apply na_missing.
  - apply StronglySorted_all. intros i j Hi Hj. right. left.
    split; now apply na_missing.
Qed.

Hypothesis argsort_is_stable : argsort_stable argsort.

Lemma nargsort_stable :
  StronglySorted
    (fun i j => ranks_before ascending (cell i) (cell j) \/
                (ranks_equal (cell i) (cell j) /\ (i < j)%nat))
    (nargsort argsort ascending items).
Proof.
  apply nargsort_sorted_gen
    with (Rk := fun x y => nth x ks 0 < nth y ks 0 \/
                           (nth x ks 0 == nth y ks 0 /\ (x < y)%nat)).
  - apply argsort_is_stable.
  - intros x y Hx Hy HR.
    pose proof (nn_not_missing _ (f_in_nn x Hx)) as Nx.
    pose proof (nn_not_missing _ (f_in_nn y Hy)) as Ny.
    unfold ranks_before, ranks_equal. rewrite Nx, Ny.
    rewrite <- (ks_nth x Hx), <- (ks_nth y Hy).
    pose proof f_monotone as Hm. clear Nx Ny.
    destruct ascending; destruct HR as [HR|[HR Hlt]].
    + left. split; [reflexivity|]. right. now split.
    + right. split; [right; now repeat split|]. now apply Hm.
    + left. split; [reflexivity|]. right. now split.
    + right. split; [right; repeat split; now symmetry|]. now apply Hm.
  - intros i j Hi Hj. left. split; [now apply nn_not_missing|].
    left. now apply na_missing.
  - rewrite <- (map_id na).
    eapply StronglySorted_map_in;
      [|apply (StronglySorted_filter_seq (fun i => isna (cell i)))].
    intros i j Hi Hj Hlt. right. split; [|exact Hlt].
    left. split; now apply na_missing.
Qed.

End Nargsort.

Lemma head_take_rows (n : nat) (pos : list nat) (df : DataFrame) :
  head n (take_rows pos df) = take_rows (firstn n pos) df.
Proof.
  unfold head, take_rows; simpl. f_equal.
  - apply firstn_map.
  - rewrite map_map. apply map_ext. intros c. simpl.
    now rewrite firstn_rows_at.
Qed.

(** X21. On a table with the expected columns and numbers, a ranked section
    shows the first [top_n] rows of an order of all rows in which a better
    normalised Positive value comes first (higher for Strengths, lower for
    Areas to Improve) and missing values come last, for every library sort
    that returns a sorted permutation.  Rows with equal values come in their
    original order when that sort is stable. *)
Theorem top_n_sorted_prefix_stable_if_sort_is :
  forall (argsort : list Q -> list nat) (N : nat) (x : section_id)
          (p : place) (s : state) (df : DataFrame)
          (q pos neu neg : list value),
      argsort_spec argsort ->
      x = Strengths \/ x = Improve ->
      assoc_get (sheet_of x) (store s) = Some df ->
      empty df = false ->
      getitem df "Question" = Ok q ->
      getitem df "Positive" = Ok pos ->
      getitem df "Neutral" = Ok neu ->
      getitem df "Negative" = Ok neg ->
      numeric pos -> numeric neu -> numeric neg ->
      exists (order : list nat) (fig : figure),
        Permutation order (seq 0 (length pos)) /\
        StronglySorted
          (fun i j =>
             ranks_before (ascending_of x)
               (nth i (map normalized pos) Missing)
               (nth j (map normalized pos) Missing) \/
             ranks_equal (nth i (map normalized pos) Missing)
               (nth j (map normalized pos) Missing))
          order /\
        (argsort_stable argsort ->
         StronglySorted
           (fun i j =>
              ranks_before (ascending_of x)
                (nth i (map normalized pos) Missing)
                (nth j (map normalized pos) Missing) \/
              (ranks_equal (nth i (map normalized pos) Missing)
                 (nth j (map normalized pos) Missing) /\ (i < j)%nat))
           order) /\
        section argsort N x p s =
          (Ok tt,
           {| store := store s;
              ui := ui s ++
                    [ (p, Markdown (heading_of x));
                      (p, PlotlyChart fig);
                      (Expander "View data",
                       DataframeView
                         (reset_index
                            (take_rows (firstn N order)
                               (ranked_copy df pos neu neg)))) ] |}) /\
        map trace_x (traces fig) =
          [rows_at (firstn N order) q; rows_at (firstn N order) q;
           rows_at (firstn N order) q].
Proof.
  intros argsort N x p s df q pos neu neg Hspec Hx Hs He Hq Hp Hn Hg
         Np Nn Ng.
  destruct (section_ranked argsort N x Hx) as [t Ht].
  exists (nargsort argsort (ascending_of x) (map normalized pos)).
  eexists. split; [|split; [|split; [|split]]].
  - rewrite <- (length_map normalized pos). now apply nargsort_perm.
  - now apply nargsort_sorted.
  - intros Hst. now apply nargsort_stable.
  - rewrite Ht.
    rewrite (ranked_section_run argsort (heading_of x) (sheet_of x) t
               (ascending_of x) N p s df q pos neu neg) by assumption.
    rewrite head_take_rows. reflexivity.
  - reflexivity.
Qed.

Lemma top_n_sorted_prefix_stable_if_sort_is_witness :
  exists (order : list nat) (fig : figure),
    Permutation order (seq 0 (length [Num 10; Num 90; Num 50; Num 90])) /\
    StronglySorted
      (fun i j =>
         ranks_before (ascending_of Strengths)
           (nth i (map normalized [Num 10; Num 90; Num 50; Num 90]) Missing)
           (nth j (map normalized [Num 10; Num 90; Num 50; Num 90]) Missing)
         \/
         ranks_equal
           (nth i (map normalized [Num 10; Num 90; Num 50; Num 90]) Missing)
           (nth j (map normalized [Num 10; Num 90; Num 50; Num 90]) Missing))
      order /\
    (argsort_stable stable_argsort ->
     StronglySorted
       (fun i j =>
          ranks_before (ascending_of Strengths)
            (nth i (map normalized [Num 10; Num 90; Num 50; Num 90]) Missing)
            (nth j (map normalized [Num 10; Num 90; Num 50; Num 90]) Missing)
          \/
          (ranks_equal
             (nth i (map normalized [Num 10; Num 90; Num 50; Num 90]) Missing)
             (nth j (map normalized [Num 10; Num 90; Num 50; Num 90]) Missing)
           /\ (i < j)%nat))
       order) /\
    section stable_argsort 2 Strengths Main ranking_state =
      (Ok tt,
       {| store := store ranking_state;
          ui := ui ranking_state ++
                [ (Main, Markdown (heading_of Strengths));
                  (Main, PlotlyChart fig);
                  (Expander "View data",
                   DataframeView
                     (reset_index
                        (take_rows (firstn 2 order)
                           (ranked_copy ranking_table
                              [Num 10; Num 90; Num 50; Num 90]
                              [Num 20; Num 5; Num 25; Num 4]
                              [Num 70; Num 5; Num 25; Num 6])))) ] |}) /\
    map trace_x (traces fig) =
      [rows_at (firstn 2 order) [Str "Q1"; Str "Q2"; Str "Q3"; Str "Q4"];
       rows_at (firstn 2 order) [Str "Q1"; Str "Q2"; Str "Q3"; Str "Q4"];
       rows_at (firstn 2 order) [Str "Q1"; Str "Q2"; Str "Q3"; Str "Q4"]].
Proof.
  destruct ranking_table_numeric as [Np [Nn Ng]].
  apply (top_n_sorted_prefix_stable_if_sort_is stable_argsort 2%nat
           Strengths Main ranking_state ranking_table
           [Str "Q1"; Str "Q2"; Str "Q3"; Str "Q4"]);
    try reflexivity; try assumption.
  - apply stable_argsort_spec.
  - now left.
Defined.

(** ** Fragments that do not write the sheet set *)

Lemma preserves_ret {A} (a : A) : preserves_store (ret a).
Proof. now intros p s. Qed.

Lemma preserves_lift {A} (r : res A) : preserves_store (lift r).
Proof. now intros p s. Qed.

Lemma preserves_emit (e : element) : preserves_store (emit e).
Proof. now intros p s. Qed.

Lemma preserves_sheets_get (k : string) : preserves_store (sheets_get k).
Proof. now intros p s. Qed.

Lemma preserves_deref (r : ref) : preserves_store (deref r).
Proof. now intros p s. Qed.

Lemma preserves_bind {A B} (m : M A) (f : A -> M B) :
  preserves_store m -> (forall a, preserves_store (f a)) ->
  preserves_store (bind m f).
Proof.
  intros Hm Hf p s. unfold bind. specialize (Hm p s).
  destruct (m p s) as [[a|e] s']; simpl in *; [|exact Hm].
  now rewrite Hf.
Qed.

Lemma preserves_within {A} (q : place) (m : M A) :
  preserves_store m -> preserves_store (within q m).
Proof. intros H p s. apply H. Qed.

Lemma preserves_try_pass (m : M unit) :
  preserves_store m -> preserves_store (try_pass m).
Proof. intros H p s. apply H. Qed.

Lemma preserves_for_each {A} (l : list A) (body : A -> M unit) :
  (forall a, preserves_store (body a)) -> preserves_store (for_each l body).
Proof.
  intros H. induction l as [|x l IH]; simpl.
  - apply preserves_ret.
  - apply preserves_bind; [apply H | intros _; exact IH].
Qed.

Lemma preserves_obj_getitem (r : ref) (c : string) :
  preserves_store (obj_getitem r c).
Proof.
  apply preserves_bind; [apply preserves_deref | intros; apply preserves_lift].
Qed.

Ltac preserves_step :=
  lazymatch goal with
  | |- preserves_store (ret _) => apply preserves_ret
  | |- preserves_store (lift _) => apply preserves_lift
  | |- preserves_store (emit _) => apply preserves_emit
  | |- preserves_store (sheets_get _) => apply preserves_sheets_get
  | |- preserves_store (deref _) => apply preserves_deref
  | |- preserves_store (obj_getitem _ _) => apply preserves_obj_getitem
  | |- preserves_store (within _ _) => apply preserves_within
  | |- preserves_store (try_pass _) => apply preserves_try_pass
  | |- preserves_store (for_each _ _) => apply preserves_for_each; intros
  | |- preserves_store (bind _ _) => apply preserves_bind; [|intros]
  | |- preserves_store (if ?b then _ else _) => destruct b
  | |- preserves_store (match ?x with _ => _ end) => destruct x
  | |- _ => progress cbv beta zeta
  end.

Ltac preserves := repeat preserves_step.

Lemma metric_block_preserves (t : string) (v : value) :
  preserves_store (metric_block t v).
Proof. unfold metric_block. preserves. Qed.

Lemma overall_metrics_preserves (overall : ref) :
  preserves_store (overall_metrics overall).
Proof.
  unfold overall_metrics. preserves. apply metric_block_preserves.
Qed.

Lemma ranked_section_preserves (argsort : list Q -> list nat)
    (heading sheet t : string) (asc : bool) (N : nat) :
  preserves_store (ranked_section argsort heading sheet t asc N).
Proof. unfold ranked_section. preserves. Qed.

(** ** Fragments confined to one sheet *)

Lemma confined_const {A} (k : string) (r : res A) :
  confined k (fun (_ : place) (s : state) => (r, s)).
Proof.
  split.
  - reflexivity.
  - intros p s1 s2 H. exists []. simpl. rewrite !app_nil_r. now repeat split.
Qed.

Lemma confined_ret {A} (k : string) (a : A) : confined k (ret a).
Proof. apply confined_const. Qed.

Lemma confined_lift {A} (k : string) (r : res A) : confined k (lift r).
Proof. apply confined_const. Qed.

Lemma confined_emit (k : string) (e : element) : confined k (emit e).
Proof.
  split.
  - reflexivity.
  - intros p s1 s2 H. exists [(p, e)]. now repeat split.
Qed.

Lemma confined_bind {A B} (k : string) (m : M A) (f : A -> M B) :
  confined k m -> (forall a, confined k (f a)) -> confined k (bind m f).
Proof.
  intros [Hm1 Hm2] Hf. split.
  - intros p s k' Hk. unfold bind. specialize (Hm1 p s k' Hk).
    destruct (m p s) as [[a|e] s']; simpl in *; [|exact Hm1].
    now rewrite (proj1 (Hf a)).
  - intros p s1 s2 Hag. unfold bind.
    destruct (Hm2 p s1 s2 Hag) as [out [Hr [Hu1 [Hu2 Hag']]]].
    destruct (m p s1) as [[a1|e1] s1'], (m p s2) as [[a2|e2] s2'];
      simpl in *; try discriminate.
    + injection Hr as <-.
      destruct (proj2 (Hf a1) p s1' s2' Hag') as [out' [Hr' [Hv1 [Hv2 Hag'']]]].
      exists (out ++ out'). rewrite Hv1, Hv2, Hu1, Hu2, !app_assoc.
      now repeat split.
    + injection Hr as ->. exists out. simpl. repeat split; assumption.
Qed.

Lemma confined_within {A} (k : string) (q : place) (m : M A) :
  confined k m -> confined k (within q m).
Proof.
  intros [H1 H2]. split.
  - intros p s. apply H1.
  - intros p s1 s2. apply H2.
Qed.

Lemma confined_try_pass (k : string) (m : M unit) :
  confined k m -> confined k (try_pass m).
Proof.
  intros [H1 H2]. split.
  - intros p s. apply H1.
  - intros p s1 s2 Hag. destruct (H2 p s1 s2 Hag) as [out [_ H]].
    exists out. split; [reflexivity | exact H].
Qed.

Lemma confined_for_each {A} (k : string) (l : list A) (body : A -> M unit) :
  (forall a, confined k (body a)) -> confined k (for_each l body).
Proof.
  intros H. induction l as [|x l IH]; simpl.
  - apply confined_ret.
  - apply confined_bind; [apply H | intros _; exact IH].
Qed.

Lemma confined_sheets_get {A} (k : string) (f : option ref -> M A) :
  confined k (f None) -> confined k (f (Some k)) ->
  confined k (bind (sheets_get k) f).
Proof.
  intros [N1 N2] [S1 S2]. split.
  - intros p s k' Hk. unfold bind, sheets_get.
    destruct (assoc_get k (store s)); [now apply S1 | now apply N1].
  - intros p s1 s2 Hag. unfold bind, sheets_get. rewrite <- Hag.
    destruct (assoc_get k (store s1)); [now apply S2 | now apply N2].
Qed.

Lemma confined_deref (k : string) : confined k (deref k).
Proof.
  split.
  - reflexivity.
  - intros p s1 s2 Hag. exists []. unfold deref. simpl.
    rewrite <- Hag, !app_nil_r. now repeat split.
Qed.

Lemma confined_obj_getitem (k c : string) : confined k (obj_getitem k c).
Proof.
  apply confined_bind; [apply confined_deref | intros; apply confined_lift].
Qed.

Lemma confined_obj_setitem (k c : string) (vals : list value) :
  confined k (obj_setitem k c vals).
Proof.
  apply confined_bind; [apply confined_deref|]. intros df. split.
  - intros p s k' Hk. simpl. now apply assoc_get_set_other.
  - intros p s1 s2 Hag. exists []. simpl. rewrite !app_nil_r.
    repeat split. unfold agree. simpl. now rewrite !assoc_get_set_same.
Qed.

Ltac confined_step :=
  cbv beta iota zeta;
  lazymatch goal with
  | |- confined _ (ret _) => apply confined_ret
  | |- confined _ (lift _) => apply confined_lift
  | |- confined _ (emit _) => apply confined_emit
  | |- confined _ (deref _) => apply confined_deref
  | |- confined _ (obj_getitem _ _) => apply confined_obj_getitem
  | |- confined _ (obj_setitem _ _ _) => apply confined_obj_setitem
  | |- confined _ (within _ _) => apply confined_within
  | |- confined _ (try_pass _) => apply confined_try_pass
  | |- confined _ (for_each _ _) => apply confined_for_each; intros
  | |- confined _ (bind (sheets_get _) _) => apply confined_sheets_get
  | |- confined _ (bind _ _) => apply confined_bind; [|intros]
  | |- confined _ (if ?b then _ else _) => destruct b
  | |- confined _ (match ?x with _ => _ end) => is_var x; destruct x
  end.

Ltac confined_tac := repeat confined_step.

Lemma metric_block_confined (k t : string) (v : value) :
  confined k (metric_block t v).
Proof. unfold metric_block. confined_tac. Qed.

Lemma overall_section_confined :
  confined "Overall Summary" overall_section.
Proof.
  unfold overall_section, overall_metrics. confined_tac.
  apply metric_block_confined.
Qed.

Lemma ranked_section_confined (argsort : list Q -> list nat)
    (heading sheet t : string) (asc : bool) (N : nat) :
  confined sheet (ranked_section argsort heading sheet t asc N).
Proof. unfold ranked_section. confined_tac. Qed.

Lemma trend_section_confined : confined "Yearly Trend" trend_section.
Proof. unfold trend_section. confined_tac. Qed.

Lemma section_confined (argsort : list Q -> list nat) (N : nat)
    (x : section_id) :
  confined (sheet_of x) (section argsort N x).
Proof.
  destruct x.
  - exact overall_section_confined.
  - exact (ranked_section_confined argsort _ _ _ _ N).
  - exact (ranked_section_confined argsort _ _ _ _ N).
  - exact trend_section_confined.
Qed.

(** ** A section whose sheet is absent or empty *)

Lemma notice_only_run (x : section_id) (p : place) (s : state) :
  notice_only x p s =
  (Ok tt,
   {| store := store s;
      ui := ui s ++ [ (p, Markdown (heading_of x));
                      (p, Info (not_found (sheet_of x))) ] |}).
Proof.
  unfold notice_only, bind, emit. cbn [store ui].
  now rewrite <- app_assoc.
Qed.

Lemma overall_section_notice (p : place) (s : state) :
  absent_or_empty "Overall Summary" (store s) ->
  overall_section p s = notice_only Overall p s.
Proof.
  unfold absent_or_empty. intros H.
  unfold overall_section, notice_only, bind, emit, sheets_get, deref.
  cbn [store ui heading_of sheet_of].
  destruct (assoc_get "Overall Summary" (store s)) as [df|] eqn:E;
    cbn [store ui]; rewrite ?E; cbn [store ui]; rewrite ?H; reflexivity.
Qed.

Lemma ranked_section_notice (argsort : list Q -> list nat)
    (heading sheet t : string) (asc : bool) (N : nat) (p : place) (s : state) :
  absent_or_empty sheet (store s) ->
  ranked_section argsort heading sheet t asc N p s =
  (Ok tt,
   {| store := store s;
      ui := ui s ++ [(p, Markdown heading); (p, Info (not_found sheet))] |}).
Proof.
  unfold absent_or_empty. intros H.
  unfold ranked_section, bind, emit, sheets_get, deref.
  cbn [store ui].
  destruct (assoc_get sheet (store s)) as [df|] eqn:E;
    cbn [store ui]; rewrite ?E; cbn [store ui]; rewrite ?H;
    cbn [store ui]; now rewrite <- app_assoc.
Qed.

Lemma trend_section_notice (p : place) (s : state) :
  absent_or_empty "Yearly Trend" (store s) ->
  trend_section p s = notice_only Trend p s.
Proof.
  unfold absent_or_empty. intros H.
  unfold trend_section, notice_only, bind, emit, sheets_get, deref.
  cbn [store ui heading_of sheet_of].
  destruct (assoc_get "Yearly Trend" (store s)) as [df|] eqn:E;
    cbn [store ui]; rewrite ?E; cbn [store ui]; rewrite ?H; reflexivity.
Qed.

Lemma section_notice (argsort : list Q -> list nat) (N : nat)
    (x : section_id) (p : place) (s : state) :
  absent_or_empty (sheet_of x) (store s) ->
  section argsort N x p s = notice_only x p s.
Proof.
  intros H. rewrite notice_only_run. destruct x.
  - rewrite <- notice_only_run. now apply overall_section_notice.
  - exact (ranked_section_notice argsort (heading_of Strengths)
             (sheet_of Strengths) "Top Strengths" false N p s H).
  - exact (ranked_section_notice argsort (heading_of Improve)
             (sheet_of Improve) "Areas to Improve" true N p s H).
  - rewrite <- notice_only_run. now apply trend_section_notice.
Qed.

Lemma sheet_of_inj (x y : section_id) : sheet_of x = sheet_of y -> x = y.
Proof. destruct x, y; simpl; intros H; try reflexivity; discriminate. Qed.

Lemma section_id_eqb_spec (x y : section_id) :
  section_id_eqb x y = true <-> x = y.
Proof. destruct x, y; simpl; split; intros; congruence. Qed.

(** ** The metrics of the Overall Summary *)

Lemma metric_try_run (overall : ref) (col : nat) (label : string)
    (p : place) (s : state) (df : DataFrame) :
  assoc_get overall (store s) = Some df ->
  try_pass
    (cat <- obj_getitem overall "Category" ;;
     low <- lift (str_lower cat) ;;
     pct <- obj_getitem overall "Percentage" ;;
     val <- lift (first_value
                    (select (map (value_eqb (Str (lower label))) low) pct)) ;;
     within (Column col) (metric_block label val)) p s
  = (Ok tt,
     {| store := store s; ui := ui s ++ metric_shown df col label |}).
Proof.
  intros Hs. destruct s as [st u]. cbn [store ui] in *.
  unfold try_pass, bind, obj_getitem, deref, lift, within, metric_block,
    emit, bind, lift.
  unfold metric_shown, category_cell. cbn [store ui]. rewrite Hs.
  destruct (getitem df "Category") as [cat|]; cbn [res_bind snd store ui];
    [|now rewrite app_nil_r].
  destruct (str_lower cat) as [low|]; cbn [res_bind snd store ui];
    [|now rewrite app_nil_r].
  rewrite Hs.
  destruct (getitem df "Percentage") as [pct|]; cbn [res_bind snd store ui];
    [|now rewrite app_nil_r].
  destruct (first_value _) as [v|]; cbn [res_bind snd store ui];
    [|now rewrite app_nil_r].
  destruct v as [|q|t]; cbn [to_pct isna res_bind snd store ui];
    now rewrite ?app_nil_r.
Qed.

Lemma overall_metrics_run (overall : ref) (p : place) (s : state)
    (df : DataFrame) :
  assoc_get overall (store s) = Some df ->
  overall_metrics overall p s =
  (Ok tt,
   {| store := store s;
      ui := ui s ++ (p, Columns [1; 1; 1]) ::
            metric_shown df 0 "Positive" ++ metric_shown df 1 "Neutral" ++
            metric_shown df 2 "Negative" |}).
Proof.
  intros Hs. unfold overall_metrics.
  cbn [for_each combine fst snd].
  unfold bind at 1. unfold emit at 1. cbn [store ui].
  unfold bind at 1.
  rewrite (metric_try_run overall 0 "Positive" p _ df) by exact Hs.
  cbn [store ui]. unfold bind at 1.
  rewrite (metric_try_run overall 1 "Neutral" p _ df) by exact Hs.
  cbn [store ui]. unfold bind at 1.
  rewrite (metric_try_run overall 2 "Negative" p _ df) by exact Hs.
  cbn [store ui]. unfold ret.
  rewrite <- !app_assoc. reflexivity.
Qed.

(** C9. The metrics block never raises.  For each of Positive, Neutral and
    Negative it shows a metric exactly when the first row of that category
    has a number as Percentage; when that value is missing, or no row has
    the category, only that metric is left out. *)
Theorem overall_metrics_omit_missing :
  (forall (overall : ref) (p : place) (s : state),
      fst (overall_metrics overall p s) = Ok tt /\
      store (snd (overall_metrics overall p s)) = store s) /\
  (forall (overall : ref) (p : place) (s : state) (df : DataFrame),
      assoc_get overall (store s) = Some df ->
      ui (snd (overall_metrics overall p s)) =
      ui s ++ (p, Columns [1; 1; 1]) ::
      metric_shown df 0 "Positive" ++ metric_shown df 1 "Neutral" ++
      metric_shown df 2 "Negative") /\
  (forall (df : DataFrame) (col : nat) (label : string),
      category_cell df label = Ok Missing \/
      category_cell df label = Raise IndexError ->
      metric_shown df col label = []) /\
  (forall (df : DataFrame) (col : nat) (label : string) (q : Q),
      category_cell df label = Ok (Num q) ->
      metric_shown df col label =
      [(Column col, Metric label (if Qle_bool q 1 then q * 100 else q))]).
Proof.
  split; [|split; [|split]].
  - intros overall p s. split; [|apply overall_metrics_preserves].
    unfold overall_metrics, bind, emit.
    cbn [for_each combine fst snd]. unfold bind, try_pass, ret.
    reflexivity.
  - intros overall p s df Hs. now rewrite (overall_metrics_run overall p s df).
  - intros df col label [H|H]; unfold metric_shown; now rewrite H.
  - intros df col label q H. unfold metric_shown. now rewrite H.
Qed.

Lemma overall_metrics_omit_missing_witness :
  ui (snd (overall_metrics "Overall Summary" Main overall_state)) =
    ui overall_state ++ (Main, Columns [1; 1; 1]) ::
    metric_shown overall_table 0 "Positive" ++
    metric_shown overall_table 1 "Neutral" ++
    metric_shown overall_table 2 "Negative" /\
  metric_shown overall_table 1 "Neutral" = [] /\
  metric_shown overall_table 0 "Positive" =
    [(Column 0,
      Metric "Positive"
        (if Qle_bool (6 # 10) 1 then (6 # 10) * 100 else 6 # 10))].
Proof.
  split; [|split].
  - apply (proj1 (proj2 overall_metrics_omit_missing) "Overall Summary" Main
             overall_state overall_table). reflexivity.
  - apply (proj1 (proj2 (proj2 overall_metrics_omit_missing))).
    left. reflexivity.
  - apply (proj2 (proj2 (proj2 overall_metrics_omit_missing))).
    reflexivity.
Defined.

(** ** The Overall Summary section, run on a table with its columns *)

Lemma isna_normalized (v : value) : isna (normalized v) = isna v.
Proof.
  destruct v as [|q|t]; [reflexivity | | reflexivity].
  unfold normalized, to_pct. cbn [isna]. reflexivity.
Qed.

Lemma series_round1_normalized (pct : list value) :
  numeric pct ->
  series_round1 (map normalized pct) =
  if all_missing pct then Raise TypeError
  else Ok (map round1 (map normalized pct)).
Proof.
  intros Np. unfold series_round1, object_dtype, all_missing.
  rewrite (numeric_no_str _ (numeric_normalized pct Np)).
  rewrite length_map. cbn [orb].
  assert (E : forallb isna (map normalized pct) = forallb isna pct).
  { clear Np. induction pct as [|v pct IH]; [reflexivity|].
    cbn [map forallb]. now rewrite isna_normalized, IH. }
  now rewrite E.
Qed.

(** The Overall Summary section on a table with both columns and numbers:
    everything up to the donut is shown; the bar chart follows unless the
    Percentage column has no number at all, where rounding the column
    raises. *)
Lemma overall_section_run_gen (p : place) (s : state) (df : DataFrame)
    (cat pct : list value) :
  assoc_get "Overall Summary" (store s) = Some df ->
  empty df = false ->
  getitem df "Category" = Ok cat ->
  getitem df "Percentage" = Ok pct ->
  numeric pct ->
  let df' := setitem df "Percentage" (map normalized pct) in
  overall_section p s =
  ((if all_missing pct then Raise TypeError else Ok tt),
   {| store := assoc_set "Overall Summary" df' (store s);
      ui := ui s ++
            [ (p, Markdown "## Dataset Descriptive Summary");
              (p, Columns [1; 1; 1]) ] ++
            metric_shown df' 0 "Positive" ++
            metric_shown df' 1 "Neutral" ++
            metric_shown df' 2 "Negative" ++
            [ (p, Columns [12 # 10; 13 # 10]);
              (Column 0,
               PlotlyChart
                 (donut (map normalized pct) cat "Overall Perception")) ] ++
            (if all_missing pct then []
             else [ (Column 1,
                     PlotlyChart (overall_bar cat (map normalized pct))) ])
   |}).
Proof.
  intros Hs He Hc Hp Np df'.
  assert (Hc' : getitem df' "Category" = Ok cat).
  { unfold df'. now rewrite getitem_setitem_other by discriminate. }
  assert (Hp' : getitem df' "Percentage" = Ok (map normalized pct)).
  { apply getitem_setitem_same. }
  assert (Hc'' : assoc_get "Category" (columns df') = Some cat)
    by now apply getitem_Ok.
  assert (Hp'' : assoc_get "Percentage" (columns df')
                 = Some (map normalized pct)) by now apply getitem_Ok.
  unfold overall_section, obj_getitem, obj_setitem, within.
  unfold bind, emit, sheets_get, deref, lift.
  cbn [store ui]. rewrite Hs. cbn [store ui]. rewrite Hs, He.
  cbn [store ui]. rewrite Hs, Hp, (series_apply_numeric pct Np).
  cbn [store ui]. rewrite Hs. cbn [store ui]. fold df'.
  rewrite (overall_metrics_run "Overall Summary" p _ df')
    by (cbn [store]; apply assoc_get_set_same).
  repeat (progress (cbn [store ui];
                    rewrite ?assoc_get_set_same, ?Hp', ?Hc')).
  rewrite (series_round1_normalized pct Np).
  destruct (all_missing pct).
  - f_equal. f_equal. rewrite <- !app_assoc. cbn [app].
    rewrite <- ?app_assoc, ?app_nil_r. reflexivity.
  - cbv beta iota. cbn [store ui]. rewrite ?assoc_get_set_same.
    unfold px_bar. rewrite Hc'', Hp''. cbn [store ui].
    unfold update_layout, overall_bar.
    cbn [kind traces title legend_orientation].
    f_equal. f_equal. rewrite <- !app_assoc. cbn [app].
    rewrite <- !app_assoc. reflexivity.
Qed.


(** C6. [donut] puts the values it receives into the chart as they are (its
    caller, the Overall Summary section, passes the Percentage column it has
    normalised), whereas [make_stacked_bar] charts its three series columns
    after applying [to_pct] to each. *)
Theorem donut_plain_stacked_bar_normalizes :
  (forall (values labels : list value) (t : string),
      traces (donut values labels t) =
      [ {| trace_name := ""; trace_x := labels; trace_y := values;
           trace_text := [] |} ]) /\
  (forall (p : place) (s : state) (df : DataFrame)
          (cat pct pct' : list value),
      assoc_get "Overall Summary" (store s) = Some df ->
      empty df = false ->
      getitem df "Category" = Ok cat ->
      getitem df "Percentage" = Ok pct ->
      series_apply to_pct pct = Ok pct' ->
      exists before after : list (place * element),
        ui (snd (overall_section p s)) =
        ui s ++ before ++
        (Column 0, PlotlyChart (donut pct' cat "Overall Perception")) ::
        after) /\
  (forall (df : DataFrame) (y p n g t : string)
          (x cp cn cg yp yn yg : list value),
      getitem df y = Ok x -> getitem df p = Ok cp ->
      getitem df n = Ok cn -> getitem df g = Ok cg ->
      series_apply to_pct cp = Ok yp ->
      series_apply to_pct cn = Ok yn ->
      series_apply to_pct cg = Ok yg ->
      y <> p -> y <> n -> y <> g -> p <> n -> p <> g -> n <> g ->
      exists fig : figure,
        make_stacked_bar df y p n g t = Ok fig /\
        traces fig =
        [bar "Positive" x yp; bar "Neutral" x yn; bar "Negative" x yg]).
Proof.
  split; [|split].
  - reflexivity.
  - intros p s df cat pct pct' Hs He Hc Hp Ha.
    apply series_apply_inv in Ha as [Np ->].
    rewrite (overall_section_run_gen p s df cat pct) by assumption.
    cbn [snd ui].
    exists ([ (p, Markdown "## Dataset Descriptive Summary");
              (p, Columns [1; 1; 1]) ] ++
            metric_shown (setitem df "Percentage" (map normalized pct)) 0
              "Positive" ++
            metric_shown (setitem df "Percentage" (map normalized pct)) 1
              "Neutral" ++
            metric_shown (setitem df "Percentage" (map normalized pct)) 2
              "Negative" ++
            [ (p, Columns [12 # 10; 13 # 10]) ]).
    exists (if all_missing pct then []
            else [ (Column 1,
                    PlotlyChart (overall_bar cat (map normalized pct))) ]).
    rewrite <- !app_assoc. reflexivity.
  - intros df y p n g t x cp cn cg yp yn yg Hy Hp Hn Hg Ap An Ag
           Hyp Hyn Hyg Hpn Hpg Hng.
    exists (stacked_figure t x yp yn yg). split; [|reflexivity].
    now apply (make_stacked_bar_run df y p n g t x cp cn cg).
Qed.

Lemma donut_plain_stacked_bar_normalizes_witness :
  (exists before after : list (place * element),
      ui (snd (overall_section Main overall_state)) =
      ui overall_state ++ before ++
      (Column 0,
       PlotlyChart
         (donut [Num ((6 # 10) * 100); Missing; Num ((1 # 10) * 100)]
            [Str "Positive"; Str "Neutral"; Str "Negative"]
            "Overall Perception")) :: after) /\
  (exists fig : figure,
      make_stacked_bar ranking_table "Question" "Positive" "Neutral"
        "Negative" "Top Strengths" = Ok fig /\
      traces fig =
      [bar "Positive" [Str "Q1"; Str "Q2"; Str "Q3"; Str "Q4"]
         [Num 10; Num 90; Num 50; Num 90];
       bar "Neutral" [Str "Q1"; Str "Q2"; Str "Q3"; Str "Q4"]
         [Num 20; Num 5; Num 25; Num 4];
       bar "Negative" [Str "Q1"; Str "Q2"; Str "Q3"; Str "Q4"]
         [Num 70; Num 5; Num 25; Num 6]]).
Proof.
  split.
  - apply (proj1 (proj2 donut_plain_stacked_bar_normalizes) Main
             overall_state overall_table
             [Str "Positive"; Str "Neutral"; Str "Negative"]
             [Num (6 # 10); Missing; Num (1 # 10)]); reflexivity.
  - apply (proj2 (proj2 donut_plain_stacked_bar_normalizes) ranking_table
             "Question" "Positive" "Neutral" "Negative" "Top Strengths"
             [Str "Q1"; Str "Q2"; Str "Q3"; Str "Q4"]
             [Num 10; Num 90; Num 50; Num 90]
             [Num 20; Num 5; Num 25; Num 4]
             [Num 70; Num 5; Num 25; Num 6]);
      reflexivity || discriminate.
Defined.

(** ** The trend loop *)

Lemma assoc_set_same_value {A} (k : string) (a : A) (l : list (string * A)) :
  assoc_get k l = Some a -> assoc_set k a l = l.
Proof.
  induction l as [|[k0 a0] l IH]; simpl; [discriminate|].
  destruct (String.eqb_spec k k0) as [->|Hne]; intros H.
  - now injection H as ->.
  - now rewrite IH.
Qed.

Lemma assoc_set_set {A} (k : string) (a b : A) (l : list (string * A)) :
  assoc_set k b (assoc_set k a l) = assoc_set k b l.
Proof.
  induction l as [|[k0 a0] l IH]; simpl.
  - now rewrite String.eqb_refl.
  - destruct (String.eqb_spec k k0) as [->|Hne]; simpl.
    + now rewrite String.eqb_refl.
    + destruct (String.eqb_spec k k0); [contradiction|]. now rewrite IH.
Qed.

Lemma column_getitem (df : DataFrame) (c : string) (col : list value) :
  getitem df c = Ok col -> column df c = col.
Proof. unfold column. now intros ->. Qed.

Lemma loop_ready_step (c : string) (names : list string) (df : DataFrame) :
  loop_ready (c :: names) df -> loop_ready names (normalize_in_place df c).
Proof.
  intros H c' Hin Hcat. unfold normalize_in_place.
  destruct (is_category c) eqn:E; [|apply H; [now right | exact Hcat]].
  destruct (String.eqb_spec c' c) as [->|Hne].
  - destruct (H c (or_introl eq_refl) E) as [col [Hc Hn]].
    exists (map normalized col). rewrite getitem_setitem_same.
    rewrite (column_getitem df c col Hc).
    split; [reflexivity | now apply numeric_normalized].
  - rewrite getitem_setitem_other by exact Hne.
    apply H; [now right | exact Hcat].
Qed.

Lemma trend_loop_run (k : ref) (names : list string) :
  forall (p : place) (s : state) (df : DataFrame),
    assoc_get k (store s) = Some df ->
    loop_ready names df ->
    for_each names
      (fun col =>
         if is_category col then
           c <- obj_getitem k col ;;
           c' <- lift (series_apply to_pct c) ;;
           obj_setitem k col c'
         else ret tt) p s
    = (Ok tt,
       {| store := assoc_set k (fold_left normalize_in_place names df)
                     (store s);
          ui := ui s |}).
Proof.
  induction names as [|c names IH]; intros p s df Hs Hr.
  - simpl. unfold ret. destruct s as [st u]. cbn [store ui] in *.
    now rewrite (assoc_set_same_value k df st Hs).
  - cbn [for_each fold_left]. unfold bind at 1.
    pose proof (loop_ready_step c names df Hr) as Hr'.
    unfold normalize_in_place in *.
    destruct (is_category c) eqn:E.
    + destruct (Hr c (or_introl eq_refl) E) as [col [Hc Hn]].
      unfold obj_getitem, obj_setitem, bind, deref, lift.
      rewrite Hs, Hc, (series_apply_numeric col Hn), Hs.
      rewrite (column_getitem df c col Hc) in *.
      rewrite (IH p _ (setitem df c (map normalized col)));
        [| cbn [store]; apply assoc_get_set_same | exact Hr'].
      cbn [store ui]. now rewrite assoc_set_set.
    + unfold ret. now apply IH.
Qed.

Lemma normalize_in_place_index (df : DataFrame) (c : string) :
  index (normalize_in_place df c) = index df.
Proof. unfold normalize_in_place. now destruct (is_category c). Qed.

Lemma assoc_set_names {A} (k : string) (a : A) (l : list (string * A)) :
  assoc_get k l <> None -> map fst (assoc_set k a l) = map fst l.
Proof.
  induction l as [|[k0 a0] l IH]; simpl; [congruence|].
  destruct (String.eqb_spec k k0) as [->|Hne]; intros H; simpl;
    [reflexivity|]. now rewrite IH.
Qed.

Lemma assoc_get_in_names {A} (k : string) (l : list (string * A)) :
  In k (map fst l) -> assoc_get k l <> None.
Proof.
  induction l as [|[k0 a0] l IH]; simpl; [tauto|].
  destruct (String.eqb_spec k k0) as [->|Hne]; [discriminate|].
  intros [H|H]; [congruence | now apply IH].
Qed.

Lemma normalize_in_place_names (df : DataFrame) (c : string) :
  In c (column_names df) ->
  column_names (normalize_in_place df c) = column_names df.
Proof.
  intros H. unfold normalize_in_place, column_names.
  destruct (is_category c); [|reflexivity]. simpl.
  now apply assoc_set_names, assoc_get_in_names.
Qed.

Lemma fold_normalize_index (names : list string) (df : DataFrame) :
  index (fold_left normalize_in_place names df) = index df.
Proof.
  revert df. induction names as [|c names IH]; intros df; simpl;
    [reflexivity|]. now rewrite IH, normalize_in_place_index.
Qed.

Lemma fold_normalize_names (names : list string) (df : DataFrame) :
  incl names (column_names df) ->
  column_names (fold_left normalize_in_place names df) = column_names df.
Proof.
  revert df. induction names as [|c names IH]; intros df H; simpl;
    [reflexivity|].
  assert (Hc : In c (column_names df)) by (apply H; now left).
  rewrite IH; [now apply normalize_in_place_names|].
  rewrite normalize_in_place_names by exact Hc.
  intros x Hx. apply H. now right.
Qed.

Lemma column_normalize_other (df : DataFrame) (c c' : string) :
  c' <> c -> getitem (normalize_in_place df c) c' = getitem df c'.
Proof.
  intros H. unfold normalize_in_place. destruct (is_category c);
    [now apply getitem_setitem_other | reflexivity].
Qed.

Lemma getitem_fold_normalize (names : list string) :
  NoDup names ->
  forall (df : DataFrame) (c : string),
    getitem (fold_left normalize_in_place names df) c =
    if is_category c && existsb (String.eqb c) names
    then Ok (map normalized (column df c))
    else getitem df c.
Proof.
  induction 1 as [|c0 names Hnotin Hnd IH]; intros df c.
  - simpl. now rewrite andb_false_r.
  - cbn [fold_left existsb]. rewrite IH.
    destruct (String.eqb_spec c c0) as [->|Hne].
    + assert (E : existsb (String.eqb c0) names = false).
      { destruct (existsb (String.eqb c0) names) eqn:E; [|reflexivity].
        apply existsb_exists in E as [y [Hy Hyc]].
        apply String.eqb_eq in Hyc. subst y. contradiction. }
      rewrite E, andb_false_r, orb_true_l, andb_true_r.
      unfold normalize_in_place. destruct (is_category c0); [|reflexivity].
      apply getitem_setitem_same.
    + rewrite orb_false_l. unfold column.
      rewrite (column_normalize_other df c0 c Hne). reflexivity.
Qed.

(** ** Reshaping the trend table *)

Lemma res_map_getitem (df : DataFrame) (cs : list string) :
  (forall c, In c cs -> In c (column_names df)) ->
  res_map (getitem df) cs = Ok (map (column df) cs).
Proof.
  induction cs as [|c cs IH]; intros H; simpl; [reflexivity|].
  assert (Hc : exists col, getitem df c = Ok col).
  { apply getitem_present, assoc_get_in_names, H. now left. }
  destruct Hc as [col Hc]. rewrite (column_getitem df c col Hc), Hc. simpl.
  rewrite IH; [reflexivity|]. intros c' Hc'. apply H. now right.
Qed.

Lemma existsb_eqb_In (x : string) (l : list string) :
  existsb (String.eqb x) l = true <-> In x l.
Proof.
  rewrite existsb_exists. split.
  - intros [y [Hy E]]. apply String.eqb_eq in E. now subst y.
  - intros H. exists x. split; [exact H | apply String.eqb_refl].
Qed.

Lemma existsb_eqb_not_In (x : string) (l : list string) :
  ~ In x l -> existsb (String.eqb x) l = false.
Proof.
  intros H. destruct (existsb (String.eqb x) l) eqn:E; [|reflexivity].
  now apply existsb_eqb_In in E.
Qed.

Lemma filter_other_names (x : string) (cs : list string) :
  ~ In x cs -> filter (fun c => negb (String.eqb c x)) cs = cs.
Proof.
  induction cs as [|c cs IH]; intros H; [reflexivity|]. cbn [filter].
  destruct (String.eqb_spec c x) as [->|_].
  - exfalso. apply H. now left.
  - cbn [negb]. rewrite IH; [reflexivity|]. intros Hin. apply H. now right.
Qed.

Lemma melt_long_form (df : DataFrame) (x : string) (cats : list string) :
  In x (column_names df) ->
  (forall c, In c cats -> In c (column_names df)) ->
  ~ In "Percent" (column_names df) ->
  ~ In x cats ->
  melt df x cats "Category" "Percent" = Ok (long_form df x cats).
Proof.
  intros Hx Hc Hv Hid. unfold melt, long_form.
  rewrite (existsb_eqb_not_In "Percent" _ Hv).
  destruct (getitem_present df x (assoc_get_in_names x _ Hx)) as [xs Hxs].
  rewrite (column_getitem df x xs Hxs), Hxs.
  rewrite (filter_other_names x cats Hid). cbn [res_bind].
  now rewrite (res_map_getitem df cats Hc).
Qed.

Lemma melt_value_name_taken (df : DataFrame) (x : string)
    (cats : list string) (var_name value_name : string) :
  In value_name (column_names df) ->
  melt df x cats var_name value_name = Raise ValueError.
Proof.
  intros H. unfold melt.
  now rewrite (proj2 (existsb_eqb_In value_name _) H).
Qed.

Lemma not_category_not_among (x : string) (names : list string) :
  is_category x = false -> ~ In x (filter is_category names).
Proof.
  intros H Hin. apply filter_In in Hin as [_ Hc]. congruence.
Qed.

Lemma combine_app {A B} (l1 l2 : list A) (l1' l2' : list B) :
  length l1 = length l1' ->
  combine (l1 ++ l2) (l1' ++ l2') = combine l1 l1' ++ combine l2 l2'.
Proof.
  revert l1'. induction l1 as [|a l1 IH]; intros [|b l1'] H; simpl in *;
    try discriminate; [reflexivity|]. f_equal. apply IH. lia.
Qed.

Lemma well_formed_column (df : DataFrame) (c : string) :
  well_formed df -> In c (column_names df) ->
  length (column df c) = nrows df.
Proof.
  intros Hwf Hc.
  destruct (getitem_present df c (assoc_get_in_names c _ Hc)) as [col Hcol].
  rewrite (column_getitem df c col Hcol).
  apply getitem_Ok, assoc_get_In in Hcol.
  unfold well_formed in Hwf. rewrite Forall_forall in Hwf.
  exact (Hwf _ Hcol).
Qed.

Lemma long_form_columns (df : DataFrame) (x : string) (cats : list string) :
  x <> "Category" -> x <> "Percent" ->
  column (long_form df x cats) x = concat (map (fun _ => column df x) cats) /\
  column (long_form df x cats) "Category"
  = flat_map (fun c => repeat (Str c) (nrows df)) cats /\
  column (long_form df x cats) "Percent" = concat (map (column df) cats).
Proof.
  intros H1 H2. repeat split.
  - unfold column at 1. unfold getitem, long_form.
    cbn [columns assoc_get]. now rewrite String.eqb_refl.
  - unfold column at 1. unfold getitem, long_form.
    cbn [columns assoc_get].
    destruct (String.eqb_spec "Category" x) as [E|_]; [congruence|].
    reflexivity.
  - unfold column at 1. unfold getitem, long_form.
    cbn [columns assoc_get].
    destruct (String.eqb_spec "Percent" x) as [E|_]; [congruence|].
    reflexivity.
Qed.

Lemma triples_long_form (df : DataFrame) (x : string) (cats : list string) :
  well_formed df ->
  In x (column_names df) ->
  (forall c, In c cats -> In c (column_names df)) ->
  x <> "Category" -> x <> "Percent" ->
  triples x (long_form df x cats) =
  flat_map (fun c => combine (combine (column df x)
                                      (repeat (Str c) (nrows df)))
                             (column df c))
           cats.
Proof.
  intros Hwf Hx Hc H1 H2. unfold triples.
  destruct (long_form_columns df x cats H1 H2) as [-> [-> ->]].
  induction cats as [|c cats IH]; [reflexivity|].
  cbn [map concat flat_map].
  assert (Lx : length (column df x) = nrows df)
    by now apply well_formed_column.
  assert (Lc : length (column df c) = nrows df).
  { apply well_formed_column; [exact Hwf | apply Hc; now left]. }
  rewrite (combine_app (column df x)) by now rewrite repeat_length.
  rewrite combine_app
    by (rewrite length_combine, repeat_length, Lx, Lc; lia).
  rewrite IH; [reflexivity|].
  intros c' Hc'. apply Hc. now right.
Qed.

(** ** Running script fragments step by step *)

Lemma bind_run {A B} (m : M A) (f : A -> M B) (p : place) (s : state) :
  bind m f p s =
  match m p s with
  | (Ok a, s') => f a p s'
  | (Raise e, s') => (Raise e, s')
  end.
Proof. reflexivity. Qed.

Lemma emit_run (e : element) (p : place) (s : state) :
  emit e p s = (Ok tt, {| store := store s; ui := ui s ++ [(p, e)] |}).
Proof. reflexivity. Qed.

Lemma sheets_get_run (k : string) (p : place) (s : state) (df : DataFrame) :
  assoc_get k (store s) = Some df -> sheets_get k p s = (Ok (Some k), s).
Proof. intros H. unfold sheets_get. now rewrite H. Qed.

Lemma deref_run (k : ref) (p : place) (s : state) (df : DataFrame) :
  assoc_get k (store s) = Some df -> deref k p s = (Ok df, s).
Proof. intros H. unfold deref. now rewrite H. Qed.

Lemma lift_run {A} (r : res A) (p : place) (s : state) :
  lift r p s = (r, s).
Proof. reflexivity. Qed.

Lemma within_run {A} (q : place) (m : M A) (p : place) (s : state) :
  within q m p s = m q s.
Proof. reflexivity. Qed.

Lemma first_column_name (df : DataFrame) :
  empty df = false -> In (nth 0 (column_names df) "") (column_names df).
Proof.
  unfold empty, column_names. destruct (columns df) as [|c l]; simpl;
    [discriminate|]. intros _. now left.
Qed.

Lemma trend_normalized_names (df : DataFrame) :
  column_names (trend_normalized df) = column_names df.
Proof. apply fold_normalize_names, incl_refl. Qed.

Lemma px_line_long (long : DataFrame) (x t : string)
    (xs cs ys : list value) :
  assoc_get x (columns long) = Some xs ->
  assoc_get "Category" (columns long) = Some cs ->
  assoc_get "Percent" (columns long) = Some ys ->
  exists fig,
    px_line long x "Percent" (Some "Category") t = Ok fig /\
    kind fig = LineChart true /\
    traces fig =
    map (fun k => {| trace_name := label_of k;
                     trace_x := rows_where k cs xs;
                     trace_y := rows_where k cs ys;
                     trace_text := [] |})
        (unique cs).
Proof.
  intros Hx Hc Hy. unfold px_line. rewrite Hx, Hy, Hc.
  eexists. split; [reflexivity|]. split; reflexivity.
Qed.

Lemma trend_section_wide_run (p : place) (s : state) (df : DataFrame) :
  assoc_get "Yearly Trend" (store s) = Some df ->
  empty df = false ->
  existsb (String.eqb "positive %") (map lower (column_names df)) = false ->
  loop_ready (column_names df) df ->
  is_category (nth 0 (column_names df) "") = false ->
  nth 0 (column_names df) "" <> "Category" ->
  ~ In "Percent" (column_names df) ->
  let x := nth 0 (column_names df) "" in
  let cats := filter is_category (column_names df) in
  let long := long_form (trend_normalized df) x cats in
  exists fig,
    px_line long x "Percent" (Some "Category") "Perception over time"
    = Ok fig /\
    melt (trend_normalized df) x cats "Category" "Percent" = Ok long /\
    trend_section p s =
    (Ok tt,
     {| store := assoc_set "Yearly Trend" (trend_normalized df) (store s);
        ui := ui s ++
              [ (p, Markdown "## Yearly Trend");
                (p, PlotlyChart (trend_figure fig));
                (Expander "View data",
                 DataframeView (trend_normalized df)) ] |}).
Proof.
  intros Hs He Hno Hr H0 H1 Hv x cats long.
  assert (Hx : In x (column_names (trend_normalized df))).
  { rewrite trend_normalized_names. now apply first_column_name. }
  assert (H2 : x <> "Percent").
  { intros E. apply Hv. rewrite trend_normalized_names in Hx.
    now rewrite <- E. }
  assert (Hcats : forall c, In c cats ->
                            In c (column_names (trend_normalized df))).
  { intros c Hc. rewrite trend_normalized_names.
    now apply filter_In in Hc as [Hc _]. }
  assert (Hmelt : melt (trend_normalized df) x cats "Category" "Percent"
                  = Ok long).
  { apply melt_long_form; [exact Hx | exact Hcats | |].
    - now rewrite trend_normalized_names.
    - now apply not_category_not_among. }
  destruct (px_line_long long x "Perception over time"
              (concat (map (fun _ => column (trend_normalized df) x) cats))
              (flat_map (fun c => repeat (Str c)
                                    (nrows (trend_normalized df))) cats)
              (concat (map (column (trend_normalized df)) cats)))
    as [fig [Hfig _]].
  { unfold long, long_form. cbn [columns assoc_get].
    now rewrite String.eqb_refl. }
  { unfold long, long_form. cbn [columns assoc_get].
    destruct (String.eqb_spec "Category" x) as [E|_];
      [exfalso; apply H1; symmetry; exact E|].
    reflexivity. }
  { unfold long, long_form. cbn [columns assoc_get].
    destruct (String.eqb_spec "Percent" x) as [E|_];
      [exfalso; apply H2; symmetry; exact E|].
    reflexivity. }
  exists fig. split; [exact Hfig|]. split; [exact Hmelt|].
  unfold trend_section.
  rewrite bind_run, emit_run.
  rewrite bind_run, (sheets_get_run _ _ _ df) by exact Hs.
  rewrite bind_run, (deref_run _ _ _ df) by exact Hs.
  rewrite He. cbv zeta. rewrite Hno.
  rewrite bind_run, (trend_loop_run _ _ _ _ df) by assumption.
  fold (trend_normalized df).
  rewrite bind_run, (deref_run _ _ _ (trend_normalized df))
    by (cbn [store]; apply assoc_get_set_same).
  rewrite bind_run, lift_run, trend_normalized_names.
  fold x. fold cats. rewrite Hmelt.
  rewrite bind_run, lift_run.
  change (nth 0 (column_names long) "") with x. rewrite Hfig.
  rewrite bind_run, emit_run.
  rewrite bind_run, (deref_run _ _ _ (trend_normalized df))
    by (cbn [store]; apply assoc_get_set_same).
  rewrite within_run, emit_run. cbn [store ui].
  unfold trend_figure. rewrite <- !app_assoc. reflexivity.
Qed.

(** ** The single-series trend branch *)

Lemma index_of_spec (f : string -> string) (x : string)
    (names : list string) :
  existsb (String.eqb x) (map f names) = true ->
  In (nth (index_of x (map f names)) names "") names /\
  f (nth (index_of x (map f names)) names "") = x.
Proof.
  induction names as [|c names IH]; simpl; [discriminate|].
  destruct (String.eqb_spec x (f c)) as [->|Hne]; simpl.
  - intros _. split; [now left | reflexivity].
  - intros H. destruct (IH H) as [Hin Hf]. split; [now right | exact Hf].
Qed.

Lemma NoDup_map_inj {A B} (f : A -> B) (l : list A) (a b : A) :
  NoDup (map f l) -> In a l -> In b l -> f a = f b -> a = b.
Proof.
  induction l as [|x l IH]; simpl; [tauto|].
  intros Hnd Ha Hb Hf. inversion Hnd as [|? ? Hnotin Hnd']; subst.
  destruct Ha as [->|Ha], Hb as [->|Hb].
  - reflexivity.
  - exfalso. apply Hnotin. rewrite Hf. now apply in_map.
  - exfalso. apply Hnotin. rewrite <- Hf. now apply in_map.
  - now apply IH.
Qed.

Lemma assoc_get_rename (old : string) (l : list (string * list value)) :
  (forall c, In c (map fst l) -> lower c = "positive %" -> c = old) ->
  assoc_get "Positive %"
    (map (fun c => (if String.eqb (fst c) old then "Positive %" else fst c,
                    snd c)) l)
  = assoc_get old l.
Proof.
  induction l as [|[c v] l IH]; intros H; [reflexivity|].
  cbn [map assoc_get fst snd].
  destruct (String.eqb_spec c old) as [->|Hne].
  - now rewrite !String.eqb_refl.
  - destruct (String.eqb_spec old c) as [E|_]; [congruence|].
    destruct (String.eqb_spec "Positive %" c) as [E|_].
    + exfalso. apply Hne, H; [now left | now rewrite <- E].
    + apply IH. intros c' Hc'. apply H. now right.
Qed.

Lemma rename_first_column (df : DataFrame) (old new : string) :
  empty df = false ->
  exists xs,
    assoc_get (nth 0 (column_names (rename df old new)) "")
      (columns (rename df old new)) = Some xs.
Proof.
  unfold empty, column_names, rename. cbn [columns].
  destruct (columns df) as [|[c v] l]; simpl; [discriminate|].
  intros _. exists v. now rewrite String.eqb_refl.
Qed.

Lemma trend_section_single_run (p : place) (s : state) (df : DataFrame) :
  assoc_get "Yearly Trend" (store s) = Some df ->
  empty df = false ->
  existsb (String.eqb "positive %") (map lower (column_names df)) = true ->
  NoDup (map lower (column_names df)) ->
  let old := nth (index_of "positive %" (map lower (column_names df)))
                 (column_names df) "" in
  let t := rename df old "Positive %" in
  exists xs,
    In old (column_names df) /\ lower old = "positive %" /\
    trend_section p s =
    (Ok tt,
     {| store := store s;
        ui := ui s ++
              [ (p, Markdown "## Yearly Trend");
                (p, PlotlyChart
                      (trend_figure
                         {| kind := LineChart true;
                            traces := [ {| trace_name := "";
                                           trace_x := xs;
                                           trace_y := column df old;
                                           trace_text := [] |} ];
                            title := Some "Positive % over time";
                            yaxis_title := Some "Positive %";
                            legend_orientation := None;
                            height := 450 |}));
                (Expander "View data", DataframeView t) ] |}).
Proof.
  intros Hs He Hyes Hnd old t.
  destruct (index_of_spec lower "positive %" (column_names df) Hyes)
    as [Hin Hlow].
  fold old in Hin, Hlow.
  destruct (rename_first_column df old "Positive %" He) as [xs Hxs].
  fold t in Hxs.
  destruct (getitem_present df old (assoc_get_in_names old _ Hin))
    as [ys Hys].
  assert (Hy : assoc_get "Positive %" (columns t) = Some ys).
  { unfold t, rename. cbn [columns]. rewrite assoc_get_rename.
    - now apply getitem_Ok.
    - intros c Hc Hl.
      apply (NoDup_map_inj lower (column_names df)); try assumption.
      now rewrite Hl, Hlow. }
  exists xs. split; [exact Hin|]. split; [exact Hlow|].
  unfold trend_section.
  rewrite bind_run, emit_run.
  rewrite bind_run, (sheets_get_run _ _ _ df) by exact Hs.
  rewrite bind_run, (deref_run _ _ _ df) by exact Hs.
  rewrite He. cbv zeta. rewrite Hyes. fold old. fold t.
  rewrite bind_run, lift_run. unfold px_line. rewrite Hxs, Hy.
  rewrite bind_run, emit_run, within_run, emit_run. cbn [store ui].
  rewrite (column_getitem df old ys Hys).
  unfold trend_figure. rewrite <- !app_assoc. reflexivity.
Qed.

Lemma Forall_assoc_set {A} (P : string * A -> Prop) (k : string) (a : A)
    (l : list (string * A)) :
  Forall P l -> (forall k', P (k', a)) -> Forall P (assoc_set k a l).
Proof.
  intros Hl Ha. induction l as [|[k0 a0] l IH]; simpl.
  - constructor; [apply Ha | constructor].
  - inversion Hl as [|? ? H0 Hl']; subst.
    destruct (String.eqb k k0); constructor; auto.
Qed.

Lemma well_formed_normalize (df : DataFrame) (c : string) :
  well_formed df -> In c (column_names df) ->
  well_formed (normalize_in_place df c).
Proof.
  intros Hwf Hc. unfold normalize_in_place.
  destruct (is_category c); [|exact Hwf].
  unfold well_formed, setitem, nrows. cbn [columns index].
  apply Forall_assoc_set; [exact Hwf|]. intros k'. cbn [snd].
  rewrite length_map. now apply well_formed_column.
Qed.

Lemma well_formed_fold_normalize (names : list string) (df : DataFrame) :
  well_formed df -> incl names (column_names df) ->
  well_formed (fold_left normalize_in_place names df).
Proof.
  revert df. induction names as [|c names IH]; intros df Hwf Hin; simpl;
    [exact Hwf|].
  assert (Hc : In c (column_names df)) by (apply Hin; now left).
  apply IH.
  - now apply well_formed_normalize.
  - rewrite normalize_in_place_names by exact Hc.
    intros y Hy. apply Hin. now right.
Qed.

Lemma trend_normalized_column (df : DataFrame) (c : string) :
  NoDup (column_names df) -> In c (column_names df) ->
  column (trend_normalized df) c =
  if is_category c then map normalized (column df c) else column df c.
Proof.
  intros Hnd Hc. unfold column at 1. unfold trend_normalized.
  rewrite (getitem_fold_normalize _ Hnd).
  assert (E : existsb (String.eqb c) (column_names df) = true).
  { apply existsb_exists. exists c. split; [exact Hc|].
    apply String.eqb_refl. }
  rewrite E, andb_true_r. now destruct (is_category c).
Qed.

Lemma flat_map_ext_in {A B} (f g : A -> list B) (l : list A) :
  (forall a, In a l -> f a = g a) -> flat_map f l = flat_map g l.
Proof.
  induction l as [|a l IH]; intros H; simpl; [reflexivity|].
  rewrite (H a (or_introl eq_refl)), IH; [reflexivity|].
  intros b Hb. apply H. now right.
Qed.

Lemma trend_wide_loop_ready : loop_ready (column_names trend_wide) trend_wide.
Proof.
  intros c Hin Hcat. cbn in Hin.
  destruct Hin as [<-|[<-|[<-|[<-|[]]]]];
    try (vm_compute in Hcat; discriminate Hcat);
    eexists; (split; [reflexivity | repeat constructor]).
Qed.

Lemma trend_wide_names_NoDup : NoDup (column_names trend_wide).
Proof.
  cbn. repeat constructor; cbn; intuition discriminate.
Qed.

(** C7. The Yearly Trend section draws a single line when the table has a
    column named "Positive %" in any letter case, with that column's values
    as they are.  Otherwise it normalises the Positive/Neutral/Negative
    columns and melts the table into long form: one row (x, category, value)
    per row and category column, category by category.  The reshape needs
    the names it gives to be free: no column of the table is named Percent,
    and the first column is neither named Category nor one of the category
    columns.  For the sample table this gives 6 rows whose Percent values
    are 80, 90, 15, 5, 5, 5. *)
Theorem trend_single_line_or_long_form :
  (forall (p : place) (s : state) (df : DataFrame),
      assoc_get "Yearly Trend" (store s) = Some df ->
      empty df = false ->
      existsb (String.eqb "positive %") (map lower (column_names df)) = true ->
      NoDup (map lower (column_names df)) ->
      exists (old : string) (fig : figure) (line : trace),
        In old (column_names df) /\ lower old = "positive %" /\
        trend_section p s =
          (Ok tt,
           {| store := store s;
              ui := ui s ++
                    [ (p, Markdown "## Yearly Trend");
                      (p, PlotlyChart fig);
                      (Expander "View data",
                       DataframeView (rename df old "Positive %")) ] |}) /\
        kind fig = LineChart true /\
        traces fig = [line] /\
        trace_y line = column df old) /\
  (forall (p : place) (s : state) (df : DataFrame),
      assoc_get "Yearly Trend" (store s) = Some df ->
      empty df = false ->
      existsb (String.eqb "positive %") (map lower (column_names df)) = false ->
      loop_ready (column_names df) df ->
      well_formed df ->
      NoDup (column_names df) ->
      is_category (nth 0 (column_names df) "") = false ->
      nth 0 (column_names df) "" <> "Category" ->
      ~ In "Percent" (column_names df) ->
      exists (long : DataFrame) (fig : figure),
        melt (trend_normalized df) (nth 0 (column_names df) "")
          (filter is_category (column_names df)) "Category" "Percent"
        = Ok long /\
        px_line long (nth 0 (column_names df) "") "Percent" (Some "Category")
          "Perception over time" = Ok fig /\
        trend_section p s =
          (Ok tt,
           {| store := assoc_set "Yearly Trend" (trend_normalized df)
                         (store s);
              ui := ui s ++
                    [ (p, Markdown "## Yearly Trend");
                      (p, PlotlyChart (trend_figure fig));
                      (Expander "View data",
                       DataframeView (trend_normalized df)) ] |}) /\
        nrows long =
          (nrows df * length (filter is_category (column_names df)))%nat /\
        triples (nth 0 (column_names df) "") long =
          flat_map
            (fun c =>
               combine (combine (column df (nth 0 (column_names df) ""))
                                (repeat (Str c) (nrows df)))
                       (map normalized (column df c)))
            (filter is_category (column_names df))) /\
  (exists (long : DataFrame) (fig : figure) (percent : list value),
      run trend_section [("Yearly Trend", trend_wide)] =
        (Ok tt,
         {| store := [("Yearly Trend", trend_normalized trend_wide)];
            ui := [ (Main, Markdown "## Yearly Trend");
                    (Main, PlotlyChart fig);
                    (Expander "View data",
                     DataframeView (trend_normalized trend_wide)) ] |}) /\
      map trace_name (traces fig) = ["Positive"; "Neutral"; "Negative"] /\
      melt (trend_normalized trend_wide) "Year"
        ["Positive"; "Neutral"; "Negative"] "Category" "Percent" = Ok long /\
      nrows long = 6%nat /\
      getitem long "Year" =
        Ok [Num 2020; Num 2021; Num 2020; Num 2021; Num 2020; Num 2021] /\
      getitem long "Category" =
        Ok [Str "Positive"; Str "Positive"; Str "Neutral"; Str "Neutral";
            Str "Negative"; Str "Negative"] /\
      getitem long "Percent" = Ok percent /\
      Forall2 value_eq percent
        [Num 80; Num 90; Num 15; Num 5; Num 5; Num 5]).
Proof.
  split; [|split].
  - intros p s df Hs He Hyes Hnd.
    destruct (trend_section_single_run p s df Hs He Hyes Hnd)
      as [xs [Hin [Hlow Hrun]]].
    do 3 eexists. split; [exact Hin|]. split; [exact Hlow|].
    split; [exact Hrun|]. repeat split.
  - intros p s df Hs He Hno Hr Hwf Hnd Hxc H1 H2.
    destruct (trend_section_wide_run p s df Hs He Hno Hr Hxc H1 H2)
      as [fig [Hfig [Hmelt Hrun]]].
    set (x := nth 0 (column_names df) "") in *.
    set (cats := filter is_category (column_names df)) in *.
    assert (Hx : In x (column_names df)) by now apply first_column_name.
    assert (Hcats : forall c, In c cats -> In c (column_names df)).
    { intros c Hc. now apply filter_In in Hc as [Hc _]. }
    assert (H2' : x <> "Percent").
    { intros E. apply H2. now rewrite <- E. }
    exists (long_form (trend_normalized df) x cats), fig.
    split; [exact Hmelt|]. split; [exact Hfig|]. split; [exact Hrun|].
    split.
    + unfold long_form, nrows. cbn [index]. rewrite length_seq.
      unfold trend_normalized. now rewrite fold_normalize_index.
    + rewrite triples_long_form; try assumption.
      * unfold nrows at 1, trend_normalized.
        rewrite fold_normalize_index. fold (nrows df).
        fold (trend_normalized df).
        rewrite (trend_normalized_column df x Hnd Hx), Hxc.
        apply flat_map_ext_in. intros c Hc.
        rewrite (trend_normalized_column df c Hnd (Hcats c Hc)).
        apply filter_In in Hc as [_ Hc]. now rewrite Hc.
      * apply well_formed_fold_normalize; [exact Hwf | apply incl_refl].
      * now rewrite trend_normalized_names.
      * intros c Hc. rewrite trend_normalized_names. now apply Hcats.
  - do 3 eexists. split; [vm_compute; reflexivity|].
    split; [reflexivity|]. split; [vm_compute; reflexivity|].
    split; [reflexivity|]. split; [reflexivity|]. split; [reflexivity|].
    split; [reflexivity|].
    repeat constructor.
Qed.

Lemma trend_single_line_or_long_form_witness :
  (exists (old : string) (fig : figure) (line : trace),
      In old (column_names trend_single) /\ lower old = "positive %" /\
      trend_section Main (trend_state trend_single) =
        (Ok tt,
         {| store := store (trend_state trend_single);
            ui := ui (trend_state trend_single) ++
                  [ (Main, Markdown "## Yearly Trend");
                    (Main, PlotlyChart fig);
                    (Expander "View data",
                     DataframeView
                       (rename trend_single old "Positive %")) ] |}) /\
      kind fig = LineChart true /\
      traces fig = [line] /\
      trace_y line = column trend_single old) /\
  (exists (long : DataFrame) (fig : figure),
      melt (trend_normalized trend_wide)
        (nth 0 (column_names trend_wide) "")
        (filter is_category (column_names trend_wide)) "Category" "Percent"
      = Ok long /\
      px_line long (nth 0 (column_names trend_wide) "") "Percent"
        (Some "Category") "Perception over time" = Ok fig /\
      trend_section Main (trend_state trend_wide) =
        (Ok tt,
         {| store := assoc_set "Yearly Trend" (trend_normalized trend_wide)
                       (store (trend_state trend_wide));
            ui := ui (trend_state trend_wide) ++
                  [ (Main, Markdown "## Yearly Trend");
                    (Main, PlotlyChart (trend_figure fig));
                    (Expander "View data",
                     DataframeView (trend_normalized trend_wide)) ] |}) /\
      nrows long =
        (nrows trend_wide *
         length (filter is_category (column_names trend_wide)))%nat /\
      triples (nth 0 (column_names trend_wide) "") long =
        flat_map
          (fun c =>
             combine
               (combine
                  (column trend_wide (nth 0 (column_names trend_wide) ""))
                  (repeat (Str c) (nrows trend_wide)))
               (map normalized (column trend_wide c)))
          (filter is_category (column_names trend_wide))).
Proof.
  split.
  - apply (proj1 trend_single_line_or_long_form Main
             (trend_state trend_single) trend_single); try reflexivity.
    cbn. repeat constructor; cbn; intuition discriminate.
  - apply (proj1 (proj2 trend_single_line_or_long_form) Main
             (trend_state trend_wide) trend_wide); try reflexivity.
    + apply trend_wide_loop_ready.
    + repeat constructor.
    + apply trend_wide_names_NoDup.
    + cbn. discriminate.
    + cbn. intuition discriminate.
Defined.

(** ** What each section does to the sheet set *)

Lemma trend_section_single_store (p : place) (s : state) (df : DataFrame) :
  assoc_get "Yearly Trend" (store s) = Some df ->
  existsb (String.eqb "positive %") (map lower (column_names df)) = true ->
  store (snd (trend_section p s)) = store s.
Proof.
  intros Hs Hyes. unfold trend_section.
  rewrite bind_run, emit_run.
  rewrite bind_run, (sheets_get_run _ _ _ df) by exact Hs.
  rewrite bind_run, (deref_run _ _ _ df) by exact Hs.
  destruct (empty df); [reflexivity|].
  cbv zeta. rewrite Hyes.
  match goal with
  | |- store (snd (?m ?q ?s1)) = _ =>
      assert (H : preserves_store m) by preserves; now rewrite H
  end.
Qed.

Lemma trend_section_wide_store (p : place) (s : state) (df : DataFrame) :
  assoc_get "Yearly Trend" (store s) = Some df ->
  empty df = false ->
  existsb (String.eqb "positive %") (map lower (column_names df)) = false ->
  loop_ready (column_names df) df ->
  store (snd (trend_section p s)) =
  assoc_set "Yearly Trend" (trend_normalized df) (store s).
Proof.
  intros Hs He Hno Hr. unfold trend_section.
  rewrite bind_run, emit_run.
  rewrite bind_run, (sheets_get_run _ _ _ df) by exact Hs.
  rewrite bind_run, (deref_run _ _ _ df) by exact Hs.
  rewrite He. cbv zeta. rewrite Hno.
  rewrite bind_run, (trend_loop_run _ _ _ _ df) by assumption.
  fold (trend_normalized df).
  match goal with
  | |- store (snd (?m ?q ?s1)) = _ =>
      assert (H : preserves_store m) by preserves; now rewrite H
  end.
Qed.

(** C3.  The sheet set does not stay as loaded.  The Overall Summary section
    assigns the normalised Percentage column into the table held in the
    sheet set, and the three-series branch of the Yearly Trend section does
    so for the Positive, Neutral and Negative columns: after the section the
    stored table differs from the loaded one.  The ranked sections, which
    copy the table first, leave the same kind of sheet set as it was. *)
Theorem sheet_tables_updated_in_place :
  (exists df' : DataFrame,
      assoc_get "Overall Summary"
        (store (snd (run overall_section
                       [("Overall Summary", overall_table)]))) = Some df' /\
      getitem overall_table "Percentage" =
        Ok [Num (6 # 10); Missing; Num (1 # 10)] /\
      getitem df' "Percentage" =
        Ok [Num ((6 # 10) * 100); Missing; Num ((1 # 10) * 100)] /\
      df' <> overall_table) /\
  (exists df' : DataFrame,
      assoc_get "Yearly Trend"
        (store (snd (run trend_section [("Yearly Trend", trend_wide)])))
      = Some df' /\
      getitem trend_wide "Positive" = Ok [Num (8 # 10); Num (9 # 10)] /\
      getitem df' "Positive" =
        Ok [Num ((8 # 10) * 100); Num ((9 # 10) * 100)] /\
      df' <> trend_wide) /\
  (forall argsort : list Q -> list nat,
      store (snd (run (strengths_section argsort 5)
                    [("Top Strengths", ranking_table)])) =
      [("Top Strengths", ranking_table)]).
Proof.
  split; [|split].
  - eexists. split; [vm_compute; reflexivity|].
    split; [reflexivity|]. split; [vm_compute; reflexivity|].
    intros H. apply (f_equal (fun d => getitem d "Percentage")) in H.
    vm_compute in H. discriminate H.
  - eexists. split; [vm_compute; reflexivity|].
    split; [reflexivity|]. split; [vm_compute; reflexivity|].
    intros H. apply (f_equal (fun d => getitem d "Positive")) in H.
    vm_compute in H. discriminate H.
  - intros argsort.
    exact (ranked_section_preserves argsort (heading_of Strengths)
             (sheet_of Strengths) "Top Strengths" false 5 Main
             {| store := [("Top Strengths", ranking_table)]; ui := [] |}).
Qed.


(** * Further properties of the script *)

(** ** [to_pct] *)


(** X3. The numbers [to_pct] leaves as they are are 0 and the numbers above
    1; every other number is changed. *)
Theorem to_pct_unchanged_values :
  forall v : Q,
  exists w : Q,
    to_pct (Num v) = Ok (Num w) /\
    (w == v <-> (v == 0 \/ 1 < v)).
Proof.
  intros v. destruct (Qlt_le_dec 1 v) as [Hgt|Hle].
  - exists v. split; [now apply to_pct_gt|]. split; intros _.
    + now right.
    + reflexivity.
  - exists (v * 100). split; [now apply to_pct_le|]. split.
    + intros H. left. lra.
    + intros [H|H]; lra.
Qed.

(** X4. [to_pct] keeps the order of two numbers on the same side of the
    threshold 1, but a fraction [a <= 1] is placed above a larger number [b]
    whenever [b < a*100]. *)
Theorem to_pct_order :
  forall a b wa wb : Q,
    to_pct (Num a) = Ok (Num wa) ->
    to_pct (Num b) = Ok (Num wb) ->
    a <= b ->
    (b <= 1 -> wa <= wb) /\
    (1 < a -> wa <= wb) /\
    (a <= 1 -> 1 < b -> b < a * 100 -> wb < wa).
Proof.
  intros a b wa wb Ha Hb Hab. repeat split.
  - intros Hb1. rewrite to_pct_le in Ha, Hb by lra.
    injection Ha as <-. injection Hb as <-. lra.
  - intros Ha1. rewrite to_pct_gt in Ha, Hb by lra.
    injection Ha as <-. injection Hb as <-. lra.
  - intros Ha1 Hb1 Hlt. rewrite to_pct_le in Ha by lra.
    rewrite to_pct_gt in Hb by lra.
    injection Ha as <-. injection Hb as <-. lra.
Qed.

Lemma to_pct_order_witness :
  ((2 # 10) * 100 <= (5 # 10) * 100) /\ (40 # 1) < (5 # 10) * 100.
Proof.
  split.
  - apply (proj1 (to_pct_order (2 # 10) (5 # 10) ((2 # 10) * 100)
                    ((5 # 10) * 100) eq_refl eq_refl
                    ltac:(vm_compute; discriminate))).
    vm_compute; discriminate.
  - apply (proj2 (proj2 (to_pct_order (5 # 10) 40 ((5 # 10) * 100) 40
                           eq_refl eq_refl ltac:(vm_compute; discriminate))));
      reflexivity || (vm_compute; discriminate).
Defined.

(** ** Loading the workbook *)

Lemma load_sheets_NoDup (xls : workbook) :
  NoDup (map fst xls) ->
  flat_map (fun name => match assoc_get name xls with
                        | Some df => [(name, df)]
                        | None => []
                        end)
           (map fst xls) = xls.
Proof.
  induction xls as [|[k v] l IH]; intros Hnd; [reflexivity|].
  inversion Hnd as [|? ? Hnotin Hnd']; subst.
  cbn [map fst flat_map assoc_get]. rewrite String.eqb_refl. cbn [app].
  f_equal. rewrite <- (IH Hnd') at 2. apply flat_map_ext_in.
  intros name Hname.
  destruct (String.eqb_spec name k) as [->|_]; [contradiction | reflexivity].
Qed.

Lemma assoc_get_NoDup_In {A} (k : string) (a : A) (l : list (string * A)) :
  NoDup (map fst l) -> In (k, a) l -> assoc_get k l = Some a.
Proof.
  induction l as [|[k0 a0] l IH]; intros Hnd Hin; [contradiction|].
  inversion Hnd as [|? ? Hnotin Hnd']; subst. cbn [assoc_get].
  destruct Hin as [E|Hin].
  - injection E as -> ->. now rewrite String.eqb_refl.
  - destruct (String.eqb_spec k k0) as [->|_]; [|now apply IH].
    exfalso. apply Hnotin. now apply (in_map fst) in Hin.
Qed.

(** X5. [load_excel] raises FileNotFoundError when there is no file at the
    path; otherwise it returns the sheets of the workbook under their names,
    in workbook order, so that a lookup by sheet name finds the sheet of that
    name and a name the workbook lacks is not found. *)
Theorem load_excel_sheets_by_name :
  (forall (fs : string -> option workbook) (fp : string),
      fs fp = None -> load_excel fs fp = Raise FileNotFoundError) /\
  (forall (fs : string -> option workbook) (fp : string) (xls : workbook),
      fs fp = Some xls -> NoDup (map fst xls) ->
      exists sheets : list (string * DataFrame),
        load_excel fs fp = Ok sheets /\
        map fst sheets = map fst xls /\
        (forall name df, In (name, df) xls ->
                         assoc_get name sheets = Some df) /\
        (forall name, ~ In name (map fst xls) ->
                      assoc_get name sheets = None)).
Proof.
  split.
  - intros fs fp H. unfold load_excel. now rewrite H.
  - intros fs fp xls H Hnd. exists xls. unfold load_excel. rewrite H.
    split; [now rewrite load_sheets_NoDup|]. split; [reflexivity|]. split.
    + intros name df Hin. now apply assoc_get_NoDup_In.
    + intros name Hn. destruct (assoc_get name xls) as [df|] eqn:E;
        [|reflexivity].
      exfalso. apply Hn. apply assoc_get_In in E.
      now apply (in_map fst) in E.
Qed.

Lemma load_excel_sheets_by_name_witness :
  load_excel (fun _ => None) workbook_path = Raise FileNotFoundError /\
  (exists sheets : list (string * DataFrame),
      load_excel (fun _ => Some ranking_sheets) workbook_path = Ok sheets /\
      map fst sheets = map fst ranking_sheets /\
      (forall name df, In (name, df) ranking_sheets ->
                       assoc_get name sheets = Some df) /\
      (forall name, ~ In name (map fst ranking_sheets) ->
                    assoc_get name sheets = None)).
Proof.
  split.
  - apply (proj1 load_excel_sheets_by_name). reflexivity.
  - apply (proj2 load_excel_sheets_by_name (fun _ => Some ranking_sheets)
             workbook_path ranking_sheets eq_refl).
    cbn. repeat constructor; cbn; intuition discriminate.
Defined.

(** X6. The cache keeps a successful load: once a path was loaded, every
    later call for it returns the same sheets whatever the file system holds
    by then, and leaves the cache as it is.  A load that raised is not kept:
    the next call reads the file system again. *)
Theorem cached_load_excel_reuses :
  (forall (fs fs' : string -> option workbook) (fp : string) (c : cache)
          (sheets : list (string * DataFrame)) (c' : cache),
      cached_load_excel fs fp c = (Ok sheets, c') ->
      cached_load_excel fs' fp c' = (Ok sheets, c')) /\
  (forall (fs fs' : string -> option workbook) (fp : string) (c : cache)
          (e : exn) (c' : cache),
      cached_load_excel fs fp c = (Raise e, c') ->
      c' = c /\
      cached_load_excel fs' fp c' =
      match load_excel fs' fp with
      | Ok sheets => (Ok sheets, assoc_set fp sheets c)
      | Raise e' => (Raise e', c)
      end).
Proof.
  split.
  - intros fs fs' fp c sheets c' H. unfold cached_load_excel in *.
    destruct (assoc_get fp c) as [v|] eqn:E.
    + injection H as <- <-. now rewrite E.
    + destruct (load_excel fs fp) as [v|e]; [|discriminate].
      injection H as <- <-. now rewrite assoc_get_set_same.
  - intros fs fs' fp c e c' H. unfold cached_load_excel in *.
    destruct (assoc_get fp c) as [v|] eqn:E; [discriminate|].
    destruct (load_excel fs fp) as [v|e0]; [discriminate|].
    injection H as <- <-. split; [reflexivity|]. now rewrite E.
Qed.

Lemma cached_load_excel_reuses_witness :
  cached_load_excel (fun _ => None) workbook_path
    [(workbook_path, ranking_sheets)]
  = (Ok ranking_sheets, [(workbook_path, ranking_sheets)]) /\
  ([] = ([] : cache) /\
   cached_load_excel (fun _ => Some ranking_sheets) workbook_path [] =
   match load_excel (fun _ => Some ranking_sheets) workbook_path with
   | Ok sheets => (Ok sheets, assoc_set workbook_path sheets [])
   | Raise e' => (Raise e', [])
   end).
Proof.
  split.
  - apply (proj1 cached_load_excel_reuses (fun _ => Some ranking_sheets)
             (fun _ => None) workbook_path [] ranking_sheets).
    reflexivity.
  - apply (proj2 cached_load_excel_reuses (fun _ => None)
             (fun _ => Some ranking_sheets) workbook_path []
             FileNotFoundError).
    reflexivity.
Defined.

(** ** The whole page *)








(** ** Sections on tables that lack a column or hold text *)

Lemma series_apply_text (col : list value) :
  existsb is_str col = true -> series_apply to_pct col = Raise TypeError.
Proof.
  unfold series_apply. induction col as [|v col IH]; simpl; [discriminate|].
  destruct v as [|q|s]; simpl; try reflexivity; intros H;
    now rewrite (IH H).
Qed.

Lemma no_str_numeric (col : list value) :
  existsb is_str col = false -> numeric col.
Proof.
  induction col as [|v col IH]; simpl; intros H; constructor.
  - now apply orb_false_iff in H.
  - apply IH. now apply orb_false_iff in H.
Qed.

Lemma getitem_missing (df : DataFrame) (c : string) :
  assoc_get c (columns df) = None -> getitem df c = Raise KeyError.
Proof. unfold getitem. now intros ->. Qed.

Lemma getitem_cases (df : DataFrame) (c : string) :
  assoc_get c (columns df) = None \/ exists col, getitem df c = Ok col.
Proof.
  unfold getitem. destruct (assoc_get c (columns df)) as [col|];
    [right; now exists col | now left].
Qed.

Lemma ranked_section_enter (argsort : list Q -> list nat)
    (heading sheet t : string) (asc : bool) (N : nat) (p : place) (s : state)
    (df : DataFrame) :
  assoc_get sheet (store s) = Some df ->
  empty df = false ->
  ranked_section argsort heading sheet t asc N p s =
  (pos <- lift (getitem df "Positive") ;;
   pos' <- lift (series_apply to_pct pos) ;;
   neu <- lift (getitem (setitem df "Positive" pos') "Neutral") ;;
   neu' <- lift (series_apply to_pct neu) ;;
   neg <- lift (getitem (setitem (setitem df "Positive" pos') "Neutral" neu')
                  "Negative") ;;
   neg' <- lift (series_apply to_pct neg) ;;
   sorted <- lift (sort_values argsort
                     (setitem (setitem (setitem df "Positive" pos')
                                 "Neutral" neu') "Negative" neg')
                     "Positive" asc) ;;
   fig <- lift (make_stacked_bar (head N sorted) "Question" "Positive"
                  "Neutral" "Negative" t) ;;
   emit (PlotlyChart fig) ;;
   within (Expander "View data")
     (emit (DataframeView (reset_index (head N sorted)))))%script
    p {| store := store s; ui := ui s ++ [(p, Markdown heading)] |}.
Proof.
  intros Hs He. unfold ranked_section.
  rewrite bind_run, emit_run.
  rewrite bind_run, (sheets_get_run _ _ _ df) by exact Hs.
  rewrite (bind_run (deref sheet)), (deref_run _ _ _ df) by exact Hs.
  rewrite He. reflexivity.
Qed.

Lemma make_stacked_bar_no_axis (df : DataFrame) (y p n g t : string)
    (cp cn cg : list value) :
  assoc_get y (columns df) = None ->
  getitem df p = Ok cp -> getitem df n = Ok cn -> getitem df g = Ok cg ->
  numeric cp -> numeric cn -> numeric cg ->
  y <> p -> y <> n -> y <> g -> p <> n -> p <> g -> n <> g ->
  make_stacked_bar df y p n g t = Raise KeyError.
Proof.
  intros Hy Hp Hn Hg Np Nn Ng Hyp Hyn Hyg Hpn Hpg Hng.
  apply getitem_missing in Hy.
  unfold make_stacked_bar, copy. simpl.
  rewrite Hp. simpl. rewrite (series_apply_numeric cp Np). simpl.
  rewrite (getitem_setitem_other df n p) by congruence.
  rewrite Hn. simpl. rewrite (series_apply_numeric cn Nn). simpl.
  rewrite (getitem_setitem_other _ g n) by congruence.
  rewrite (getitem_setitem_other _ g p) by congruence.
  rewrite Hg. simpl. rewrite (series_apply_numeric cg Ng). simpl.
  rewrite !(getitem_setitem_other _ y g) by congruence.
  rewrite !(getitem_setitem_other _ y n) by congruence.
  rewrite !(getitem_setitem_other _ y p) by congruence.
  now rewrite Hy.
Qed.

Lemma getitem_view_missing (n : nat) (pos : list nat) (df : DataFrame)
    (c : string) :
  assoc_get c (columns df) = None ->
  assoc_get c (columns (head n (take_rows pos df))) = None.
Proof.
  intros H. unfold head, take_rows. cbn [columns].
  now rewrite !assoc_get_map, H.
Qed.

Lemma ranked_section_keyerror (argsort : list Q -> list nat)
    (heading sheet t : string) (asc : bool) (N : nat) (p : place) (s : state)
    (df : DataFrame) :
  assoc_get sheet (store s) = Some df ->
  empty df = false ->
  (exists c, In c ["Question"; "Positive"; "Neutral"; "Negative"] /\
             assoc_get c (columns df) = None) ->
  (forall c col, In c ["Positive"; "Neutral"; "Negative"] ->
                 getitem df c = Ok col -> numeric col) ->
  ranked_section argsort heading sheet t asc N p s =
  (Raise KeyError,
   {| store := store s; ui := ui s ++ [(p, Markdown heading)] |}).
Proof.
  intros Hs He [c [Hc Hmiss]] Hnum.
  rewrite (ranked_section_enter _ _ _ _ _ _ _ _ df) by assumption.
  destruct (getitem_cases df "Positive") as [Mp|[pos Hp]].
  { rewrite bind_run, lift_run, (getitem_missing _ _ Mp). reflexivity. }
  assert (Np : numeric pos) by (apply (Hnum "Positive"); cbn; tauto).
  rewrite bind_run, lift_run, Hp.
  rewrite bind_run, lift_run, (series_apply_numeric pos Np).
  rewrite bind_run, lift_run.
  rewrite (getitem_setitem_other df "Neutral" "Positive") by discriminate.
  destruct (getitem_cases df "Neutral") as [Mn|[neu Hn]].
  { rewrite (getitem_missing _ _ Mn). reflexivity. }
  assert (Nn : numeric neu) by (apply (Hnum "Neutral"); cbn; tauto).
  rewrite Hn. rewrite bind_run, lift_run, (series_apply_numeric neu Nn).
  rewrite bind_run, lift_run.
  rewrite !(getitem_setitem_other _ "Negative") by discriminate.
  destruct (getitem_cases df "Negative") as [Mg|[neg Hg]].
  { rewrite (getitem_missing _ _ Mg). reflexivity. }
  assert (Ng : numeric neg) by (apply (Hnum "Negative"); cbn; tauto).
  rewrite Hg. rewrite bind_run, lift_run, (series_apply_numeric neg Ng).
  fold (ranked_copy df pos neu neg).
  assert (Mq : assoc_get "Question" (columns df) = None).
  { destruct Hc as [<-|[<-|[<-|[<-|[]]]]]; try exact Hmiss;
      apply getitem_Ok in Hp, Hn, Hg; congruence. }
  assert (G3p : getitem (ranked_copy df pos neu neg) "Positive"
                = Ok (map normalized pos)).
  { unfold ranked_copy. rewrite !getitem_setitem_other by discriminate.
    apply getitem_setitem_same. }
  assert (G3n : getitem (ranked_copy df pos neu neg) "Neutral"
                = Ok (map normalized neu)).
  { unfold ranked_copy. rewrite getitem_setitem_other by discriminate.
    apply getitem_setitem_same. }
  assert (G3g : getitem (ranked_copy df pos neu neg) "Negative"
                = Ok (map normalized neg)) by apply getitem_setitem_same.
  assert (M3q : assoc_get "Question" (columns (ranked_copy df pos neu neg))
                = None).
  { unfold ranked_copy, setitem. cbn [columns].
    rewrite !assoc_get_set_other by discriminate. exact Mq. }
  rewrite bind_run, lift_run. unfold sort_values. rewrite G3p.
  cbn [res_bind]. rewrite (numeric_no_str _ (numeric_normalized pos Np)).
  rewrite bind_run, lift_run.
  rewrite (make_stacked_bar_no_axis _ "Question" "Positive" "Neutral"
             "Negative" t
             (firstn N (rows_at (nargsort argsort asc
                                   (map normalized pos))
                                (map normalized pos)))
             (firstn N (rows_at (nargsort argsort asc
                                   (map normalized pos))
                                (map normalized neu)))
             (firstn N (rows_at (nargsort argsort asc
                                   (map normalized pos))
                                (map normalized neg))));
    try discriminate; try reflexivity.
  - now apply getitem_view_missing.
  - now apply getitem_head, getitem_take_rows.
  - now apply getitem_head, getitem_take_rows.
  - now apply getitem_head, getitem_take_rows.
  - rewrite firstn_rows_at.
    now apply numeric_rows_at, numeric_normalized.
  - rewrite firstn_rows_at.
    now apply numeric_rows_at, numeric_normalized.
  - rewrite firstn_rows_at.
    now apply numeric_rows_at, numeric_normalized.
Qed.

(** X9. A ranked section whose table has rows but lacks one of the columns
    Question, Positive, Neutral, Negative (the rating columns it has holding
    numbers) ends with KeyError after showing its heading only; the sheet
    set is as before. *)
Theorem ranked_section_missing_column :
  forall (argsort : list Q -> list nat) (N : nat) (x : section_id)
         (p : place) (s : state) (df : DataFrame),
    x = Strengths \/ x = Improve ->
    assoc_get (sheet_of x) (store s) = Some df ->
    empty df = false ->
    (exists c, In c ["Question"; "Positive"; "Neutral"; "Negative"] /\
               assoc_get c (columns df) = None) ->
    (forall c col, In c ["Positive"; "Neutral"; "Negative"] ->
                   getitem df c = Ok col -> numeric col) ->
    section argsort N x p s =
    (Raise KeyError,
     {| store := store s; ui := ui s ++ [(p, Markdown (heading_of x))] |}).
Proof.
  intros argsort N x p s df Hx Hs He Hmiss Hnum.
  destruct (section_ranked argsort N x Hx) as [t ->].
  now apply (ranked_section_keyerror _ _ _ _ _ _ _ _ df).
Qed.

Lemma ranked_section_missing_column_witness :
  section stable_argsort 5 Strengths Main
    {| store := [("Top Strengths", ranking_no_neutral)]; ui := [] |} =
  (Raise KeyError,
   {| store := [("Top Strengths", ranking_no_neutral)];
      ui := [] ++ [(Main, Markdown (heading_of Strengths))] |}).
Proof.
  apply (ranked_section_missing_column stable_argsort 5%nat Strengths Main
           {| store := [("Top Strengths", ranking_no_neutral)]; ui := [] |}
           ranking_no_neutral).
  - now left.
  - reflexivity.
  - reflexivity.
  - exists "Neutral". split; [cbn; tauto | reflexivity].
  - intros c col [<-|[<-|[<-|[]]]] H; try discriminate H;
      injection H as <-; repeat constructor.
Defined.

(** X10. A ranked section whose table has the three rating columns, one of
    them holding a text cell, ends with TypeError after showing its heading
    only; the sheet set is as before. *)
Theorem ranked_section_text_cell :
  forall (argsort : list Q -> list nat) (N : nat) (x : section_id)
         (p : place) (s : state) (df : DataFrame) (pos neu neg : list value),
    x = Strengths \/ x = Improve ->
    assoc_get (sheet_of x) (store s) = Some df ->
    empty df = false ->
    getitem df "Positive" = Ok pos ->
    getitem df "Neutral" = Ok neu ->
    getitem df "Negative" = Ok neg ->
    existsb is_str (pos ++ neu ++ neg) = true ->
    section argsort N x p s =
    (Raise TypeError,
     {| store := store s; ui := ui s ++ [(p, Markdown (heading_of x))] |}).
Proof.
  intros argsort N x p s df pos neu neg Hx Hs He Hp Hn Hg Htext.
  destruct (section_ranked argsort N x Hx) as [t ->].
  rewrite (ranked_section_enter _ _ _ _ _ _ _ _ df) by assumption.
  rewrite !existsb_app in Htext.
  rewrite bind_run, lift_run, Hp, bind_run, lift_run.
  destruct (existsb is_str pos) eqn:Ep.
  { now rewrite (series_apply_text pos Ep). }
  rewrite (series_apply_numeric pos (no_str_numeric pos Ep)).
  rewrite bind_run, lift_run.
  rewrite (getitem_setitem_other df "Neutral" "Positive") by discriminate.
  rewrite Hn, bind_run, lift_run.
  destruct (existsb is_str neu) eqn:En.
  { now rewrite (series_apply_text neu En). }
  rewrite (series_apply_numeric neu (no_str_numeric neu En)).
  rewrite bind_run, lift_run.
  rewrite !(getitem_setitem_other _ "Negative") by discriminate.
  rewrite Hg, bind_run, lift_run.
  cbn [orb] in Htext. now rewrite (series_apply_text neg Htext).
Qed.

Lemma ranked_section_text_cell_witness :
  section stable_argsort 5 Improve Main
    {| store := [("Areas to Improve", ranking_with_text)]; ui := [] |} =
  (Raise TypeError,
   {| store := [("Areas to Improve", ranking_with_text)];
      ui := [] ++ [(Main, Markdown (heading_of Improve))] |}).
Proof.
  apply (ranked_section_text_cell stable_argsort 5%nat Improve Main
           {| store := [("Areas to Improve", ranking_with_text)]; ui := [] |}
           ranking_with_text [Num 10; Num 90] [Num 20; Str "n/a"]
           [Num 70; Num 5]); try reflexivity.
  now right.
Defined.

(** X11. An exception in one section ends the page.  When the Overall
    Summary section has completed and the Top Strengths table has rows but
    lacks one of its columns, the sections end with KeyError right after the
    Strengths heading: Areas to Improve and Yearly Trend are not rendered,
    not even their headings, whatever their sheets hold. *)
Theorem failing_section_ends_page :
  forall (argsort : list Q -> list nat) (N : nat) (p : place) (s : state)
         (df : DataFrame),
    fst (overall_section p s) = Ok tt ->
    assoc_get "Top Strengths" (store s) = Some df ->
    empty df = false ->
    (exists c, In c ["Question"; "Positive"; "Neutral"; "Negative"] /\
               assoc_get c (columns df) = None) ->
    (forall c col, In c ["Positive"; "Neutral"; "Negative"] ->
                   getitem df c = Ok col -> numeric col) ->
    sections argsort N p s =
    (Raise KeyError,
     {| store := store (snd (overall_section p s));
        ui := ui (snd (overall_section p s)) ++
              [(p, Markdown (heading_of Strengths))] |}).
Proof.
  intros argsort N p s df Hok Hs He Hmiss Hnum.
  assert (Hs1 : assoc_get "Top Strengths"
                  (store (snd (overall_section p s))) = Some df).
  { rewrite (proj1 overall_section_confined) by discriminate. exact Hs. }
  unfold sections. rewrite bind_run.
  destruct (overall_section p s) as [[[]|e] s1]; [|discriminate Hok].
  cbn [snd] in *. rewrite bind_run. unfold strengths_section.
  now rewrite (ranked_section_keyerror _ _ _ _ _ _ _ _ df).
Qed.

Lemma failing_section_ends_page_witness :
  sections stable_argsort 5 Main
    {| store := [("Top Strengths", ranking_no_neutral);
                 ("Areas to Improve", ranking_table)];
       ui := [] |} =
  (Raise KeyError,
   {| store :=
        store (snd (overall_section Main
                      {| store := [("Top Strengths", ranking_no_neutral);
                                   ("Areas to Improve", ranking_table)];
                         ui := [] |}));
      ui :=
        ui (snd (overall_section Main
                   {| store := [("Top Strengths", ranking_no_neutral);
                                ("Areas to Improve", ranking_table)];
                      ui := [] |})) ++
        [(Main, Markdown (heading_of Strengths))] |}).
Proof.
  apply (failing_section_ends_page stable_argsort 5%nat Main _
           ranking_no_neutral).
  - reflexivity.
  - reflexivity.
  - reflexivity.
  - exists "Neutral". split; [cbn; tauto | reflexivity].
  - intros c col [<-|[<-|[<-|[]]]] H; try discriminate H;
      injection H as <-; repeat constructor.
Defined.

(** ** The Overall Summary section on tables that lack a column *)

Lemma overall_section_enter (p : place) (s : state) (df : DataFrame) :
  assoc_get "Overall Summary" (store s) = Some df ->
  empty df = false ->
  overall_section p s =
  (pct <- obj_getitem "Overall Summary" "Percentage" ;;
   pct' <- lift (series_apply to_pct pct) ;;
   obj_setitem "Overall Summary" "Percentage" pct' ;;
   overall_metrics "Overall Summary" ;;
   emit (Columns [12 # 10; 13 # 10]%Q) ;;
   within (Column 0)
     (values <- obj_getitem "Overall Summary" "Percentage" ;;
      labels <- obj_getitem "Overall Summary" "Category" ;;
      emit (PlotlyChart (donut values labels "Overall Perception"))) ;;
   within (Column 1)
     (pct <- obj_getitem "Overall Summary" "Percentage" ;;
      text <- lift (series_round1 pct) ;;
      df <- deref "Overall Summary" ;;
      barfig <- lift (px_bar df "Category" "Percentage" text) ;;
      emit (PlotlyChart
              (update_layout barfig (kind barfig) (title barfig)
                 (Some "Percent") (legend_orientation barfig) 300))))%script
    p {| store := store s;
         ui := ui s ++ [(p, Markdown "## Dataset Descriptive Summary")] |}.
Proof.
  intros Hs He. unfold overall_section.
  rewrite bind_run, emit_run.
  rewrite bind_run, (sheets_get_run _ _ _ df) by exact Hs.
  rewrite (bind_run (deref "Overall Summary")), (deref_run _ _ _ df)
    by exact Hs.
  rewrite He. reflexivity.
Qed.

Lemma obj_getitem_run (k c : string) (p : place) (s : state)
    (df : DataFrame) :
  assoc_get k (store s) = Some df ->
  obj_getitem k c p s = (getitem df c, s).
Proof.
  intros H. unfold obj_getitem.
  rewrite bind_run, (deref_run _ _ _ df) by exact H.
  now rewrite lift_run.
Qed.

Lemma obj_setitem_run (k c : string) (vals : list value) (p : place)
    (s : state) (df : DataFrame) :
  assoc_get k (store s) = Some df ->
  obj_setitem k c vals p s =
  (Ok tt, {| store := assoc_set k (setitem df c vals) (store s);
             ui := ui s |}).
Proof.
  intros H. unfold obj_setitem.
  now rewrite bind_run, (deref_run _ _ _ df) by exact H.
Qed.

(** X12. The assignment that normalises the Percentage column is outside the
    try/except: on a table with rows but no Percentage column the Overall
    Summary section ends with KeyError, and on one whose Percentage column
    holds a text cell with TypeError; in both cases only the heading was
    shown and the sheet set is as before. *)
Theorem overall_section_bad_percentage :
  forall (p : place) (s : state) (df : DataFrame),
    assoc_get "Overall Summary" (store s) = Some df ->
    empty df = false ->
    (assoc_get "Percentage" (columns df) = None ->
     overall_section p s =
     (Raise KeyError,
      {| store := store s;
         ui := ui s ++ [(p, Markdown "## Dataset Descriptive Summary")] |}))
    /\
    (forall pct, getitem df "Percentage" = Ok pct ->
                 existsb is_str pct = true ->
     overall_section p s =
     (Raise TypeError,
      {| store := store s;
         ui := ui s ++ [(p, Markdown "## Dataset Descriptive Summary")] |})).
Proof.
  intros p s df Hs He. split.
  - intros Hm. rewrite (overall_section_enter p s df Hs He).
    rewrite bind_run, (obj_getitem_run _ _ _ _ df) by exact Hs.
    now rewrite (getitem_missing _ _ Hm).
  - intros pct Hp Ht. rewrite (overall_section_enter p s df Hs He).
    rewrite bind_run, (obj_getitem_run _ _ _ _ df) by exact Hs.
    rewrite Hp, bind_run, lift_run. now rewrite (series_apply_text pct Ht).
Qed.

Lemma overall_section_bad_percentage_witness :
  overall_section Main
    {| store := [("Overall Summary", overall_no_percentage)]; ui := [] |} =
  (Raise KeyError,
   {| store := [("Overall Summary", overall_no_percentage)];
      ui := [] ++ [(Main, Markdown "## Dataset Descriptive Summary")] |})
  /\
  overall_section Main
    {| store := [("Overall Summary", overall_with_text)]; ui := [] |} =
  (Raise TypeError,
   {| store := [("Overall Summary", overall_with_text)];
      ui := [] ++ [(Main, Markdown "## Dataset Descriptive Summary")] |}).
Proof.
  split.
  - apply (proj1 (overall_section_bad_percentage Main
                    {| store := [("Overall Summary", overall_no_percentage)];
                       ui := [] |}
                    overall_no_percentage eq_refl eq_refl)).
    reflexivity.
  - apply (proj2 (overall_section_bad_percentage Main
                    {| store := [("Overall Summary", overall_with_text)];
                       ui := [] |}
                    overall_with_text eq_refl eq_refl)
             [Num (6 # 10); Str "n/a"]); reflexivity.
Defined.

Lemma metric_shown_no_category (df : DataFrame) (col : nat) (label : string) :
  assoc_get "Category" (columns df) = None -> metric_shown df col label = [].
Proof.
  intros H. unfold metric_shown, category_cell.
  now rewrite (getitem_missing _ _ H).
Qed.

(** X13. The try/except around the metrics hides a missing Category column,
    the charts do not: on a table with rows and a numeric Percentage column
    but no Category column the Overall Summary section shows its heading and
    the two column layouts without any metric or chart, has already replaced
    the stored Percentage column by the normalised values, and ends with
    KeyError. *)
Theorem overall_section_missing_category :
  forall (p : place) (s : state) (df : DataFrame) (pct : list value),
    assoc_get "Overall Summary" (store s) = Some df ->
    empty df = false ->
    assoc_get "Category" (columns df) = None ->
    getitem df "Percentage" = Ok pct ->
    numeric pct ->
    overall_section p s =
    (Raise KeyError,
     {| store := assoc_set "Overall Summary"
                   (setitem df "Percentage" (map normalized pct)) (store s);
        ui := ui s ++
              [ (p, Markdown "## Dataset Descriptive Summary");
                (p, Columns [1; 1; 1]);
                (p, Columns [12 # 10; 13 # 10]) ] |}).
Proof.
  intros p s df pct Hs He Hc Hp Np.
  set (df' := setitem df "Percentage" (map normalized pct)).
  assert (Hc' : assoc_get "Category" (columns df') = None).
  { unfold df', setitem. cbn [columns].
    now rewrite assoc_get_set_other by discriminate. }
  rewrite (overall_section_enter p s df Hs He).
  rewrite bind_run, (obj_getitem_run _ _ _ _ df) by exact Hs.
  rewrite Hp, bind_run, lift_run, (series_apply_numeric pct Np).
  rewrite bind_run, (obj_setitem_run _ _ _ _ _ df) by exact Hs.
  fold df'.
  rewrite bind_run, (overall_metrics_run _ _ _ df')
    by (cbn [store]; apply assoc_get_set_same).
  rewrite !(metric_shown_no_category df') by exact Hc'.
  rewrite bind_run, emit_run, bind_run, within_run.
  rewrite bind_run, (obj_getitem_run _ _ _ _ df')
    by (cbn [store]; apply assoc_get_set_same).
  unfold df' at 1. rewrite getitem_setitem_same.
  rewrite bind_run, (obj_getitem_run _ _ _ _ df')
    by (cbn [store]; apply assoc_get_set_same).
  rewrite (getitem_missing _ _ Hc'). cbn [store ui app].
  rewrite <- !app_assoc. reflexivity.
Qed.

Lemma overall_section_missing_category_witness :
  overall_section Main
    {| store := [("Overall Summary", overall_no_category)]; ui := [] |} =
  (Raise KeyError,
   {| store := assoc_set "Overall Summary"
                 (setitem overall_no_category "Percentage"
                    (map normalized [Num (6 # 10); Num (4 # 10)]))
                 [("Overall Summary", overall_no_category)];
      ui := [] ++
            [ (Main, Markdown "## Dataset Descriptive Summary");
              (Main, Columns [1; 1; 1]);
              (Main, Columns [12 # 10; 13 # 10]) ] |}).
Proof.
  apply (overall_section_missing_category Main
           {| store := [("Overall Summary", overall_no_category)];
              ui := [] |}
           overall_no_category [Num (6 # 10); Num (4 # 10)]);
    try reflexivity.
  repeat constructor.
Defined.

(** ** The metric values of the Overall Summary *)

Lemma select_map (f : value -> value) (mask : list bool) (l : list value) :
  select mask (map f l) = map f (select mask l).
Proof.
  unfold select. revert l. induction mask as [|b mask IH]; intros [|v l];
    try reflexivity.
  cbn [map combine filter]. destruct b; cbn [fst map snd]; now rewrite IH.
Qed.

Lemma first_value_map (f : value -> value) (l : list value) :
  first_value (map f l) =
  match first_value l with
  | Ok v => Ok (f v)
  | Raise e => Raise e
  end.
Proof. now destruct l. Qed.

Lemma category_cell_normalized (df : DataFrame) (pct : list value)
    (label : string) :
  getitem df "Percentage" = Ok pct ->
  category_cell (setitem df "Percentage" (map normalized pct)) label =
  match category_cell df label with
  | Ok v => Ok (normalized v)
  | Raise e => Raise e
  end.
Proof.
  intros Hp. unfold category_cell.
  rewrite getitem_setitem_other by discriminate.
  rewrite getitem_setitem_same, Hp.
  destruct (getitem df "Category") as [cat|]; cbn [res_bind]; [|reflexivity].
  destruct (str_lower cat) as [low|]; cbn [res_bind]; [|reflexivity].
  now rewrite select_map, first_value_map.
Qed.

(** X14. A metric of the Overall Summary shows [to_pct] applied twice to the
    sheet value (once by the assignment to the column, once in
    [metric_block]), while the donut beside it shows the column normalised
    once.  For a sheet value above 0.01 both agree; for [0 < v <= 0.01] the
    metric shows [v*10000]. *)
Theorem overall_metric_normalized_twice :
  forall (p : place) (s : state) (df : DataFrame) (cat pct : list value)
         (col : nat) (label : string) (v : Q),
    assoc_get "Overall Summary" (store s) = Some df ->
    empty df = false ->
    getitem df "Category" = Ok cat ->
    getitem df "Percentage" = Ok pct ->
    numeric pct ->
    In (col, label)
       (combine [0; 1; 2]%nat ["Positive"; "Neutral"; "Negative"]) ->
    category_cell df label = Ok (Num v) ->
    exists w : Q,
      to_pct_twice (Num v) = Ok (Num w) /\
      In (Column col, Metric label w) (ui (snd (overall_section p s))) /\
      In (Column 0,
          PlotlyChart (donut (map normalized pct) cat "Overall Perception"))
         (ui (snd (overall_section p s))) /\
      (1 # 100 < v -> to_pct (Num v) = Ok (Num w)) /\
      (0 < v -> v <= 1 # 100 -> w == v * 10000 /\ ~ w == v * 100).
Proof.
  intros p s df cat pct col label v Hs He Hc Hp Np Hin Hcell.
  set (df' := setitem df "Percentage" (map normalized pct)).
  assert (Hcell' : category_cell df' label = Ok (normalized (Num v))).
  { unfold df'. now rewrite (category_cell_normalized df pct label Hp), Hcell. }
  destruct (to_pct_twice (Num v)) as [w0|e] eqn:Et.
  2:{ unfold to_pct_twice in Et. destruct (Qlt_le_dec 1 v) as [Hgt|Hle].
      - rewrite (to_pct_gt v Hgt) in Et. simpl in Et.
        now rewrite (to_pct_gt v Hgt) in Et.
      - rewrite (to_pct_le v Hle) in Et. simpl in Et.
        unfold to_pct in Et. simpl in Et. discriminate. }
  assert (Hw : exists w, w0 = Num w).
  { unfold to_pct_twice in Et. destruct (to_pct (Num v)) as [v1|] eqn:E1;
      [|discriminate].
    unfold to_pct in E1. simpl in E1. injection E1 as <-.
    simpl in Et. unfold to_pct in Et. simpl in Et. injection Et as <-.
    eexists. reflexivity. }
  destruct Hw as [w ->]. exists w.
  assert (Hshown : metric_shown df' col label = [(Column col, Metric label w)]).
  { unfold metric_shown. rewrite Hcell'. cbn [res_bind].
    unfold to_pct_twice in Et.
    rewrite (to_pct_normalized (Num v) eq_refl) in Et. cbn [res_bind] in Et.
    now rewrite Et. }
  split; [reflexivity|].
  rewrite (overall_section_run_gen p s df cat pct) by assumption.
  cbn [snd ui]. fold df'. split; [|split; [|split]].
  - cbn in Hin. destruct Hin as [Hin|[Hin|[Hin|[]]]];
      injection Hin as <- <-; rewrite !in_app_iff, Hshown; cbn; tauto.
  - rewrite !in_app_iff. cbn. tauto.
  - intros Hv. rewrite <- Et. symmetry. now apply to_pct_twice_large.
  - intros Hpos Hle. rewrite to_pct_twice_small in Et by exact Hle.
    injection Et as <-. split; [ring | intros H; lra].
Qed.

(** ** How many rows a ranked section shows *)

Lemma ranked_selection_length (argsort : list Q -> list nat) (asc : bool)
    (N : nat) (pos : list value) :
  argsort_spec argsort ->
  length (ranked_selection argsort asc N pos) = Nat.min N (length pos).
Proof.
  intros H. unfold ranked_selection. rewrite length_firstn.
  rewrite (Permutation_length (nargsort_perm argsort H asc _)).
  now rewrite length_seq, length_map.
Qed.

Lemma rows_at_length (pos : list nat) (col : list value) :
  length (rows_at pos col) = length pos.
Proof. unfold rows_at. apply length_map. Qed.

(** X15. On a well-formed table with the expected columns a ranked section
    shows exactly [min top_n rows] rows: the table under "View data" has that
    many rows, numbered from 0, and is well formed, and each of the three
    bar series has that many categories and values. *)
Theorem ranked_section_shows_min_rows :
  forall (argsort : list Q -> list nat) (N : nat) (x : section_id)
         (p : place) (s : state) (df : DataFrame)
         (q pos neu neg : list value),
    argsort_spec argsort ->
    x = Strengths \/ x = Improve ->
    assoc_get (sheet_of x) (store s) = Some df ->
    empty df = false ->
    well_formed df ->
    getitem df "Question" = Ok q ->
    getitem df "Positive" = Ok pos ->
    getitem df "Neutral" = Ok neu ->
    getitem df "Negative" = Ok neg ->
    numeric pos -> numeric neu -> numeric neg ->
    exists (fig : figure) (shown : DataFrame),
      section argsort N x p s =
        (Ok tt,
         {| store := store s;
            ui := ui s ++ [ (p, Markdown (heading_of x));
                            (p, PlotlyChart fig);
                            (Expander "View data", DataframeView shown) ] |})
      /\ index shown = seq 0 (Nat.min N (nrows df))
      /\ well_formed shown
      /\ Forall (fun t => length (trace_x t) = Nat.min N (nrows df) /\
                          length (trace_y t) = Nat.min N (nrows df))
                (traces fig).
Proof.
  intros argsort N x p s df q pos neu neg Hspec Hx Hs He Hwf Hq Hp Hn Hg
         Np Nn Ng.
  destruct (section_ranked argsort N x Hx) as [t Ht]. rewrite Ht.
  rewrite (ranked_section_run argsort (heading_of x) (sheet_of x) t
             (ascending_of x) N p s df q pos neu neg) by assumption.
  assert (Lpos : length pos = nrows df).
  { rewrite <- (column_getitem df "Positive" pos Hp).
    apply well_formed_column; [exact Hwf|].
    apply getitem_Ok, assoc_get_In in Hp. now apply (in_map fst) in Hp. }
  pose proof (ranked_selection_length argsort (ascending_of x) N pos Hspec)
    as Lsel.
  rewrite Lpos in Lsel.
  set (order := nargsort argsort (ascending_of x) (map normalized pos)) in *.
  assert (Lhead : forall A (f : nat -> A),
             length (firstn N (map f order)) = Nat.min N (nrows df)).
  { intros A f. rewrite firstn_map, length_map. exact Lsel. }
  do 2 eexists. split; [reflexivity|]. split; [|split].
  - unfold reset_index, nrows, head, take_rows. cbn [index].
    now rewrite Lhead.
  - unfold well_formed, reset_index, nrows, head, take_rows.
    cbn [index columns]. rewrite length_seq, Lhead.
    apply Forall_map, Forall_map, Forall_forall. intros c _. cbn [snd].
    unfold rows_at. apply Lhead.
  - unfold stacked_figure, bar. cbn [traces].
    repeat constructor; cbn [trace_x trace_y];
      rewrite ?length_map, rows_at_length; exact Lsel.
Qed.

(** ** Without ties the library sort does not matter *)

Lemma sorted_perm_unique {A} (R : A -> A -> Prop) (l1 l2 : list A) :
  Permutation l1 l2 ->
  StronglySorted R l1 -> StronglySorted R l2 ->
  (forall x y, In x l1 -> In y l1 -> R x y -> R y x -> x = y) ->
  l1 = l2.
Proof.
  revert l2. induction l1 as [|a t1 IH]; intros l2 Hp H1 H2 Hanti.
  - apply Permutation_nil in Hp. now subst.
  - destruct l2 as [|b t2].
    + apply Permutation_sym, Permutation_nil in Hp. discriminate.
    + assert (Hab : a = b).
      { assert (Ha : In a (b :: t2))
          by (apply (Permutation_in _ Hp); now left).
        assert (Hb : In b (a :: t1))
          by (apply (Permutation_in _ (Permutation_sym Hp)); now left).
        destruct Ha as [Ha|Ha]; [now symmetry|].
        destruct Hb as [Hb|Hb]; [exact Hb|].
        apply StronglySorted_inv in H1 as [_ F1].
        apply StronglySorted_inv in H2 as [_ F2].
        rewrite Forall_forall in F1, F2.
        apply Hanti; [now left | now right | now apply F1 | now apply F2]. }
      subst b. f_equal. apply IH.
      * now apply Permutation_cons_inv in Hp.
      * now apply StronglySorted_inv in H1.
      * now apply StronglySorted_inv in H2.
      * intros x y Hx Hy. apply Hanti; now right.
Qed.

Lemma NoDup_nth_neq (l : list nat) (x y : nat) :
  NoDup l -> (x < length l)%nat -> (y < length l)%nat -> x <> y ->
  nth x l 0%nat <> nth y l 0%nat.
Proof.
  intros Hnd Hx Hy Hne H. apply Hne.
  now apply (proj1 (NoDup_nth l 0%nat) Hnd).
Qed.

Section NargsortUnique.

Variables argsort1 argsort2 : list Q -> list nat.
Hypothesis argsort1_ok : argsort_spec argsort1.
Hypothesis argsort2_ok : argsort_spec argsort2.
Variable ascending : bool.
Variable items : list value.
Hypothesis items_no_ties : no_ties items.

Let cell (i : nat) : value := nth i items Missing.
Let idx : list nat := seq 0 (length items).
Let nn : list nat := filter (fun i => negb (isna (cell i))) idx.
Let nn' : list nat := if ascending then nn else rev nn.
Let ks : list Q := map (fun i => sort_key (cell i)) nn'.

Lemma nn'_NoDup : NoDup nn'.
Proof.
  assert (H : NoDup nn) by (apply NoDup_filter, seq_NoDup).
  unfold nn'. destruct ascending; [exact H | now apply NoDup_rev].
Qed.

Lemma nn'_in (i : nat) :
  In i nn' -> (i < length items)%nat /\ isna (cell i) = false.
Proof.
  intros H. assert (H' : In i nn).
  { unfold nn' in H. destruct ascending; [exact H | now apply in_rev]. }
  apply filter_In in H' as [Hi Hc]. apply in_seq in Hi.
  split; [lia | now apply negb_true_iff].
Qed.

Lemma ks_distinct (x y : nat) :
  (x < length ks)%nat -> (y < length ks)%nat ->
  (nth x ks 0 <= nth y ks 0)%Q -> (nth y ks 0 <= nth x ks 0)%Q -> x = y.
Proof.
  intros Hx Hy Hxy Hyx. unfold ks in Hx, Hy. rewrite length_map in Hx, Hy.
  destruct (Nat.eq_dec x y) as [E|Hne]; [exact E | exfalso].
  assert (Ex : nth x ks 0 = sort_key (cell (nth x nn' 0%nat)))
    by exact (ks_nth ascending items x Hx).
  assert (Ey : nth y ks 0 = sort_key (cell (nth y nn' 0%nat)))
    by exact (ks_nth ascending items y Hy).
  rewrite Ex, Ey in Hxy, Hyx.
  destruct (nn'_in (nth x nn' 0%nat) (nth_In _ _ Hx)) as [Lx Nx].
  destruct (nn'_in (nth y nn' 0%nat) (nth_In _ _ Hy)) as [Ly Ny].
  apply (items_no_ties (nth x nn' 0%nat) (nth y nn' 0%nat) Lx Ly);
    try assumption.
  - now apply NoDup_nth_neq; [apply nn'_NoDup | | |].
  - unfold cell in Hxy, Hyx. lra.
Qed.

Lemma argsort_unique : argsort1 ks = argsort2 ks.
Proof.
  destruct (argsort1_ok ks) as [P1 S1]. destruct (argsort2_ok ks) as [P2 S2].
  apply (sorted_perm_unique (fun i j => (nth i ks 0 <= nth j ks 0)%Q));
    try assumption.
  - eapply perm_trans; [exact P1 | now apply Permutation_sym].
  - intros x y Hx Hy. apply ks_distinct.
    + apply (Permutation_in _ P1), in_seq in Hx. lia.
    + apply (Permutation_in _ P1), in_seq in Hy. lia.
Qed.

Lemma nargsort_unique :
  nargsort argsort1 ascending items = nargsort argsort2 ascending items.
Proof.
  change ((if ascending
           then map (fun j => nth j nn' 0%nat) (argsort1 ks)
           else rev (map (fun j => nth j nn' 0%nat) (argsort1 ks)))
          ++ filter (fun i => isna (cell i)) idx
          = (if ascending
             then map (fun j => nth j nn' 0%nat) (argsort2 ks)
             else rev (map (fun j => nth j nn' 0%nat) (argsort2 ks)))
            ++ filter (fun i => isna (cell i)) idx).
  now rewrite argsort_unique.
Qed.

End NargsortUnique.

(** X16. When no two rows have the same normalised Positive value, a ranked
    section shows the same chart and the same table for every library sort
    that returns a sorted permutation: the order left open by the default
    sort kind concerns ties only. *)
Theorem ranked_section_same_for_every_sort :
  forall (argsort1 argsort2 : list Q -> list nat) (N : nat) (x : section_id)
         (p : place) (s : state) (df : DataFrame)
         (q pos neu neg : list value),
    argsort_spec argsort1 -> argsort_spec argsort2 ->
    x = Strengths \/ x = Improve ->
    assoc_get (sheet_of x) (store s) = Some df ->
    empty df = false ->
    getitem df "Question" = Ok q ->
    getitem df "Positive" = Ok pos ->
    getitem df "Neutral" = Ok neu ->
    getitem df "Negative" = Ok neg ->
    numeric pos -> numeric neu -> numeric neg ->
    no_ties (map normalized pos) ->
    ranked_selection argsort1 (ascending_of x) N pos =
    ranked_selection argsort2 (ascending_of x) N pos /\
    section argsort1 N x p s = section argsort2 N x p s.
Proof.
  intros a1 a2 N x p s df q pos neu neg H1 H2 Hx Hs He Hq Hp Hn Hg
         Np Nn Ng Hties.
  assert (E : nargsort a1 (ascending_of x) (map normalized pos) =
              nargsort a2 (ascending_of x) (map normalized pos))
    by now apply nargsort_unique.
  split; [unfold ranked_selection; now rewrite E|].
  destruct Hx as [->| ->].
  - change (section a1 N Strengths)
      with (ranked_section a1 (heading_of Strengths) (sheet_of Strengths)
              "Top Strengths" false N).
    change (section a2 N Strengths)
      with (ranked_section a2 (heading_of Strengths) (sheet_of Strengths)
              "Top Strengths" false N).
    rewrite !(ranked_section_run _ _ _ _ _ _ _ _ df q pos neu neg)
      by assumption.
    unfold ranked_selection. cbn [ascending_of] in E. now rewrite E.
  - change (section a1 N Improve)
      with (ranked_section a1 (heading_of Improve) (sheet_of Improve)
              "Areas to Improve" true N).
    change (section a2 N Improve)
      with (ranked_section a2 (heading_of Improve) (sheet_of Improve)
              "Areas to Improve" true N).
    rewrite !(ranked_section_run _ _ _ _ _ _ _ _ df q pos neu neg)
      by assumption.
    unfold ranked_selection. cbn [ascending_of] in E. now rewrite E.
Qed.

Lemma ranking_distinct_no_ties :
  no_ties (map normalized [Num 10; Num 90; Num 50]).
Proof.
  intros i j Hi Hj Hne _ _. cbn in Hi, Hj.
  destruct i as [|[|[|i]]], j as [|[|[|j]]]; try lia;
    vm_compute; intros H; discriminate H.
Qed.

Lemma ranked_section_same_for_every_sort_witness :
  ranked_selection stable_argsort (ascending_of Strengths) 2
    [Num 10; Num 90; Num 50] =
  ranked_selection backward_argsort (ascending_of Strengths) 2
    [Num 10; Num 90; Num 50] /\
  section stable_argsort 2 Strengths Main
    {| store := [("Top Strengths", ranking_distinct)]; ui := [] |} =
  section backward_argsort 2 Strengths Main
    {| store := [("Top Strengths", ranking_distinct)]; ui := [] |}.
Proof.
  apply (ranked_section_same_for_every_sort stable_argsort backward_argsort
           2%nat Strengths Main
           {| store := [("Top Strengths", ranking_distinct)]; ui := [] |}
           ranking_distinct [Str "Q1"; Str "Q2"; Str "Q3"]
           [Num 10; Num 90; Num 50] [Num 20; Num 5; Num 25]
           [Num 70; Num 5; Num 25]).
  - apply stable_argsort_spec.
  - apply backward_argsort_spec.
  - now left.
  - reflexivity.
  - reflexivity.
  - reflexivity.
  - reflexivity.
  - reflexivity.
  - reflexivity.
  - repeat constructor.
  - repeat constructor.
  - repeat constructor.
  - apply ranking_distinct_no_ties.
Defined.

(** ** The Yearly Trend section on a table it does not know *)

Lemma fold_normalize_none (names : list string) (df : DataFrame) :
  filter is_category names = [] ->
  fold_left normalize_in_place names df = df.
Proof.
  revert df. induction names as [|c names IH]; intros df H; [reflexivity|].
  cbn [filter] in H. cbn [fold_left]. unfold normalize_in_place at 2.
  destruct (is_category c); [discriminate|]. now apply IH.
Qed.

(** X17. A trend table with rows but neither a "Positive %" column nor a
    Positive, Neutral or Negative column is not reported as not found: when
    no column is named Percent and the first one is not named Category, the
    section shows a line chart without any line and the table as it is, and
    the sheet set is unchanged. *)
Theorem trend_section_without_series :
  forall (p : place) (s : state) (df : DataFrame),
    assoc_get "Yearly Trend" (store s) = Some df ->
    empty df = false ->
    existsb (String.eqb "positive %") (map lower (column_names df)) = false ->
    filter is_category (column_names df) = [] ->
    nth 0 (column_names df) "" <> "Category" ->
    ~ In "Percent" (column_names df) ->
    exists fig : figure,
      trend_section p s =
      (Ok tt,
       {| store := store s;
          ui := ui s ++ [ (p, Markdown "## Yearly Trend");
                          (p, PlotlyChart (trend_figure fig));
                          (Expander "View data", DataframeView df) ] |}) /\
      kind fig = LineChart true /\
      traces fig = [].
Proof.
  intros p s df Hs He Hno Hcats H1 H2.
  assert (Hr : loop_ready (column_names df) df).
  { intros c Hc Hcat. exfalso.
    assert (Hin : In c (filter is_category (column_names df)))
      by (apply filter_In; now split).
    now rewrite Hcats in Hin. }
  assert (Hn : trend_normalized df = df)
    by (unfold trend_normalized; now apply fold_normalize_none).
  assert (Hx : In (nth 0 (column_names df) "") (column_names df))
    by now apply first_column_name.
  assert (H0 : is_category (nth 0 (column_names df) "") = false).
  { destruct (is_category (nth 0 (column_names df) "")) eqn:E;
      [|reflexivity]. exfalso.
    assert (Hin : In (nth 0 (column_names df) "")
                     (filter is_category (column_names df)))
      by (apply filter_In; now split).
    now rewrite Hcats in Hin. }
  destruct (trend_section_wide_run p s df Hs He Hno Hr H0 H1 H2)
    as [fig [Hfig [_ Hrun]]].
  rewrite Hn, Hcats in Hfig. rewrite Hn in Hrun.
  rewrite (assoc_set_same_value _ _ _ Hs) in Hrun.
  exists fig. split; [destruct s; exact Hrun|].
  unfold px_line, long_form in Hfig. cbn [columns assoc_get] in Hfig.
  rewrite String.eqb_refl in Hfig.
  destruct (String.eqb_spec "Percent" (nth 0 (column_names df) ""))
    as [E|_]; [exfalso; apply H2; now rewrite E|].
  destruct (String.eqb_spec "Category" (nth 0 (column_names df) ""))
    as [E|_]; [congruence|].
  cbn in Hfig. injection Hfig as <-. split; reflexivity.
Qed.

Lemma trend_section_without_series_witness :
  exists fig : figure,
    trend_section Main (trend_state trend_other) =
    (Ok tt,
     {| store := store (trend_state trend_other);
        ui := ui (trend_state trend_other) ++
              [ (Main, Markdown "## Yearly Trend");
                (Main, PlotlyChart (trend_figure fig));
                (Expander "View data", DataframeView trend_other) ] |}) /\
    kind fig = LineChart true /\
    traces fig = [].
Proof.
  apply (trend_section_without_series Main (trend_state trend_other)
           trend_other); try reflexivity; cbn; intuition discriminate.
Defined.

Lemma overall_metric_normalized_twice_witness :
  exists w : Q,
    to_pct_twice (Num (6 # 10)) = Ok (Num w) /\
    In (Column 0, Metric "Positive" w)
       (ui (snd (overall_section Main overall_state))) /\
    In (Column 0,
        PlotlyChart
          (donut (map normalized [Num (6 # 10); Missing; Num (1 # 10)])
             [Str "Positive"; Str "Neutral"; Str "Negative"]
             "Overall Perception"))
       (ui (snd (overall_section Main overall_state))) /\
    (1 # 100 < 6 # 10 -> to_pct (Num (6 # 10)) = Ok (Num w)) /\
    (0 < 6 # 10 -> 6 # 10 <= 1 # 100 ->
     w == (6 # 10) * 10000 /\ ~ w == (6 # 10) * 100).
Proof.
  apply (overall_metric_normalized_twice Main overall_state overall_table
           [Str "Positive"; Str "Neutral"; Str "Negative"]
           [Num (6 # 10); Missing; Num (1 # 10)] 0%nat "Positive" (6 # 10));
    try reflexivity.
  - repeat constructor.
  - cbn. tauto.
Defined.

Lemma ranked_section_shows_min_rows_witness :
  exists (fig : figure) (shown : DataFrame),
    section stable_argsort 3 Strengths Main ranking_state =
      (Ok tt,
       {| store := store ranking_state;
          ui := ui ranking_state ++
                [ (Main, Markdown (heading_of Strengths));
                  (Main, PlotlyChart fig);
                  (Expander "View data", DataframeView shown) ] |})
    /\ index shown = seq 0 (Nat.min 3 (nrows ranking_table))
    /\ well_formed shown
    /\ Forall (fun t =>
                 length (trace_x t) = Nat.min 3 (nrows ranking_table) /\
                 length (trace_y t) = Nat.min 3 (nrows ranking_table))
              (traces fig).
Proof.
  destruct ranking_table_numeric as [Np [Nn Ng]].
  apply (ranked_section_shows_min_rows stable_argsort 3%nat Strengths Main
           ranking_state ranking_table
           [Str "Q1"; Str "Q2"; Str "Q3"; Str "Q4"]
           [Num 10; Num 90; Num 50; Num 90]
           [Num 20; Num 5; Num 25; Num 4]
           [Num 70; Num 5; Num 25; Num 6]); try assumption.
  - apply stable_argsort_spec.
  - now left.
  - reflexivity.
  - reflexivity.
  - repeat constructor.
  - reflexivity.
  - reflexivity.
  - reflexivity.
  - reflexivity.
Defined.

(** ** The page on a workbook whose sheets are fine *)

Lemma bind_emit_appends {A} (k : string) (e : element) (f : unit -> M A)
    (p : place) (s : state) :
  confined k (f tt) ->
  exists out, ui (snd (bind (emit e) f p s)) = ui s ++ (p, e) :: out.
Proof.
  intros [_ H]. rewrite bind_run, emit_run.
  destruct (H p {| store := store s; ui := ui s ++ [(p, e)] |}
              {| store := store s; ui := ui s ++ [(p, e)] |} eq_refl)
    as [out [_ [Hu _]]].
  exists out. rewrite Hu. cbn [ui]. now rewrite <- app_assoc.
Qed.

Lemma section_heading_first (argsort : list Q -> list nat) (N : nat)
    (x : section_id) (p : place) (s : state) :
  exists out,
    ui (snd (section argsort N x p s)) =
    ui s ++ (p, Markdown (heading_of x)) :: out.
Proof.
  destruct x.
  - apply (bind_emit_appends "Overall Summary").
    unfold overall_metrics. confined_tac. apply metric_block_confined.
  - apply (bind_emit_appends "Top Strengths"). confined_tac.
  - apply (bind_emit_appends "Areas to Improve"). confined_tac.
  - apply (bind_emit_appends "Yearly Trend"). confined_tac.
Qed.





(** ** The trend loop on a column that holds text *)

Lemma for_each_app {A} (l1 l2 : list A) (body : A -> M unit)
    (p : place) (s : state) :
  for_each (l1 ++ l2) body p s =
  bind (for_each l1 body) (fun _ => for_each l2 body) p s.
Proof.
  revert s. induction l1 as [|a l1 IH]; intros s; [reflexivity|].
  cbn [app for_each]. rewrite !bind_run.
  destruct (body a p s) as [[[]|e] s1]; [|reflexivity].
  rewrite IH. now rewrite bind_run.
Qed.

Lemma getitem_normalized_before (pre : list string) (c : string) :
  forall df : DataFrame,
    ~ In c pre ->
    getitem (fold_left normalize_in_place pre df) c = getitem df c.
Proof.
  induction pre as [|c0 pre IH]; intros df Hn; [reflexivity|].
  cbn [fold_left]. rewrite IH by (intros H; apply Hn; now right).
  unfold normalize_in_place. destruct (is_category c0); [|reflexivity].
  apply getitem_setitem_other. intros E. apply Hn. now left.
Qed.

(** X20. The trend loop writes each normalised column back before it turns
    to the next one.  When, in the three-series branch, a
    Positive/Neutral/Negative column holds a text cell and the category
    columns before it hold numbers, the section ends with TypeError having
    shown only its heading, and the stored table already has the earlier
    category columns normalised. *)
Theorem trend_section_text_column_partial_update :
  forall (p : place) (s : state) (df : DataFrame)
         (pre post : list string) (c : string) (col : list value),
    assoc_get "Yearly Trend" (store s) = Some df ->
    empty df = false ->
    existsb (String.eqb "positive %") (map lower (column_names df)) = false ->
    column_names df = pre ++ c :: post ->
    loop_ready pre df ->
    is_category c = true ->
    getitem df c = Ok col ->
    existsb is_str col = true ->
    trend_section p s =
    (Raise TypeError,
     {| store := assoc_set "Yearly Trend"
                   (fold_left normalize_in_place pre df) (store s);
        ui := ui s ++ [(p, Markdown "## Yearly Trend")] |}).
Proof.
  intros p s df pre post c col Hs He Hno Hnames Hr Hc Hcol Ht.
  assert (Hn : ~ In c pre).
  { intros Hin. destruct (Hr c Hin Hc) as [col' [Hc' Hnum]].
    rewrite Hcol in Hc'. injection Hc' as <-.
    rewrite (numeric_no_str col Hnum) in Ht. discriminate. }
  unfold trend_section.
  rewrite bind_run, emit_run.
  rewrite bind_run, (sheets_get_run _ _ _ df) by exact Hs.
  rewrite bind_run, (deref_run _ _ _ df) by exact Hs.
  rewrite He. cbv zeta. rewrite Hno.
  rewrite bind_run, Hnames, for_each_app.
  rewrite bind_run, (trend_loop_run _ _ _ _ df) by assumption.
  cbn [for_each]. rewrite bind_run, Hc.
  rewrite bind_run,
    (obj_getitem_run _ _ _ _ (fold_left normalize_in_place pre df))
    by (cbn [store]; apply assoc_get_set_same).
  rewrite (getitem_normalized_before pre c df Hn), Hcol.
  rewrite bind_run, lift_run, (series_apply_text col Ht).
  reflexivity.
Qed.

Lemma trend_section_text_column_partial_update_witness :
  trend_section Main (trend_state trend_with_text) =
  (Raise TypeError,
   {| store := assoc_set "Yearly Trend"
                 (fold_left normalize_in_place ["Year"; "Positive"]
                    trend_with_text)
                 (store (trend_state trend_with_text));
      ui := ui (trend_state trend_with_text) ++
            [(Main, Markdown "## Yearly Trend")] |}) /\
  getitem (fold_left normalize_in_place ["Year"; "Positive"] trend_with_text)
    "Positive" = Ok [Num ((8 # 10) * 100); Num ((9 # 10) * 100)].
Proof.
  split; [|reflexivity].
  apply (trend_section_text_column_partial_update Main
           (trend_state trend_with_text) trend_with_text
           ["Year"; "Positive"] ["Negative"] "Neutral"
           [Num (15 # 100); Str "n/a"]); try reflexivity.
  intros c [<-|[<-|[]]] Hc; [discriminate|].
  exists [Num (8 # 10); Num (9 # 10)]. split; [reflexivity|].
  repeat constructor.
Defined.

(** ** Independence of the sections *)

Lemma quiet_ret {A} (a : A) : quiet (ret a).
Proof. intros p s. exists []. now rewrite app_nil_r. Qed.

Lemma quiet_lift {A} (r : res A) : quiet (lift r).
Proof. intros p s. exists []. now rewrite app_nil_r. Qed.

Lemma quiet_deref (r : ref) : quiet (deref r).
Proof. intros p s. exists []. now rewrite app_nil_r. Qed.

Lemma quiet_emit (e : element) :
  match e with Info _ => False | _ => True end -> quiet (emit e).
Proof.
  intros H p s. exists [(p, e)]. split; [reflexivity|].
  constructor; [|constructor]. unfold is_notice. cbn [snd].
  destruct e; try reflexivity. contradiction.
Qed.

Lemma quiet_bind {A B} (m : M A) (f : A -> M B) :
  quiet m -> (forall a, quiet (f a)) -> quiet (bind m f).
Proof.
  intros Hm Hf p s. rewrite bind_run.
  destruct (Hm p s) as [o1 [U1 F1]].
  destruct (m p s) as [[a|e] s1]; cbn [snd] in *.
  - destruct (Hf a p s1) as [o2 [U2 F2]]. exists (o1 ++ o2).
    rewrite U2, U1, <- app_assoc. split; [reflexivity|].
    now apply Forall_app.
  - now exists o1.
Qed.

Lemma quiet_within {A} (q : place) (m : M A) : quiet m -> quiet (within q m).
Proof. intros H p s. apply H. Qed.

Lemma quiet_try_pass (m : M unit) : quiet m -> quiet (try_pass m).
Proof. intros H p s. apply H. Qed.

Lemma quiet_for_each {A} (l : list A) (body : A -> M unit) :
  (forall a, quiet (body a)) -> quiet (for_each l body).
Proof.
  intros H. induction l as [|x l IH]; simpl.
  - apply quiet_ret.
  - apply quiet_bind; [apply H | intros _; exact IH].
Qed.

Lemma quiet_obj_getitem (r : ref) (c : string) : quiet (obj_getitem r c).
Proof.
  apply quiet_bind; [apply quiet_deref | intros; apply quiet_lift].
Qed.

Lemma quiet_obj_setitem (r : ref) (c : string) (vals : list value) :
  quiet (obj_setitem r c vals).
Proof.
  apply quiet_bind; [apply quiet_deref|]. intros df p s. exists [].
  cbn [snd ui]. now rewrite app_nil_r.
Qed.

Ltac quiet_step :=
  cbv beta iota zeta;
  lazymatch goal with
  | |- quiet (ret _) => apply quiet_ret
  | |- quiet (lift _) => apply quiet_lift
  | |- quiet (emit _) => apply quiet_emit; exact I
  | |- quiet (deref _) => apply quiet_deref
  | |- quiet (obj_getitem _ _) => apply quiet_obj_getitem
  | |- quiet (obj_setitem _ _ _) => apply quiet_obj_setitem
  | |- quiet (within _ _) => apply quiet_within
  | |- quiet (try_pass _) => apply quiet_try_pass
  | |- quiet (for_each _ _) => apply quiet_for_each; intros
  | |- quiet (bind _ _) => apply quiet_bind; [|intros]
  | |- quiet (if ?b then _ else _) => destruct b
  | |- quiet (match ?x with _ => _ end) => is_var x; destruct x
  end.

Ltac quiet_tac := repeat quiet_step.

Lemma metric_block_quiet (t : string) (v : value) : quiet (metric_block t v).
Proof. unfold metric_block. quiet_tac. Qed.

Ltac quiet_after_heading :=
  lazymatch goal with
  | |- exists out, ui (snd (?m ?q ?s1)) = _ /\ _ =>
      let H := fresh "H" in
      let out := fresh "out" in
      let U := fresh "U" in
      let F := fresh "F" in
      assert (H : quiet m)
        by (quiet_tac; try apply metric_block_quiet);
      destruct (H q s1) as [out [U F]];
      exists out; rewrite U; cbn [ui]; rewrite <- app_assoc;
      split; [reflexivity | exact F]
  end.

(** A section whose sheet is there with rows shows its heading and then no
    notice, whether it completes or raises. *)
Lemma section_present_no_notice (argsort : list Q -> list nat) (N : nat)
    (y : section_id) (p : place) (s : state) (df : DataFrame) :
  assoc_get (sheet_of y) (store s) = Some df ->
  empty df = false ->
  exists out : list (place * element),
    ui (snd (section argsort N y p s)) =
      ui s ++ (p, Markdown (heading_of y)) :: out /\
    Forall (fun e => is_notice e = false) out.
Proof.
  intros Hs He. destruct y; cbn [sheet_of heading_of] in *.
  - change (section argsort N Overall) with overall_section.
    rewrite (overall_section_enter p s df Hs He).
    unfold overall_metrics. quiet_after_heading.
  - change (section argsort N Strengths)
      with (ranked_section argsort
              "## Strength Areas (by % Positive, with Neutral & Negative)"
              "Top Strengths" "Top Strengths" false N).
    rewrite (ranked_section_enter _ _ _ _ _ _ _ _ df Hs He).
    quiet_after_heading.
  - change (section argsort N Improve)
      with (ranked_section argsort
              "## Areas to Improve (lowest % Positive, with Neutral & Negative)"
              "Areas to Improve" "Areas to Improve" true N).
    rewrite (ranked_section_enter _ _ _ _ _ _ _ _ df Hs He).
    quiet_after_heading.
  - change (section argsort N Trend) with trend_section.
    unfold trend_section.
    rewrite bind_run, emit_run.
    rewrite bind_run, (sheets_get_run _ _ _ df) by exact Hs.
    rewrite bind_run, (deref_run _ _ _ df) by exact Hs.
    rewrite He. cbv zeta.
    destruct (existsb (String.eqb "positive %") (map lower (column_names df)));
      quiet_after_heading.
Qed.

Lemma skipn_shown {A} (l out : list A) : skipn (length l) (l ++ out) = out.
Proof. induction l as [|a l IH]; [reflexivity | exact IH]. Qed.

Lemma section_agree_step (argsort : list Q -> list nat) (N : nat)
    (y : section_id) (p : place) (s0 s1 : state) :
  agree (sheet_of y) s0 s1 ->
  fst (section argsort N y p s0) = fst (section argsort N y p s1) /\
  skipn (length (ui s0)) (ui (snd (section argsort N y p s0))) =
  skipn (length (ui s1)) (ui (snd (section argsort N y p s1))) /\
  agree (sheet_of y) (snd (section argsort N y p s0))
    (snd (section argsort N y p s1)).
Proof.
  intros Hag.
  destruct (proj2 (section_confined argsort N y) p s0 s1 Hag)
    as [out [Hr [U0 [U1 Hag']]]].
  split; [exact Hr|]. split; [|exact Hag'].
  now rewrite U0, U1, !skipn_shown.
Qed.

Lemma section_other_sheet (argsort : list Q -> list nat) (N : nat)
    (y z : section_id) (p : place) (s : state) :
  z <> y ->
  assoc_get (sheet_of z) (store (snd (section argsort N y p s))) =
  assoc_get (sheet_of z) (store s).
Proof.
  intros Hne. apply (proj1 (section_confined argsort N y)).
  intros E. apply Hne. now apply sheet_of_inj.
Qed.

Lemma rendered_agree (argsort : list Q -> list nat) (N : nat) (p : place)
    (ys : list section_id) :
  forall s0 s1 : state,
    (forall y, In y ys -> agree (sheet_of y) s0 s1) ->
    rendered argsort N ys p s0 = rendered argsort N ys p s1.
Proof.
  induction ys as [|y ys IH]; intros s0 s1 Hag; [reflexivity|].
  cbn [rendered].
  destruct (section_agree_step argsort N y p s0 s1 (Hag y (or_introl eq_refl)))
    as [Hr [Hout Hag']].
  rewrite Hr, Hout. f_equal.
  destruct (fst (section argsort N y p s1)); [|reflexivity].
  apply IH. intros z Hz. destruct (section_id_eqb z y) eqn:E.
  - apply section_id_eqb_spec in E. now subst z.
  - assert (Hne : z <> y).
    { intros ->. destruct y; discriminate. }
    unfold agree. rewrite !section_other_sheet by exact Hne.
    apply Hag. now right.
Qed.

Lemma rendered_ids (argsort : list Q -> list nat) (N : nat) (p : place)
    (ys : list section_id) :
  forall (s : state) r, In r (rendered argsort N ys p s) -> In (fst r) ys.
Proof.
  induction ys as [|y ys IH]; intros s r Hr; [contradiction|].
  cbn [rendered] in Hr. destruct Hr as [<-|Hr]; [now left|]. right.
  destruct (fst (section argsort N y p s)); [|contradiction].
  exact (IH _ _ Hr).
Qed.

Lemma noticed_other (x : section_id) (p : place)
    (rs : list (section_id * (res unit * list (place * element)))) :
  (forall r, In r rs -> fst r <> x) -> map (noticed x p) rs = rs.
Proof.
  induction rs as [|r rs IH]; intros H; [reflexivity|]. cbn [map].
  rewrite IH by (intros r' Hr'; apply H; now right).
  unfold noticed. destruct (section_id_eqb (fst r) x) eqn:E; [|reflexivity].
  apply section_id_eqb_spec in E. exfalso.
  exact (H r (or_introl eq_refl) E).
Qed.

Lemma section_result_own_sheet (argsort : list Q -> list nat) (N : nat)
    (x : section_id) (p : place) (s0 s1 : state) :
  agree (sheet_of x) s0 s1 ->
  fst (section argsort N x p s0) = fst (section argsort N x p s1).
Proof.
  intros H. exact (proj1 (section_agree_step argsort N x p s0 s1 H)).
Qed.

Lemma rendered_but (argsort : list Q -> list nat) (N : nat) (x : section_id)
    (p : place) (ys : list section_id) :
  NoDup ys ->
  forall s0 s1 : state,
    (forall y, In y ys -> y <> x -> agree (sheet_of y) s0 s1) ->
    absent_or_empty (sheet_of x) (store s0) ->
    (In x ys -> fst (section argsort N x p s1) = Ok tt) ->
    rendered argsort N ys p s0 =
    map (noticed x p) (rendered argsort N ys p s1).
Proof.
  induction 1 as [|y ys Hnotin Hnd IH]; intros s0 s1 Hag Habs Hok;
    [reflexivity|].
  cbn [rendered map].
  destruct (section_id_eqb y x) eqn:E.
  - apply section_id_eqb_spec in E. subst y.
    rewrite (section_notice argsort N x p s0 Habs), notice_only_run.
    cbn [fst snd ui store]. rewrite skipn_shown.
    rewrite (Hok (or_introl eq_refl)).
    unfold noticed at 1. cbn [fst].
    rewrite (proj2 (section_id_eqb_spec x x) eq_refl).
    unfold notice_shown. f_equal.
    rewrite noticed_other.
    + apply rendered_agree. intros z Hz.
      assert (Hne : z <> x) by (intros ->; contradiction).
      unfold agree. cbn [store].
      rewrite section_other_sheet by exact Hne.
      apply Hag; [now right | exact Hne].
    + intros r Hr E. apply rendered_ids in Hr. rewrite E in Hr.
      contradiction.
  - assert (Hne : y <> x).
    { intros ->. destruct x; discriminate. }
    destruct (section_agree_step argsort N y p s0 s1
                (Hag y (or_introl eq_refl) Hne)) as [Hr [Hout Hag']].
    rewrite Hr, Hout. unfold noticed at 1. cbn [fst]. rewrite E. f_equal.
    destruct (fst (section argsort N y p s1)); [|reflexivity].
    apply IH.
    + intros z Hz Hzx.
      assert (Hzy : z <> y) by (intros ->; contradiction).
      unfold agree. rewrite !section_other_sheet by exact Hzy.
      apply Hag; [now right | exact Hzx].
    + unfold absent_or_empty.
      rewrite section_other_sheet by (intros E'; apply Hne; now symmetry).
      exact Habs.
    + intros Hin. rewrite <- (Hok (or_intror Hin)).
      apply section_result_own_sheet. unfold agree.
      apply section_other_sheet. intros E'. apply Hne. now symmetry.
Qed.

Lemma page_order_NoDup : NoDup page_order.
Proof.
  unfold page_order. repeat constructor; cbn; intuition discriminate.
Qed.

(** The page sections are the sections in page order, run in turn. *)
Lemma sections_rendered (argsort : list Q -> list nat) (N : nat)
    (p : place) (s : state) :
  ui (snd (sections argsort N p s)) =
    ui s ++ flat_map (fun r => snd (snd r))
              (rendered argsort N page_order p s) /\
  fst (sections argsort N p s) =
    last (map (fun r => fst (snd r)) (rendered argsort N page_order p s))
         (Ok tt).
Proof.
  unfold sections, page_order. cbn [rendered].
  change overall_section with (section argsort N Overall).
  change (strengths_section argsort N) with (section argsort N Strengths).
  change (improve_section argsort N) with (section argsort N Improve).
  change trend_section with (section argsort N Trend).
  rewrite bind_run.
  destruct (section_heading_first argsort N Overall p s) as [o1 U1].
  destruct (section argsort N Overall p s) as [[[]|e1] s1];
    cbn [fst snd] in *; rewrite U1, skipn_shown;
    [|cbn; now rewrite app_nil_r].
  rewrite bind_run.
  destruct (section_heading_first argsort N Strengths p s1) as [o2 U2].
  destruct (section argsort N Strengths p s1) as [[[]|e2] s2];
    cbn [fst snd] in *; rewrite U2, U1, skipn_shown;
    [|cbn; rewrite app_nil_r, <- app_assoc; now split].
  rewrite bind_run.
  destruct (section_heading_first argsort N Improve p s2) as [o3 U3].
  destruct (section argsort N Improve p s2) as [[[]|e3] s3];
    cbn [fst snd] in *; rewrite U3, U2, U1, skipn_shown;
    [|cbn; rewrite app_nil_r, <- !app_assoc; now split].
  destruct (section_heading_first argsort N Trend p s3) as [o4 U4].
  destruct (section argsort N Trend p s3) as [[[]|e4] s4];
    cbn [fst snd] in *; rewrite U4, U3, U2, U1, skipn_shown;
    cbn; rewrite app_nil_r, <- !app_assoc; now split.
Qed.

(** C8, as the code has it.  Take a sheet set [S'] in which the sheet of a
    section [x] is absent or empty, and a sheet set [S] with the same other
    sheets.  On [S'] the section [x] shows its heading and the not-found
    notice and nothing else.  A section whose sheet is there with rows shows
    its heading and no notice.  When the section [x] completes on [S], the
    sections run in turn on [S'] return and show, one by one, what they do
    on [S], except that the entry of [x] is its heading and notice.  The
    page sections are the four sections run in turn until one raises, and
    each section is confined to its own sheet. *)
Theorem sections_independent :
  forall (argsort : list Q -> list nat) (N : nat) (x : section_id)
         (S S' : list (string * DataFrame)),
    (forall k, k <> sheet_of x -> assoc_get k S' = assoc_get k S) ->
    absent_or_empty (sheet_of x) S' ->
    (forall (p : place) (out : list (place * element)),
        section argsort N x p {| store := S'; ui := out |} =
        (Ok tt, {| store := S'; ui := out ++ notice_shown p x |})) /\
    (forall (y : section_id) (p : place) (s : state) (df : DataFrame),
        assoc_get (sheet_of y) (store s) = Some df ->
        empty df = false ->
        exists out : list (place * element),
          ui (snd (section argsort N y p s)) =
            ui s ++ (p, Markdown (heading_of y)) :: out /\
          Forall (fun e => is_notice e = false) out) /\
    (forall (p : place) (out out' : list (place * element)),
        fst (section argsort N x p {| store := S; ui := out |}) = Ok tt ->
        rendered argsort N page_order p {| store := S'; ui := out' |} =
        map (noticed x p)
          (rendered argsort N page_order p {| store := S; ui := out |})) /\
    (forall (p : place) (s : state),
        ui (snd (sections argsort N p s)) =
          ui s ++ flat_map (fun r => snd (snd r))
                    (rendered argsort N page_order p s) /\
        fst (sections argsort N p s) =
          last (map (fun r => fst (snd r))
                  (rendered argsort N page_order p s)) (Ok tt)) /\
    (forall y : section_id, confined (sheet_of y) (section argsort N y)).
Proof.
  intros argsort N x S S' Hsame Habs.
  split; [|split; [|split; [|split]]].
  - intros p out.
    rewrite (section_notice argsort N x p {| store := S'; ui := out |})
      by exact Habs.
    apply notice_only_run.
  - intros y p s df. apply section_present_no_notice.
  - intros p out out' Hok.
    apply rendered_but; [apply page_order_NoDup | | exact Habs | ].
    + intros y _ Hne. unfold agree. cbn [store]. apply Hsame.
      intros E. apply Hne. now apply sheet_of_inj.
    + intros _. exact Hok.
  - intros p s. apply sections_rendered.
  - apply section_confined.
Qed.

Lemma sections_independent_witness :
  (forall (p : place) (out : list (place * element)),
      section stable_argsort 5 Improve p
        {| store := [("Top Strengths", ranking_table)]; ui := out |} =
      (Ok tt,
       {| store := [("Top Strengths", ranking_table)];
          ui := out ++ notice_shown p Improve |})) /\
  rendered stable_argsort 5 page_order Main
    {| store := [("Top Strengths", ranking_table)]; ui := [] |} =
  map (noticed Improve Main)
    (rendered stable_argsort 5 page_order Main
       {| store := ranking_sheets; ui := [] |}).
Proof.
  assert (Hsame : forall k, k <> sheet_of Improve ->
                    assoc_get k [("Top Strengths", ranking_table)] =
                    assoc_get k ranking_sheets).
  { intros k Hk. unfold ranking_sheets. cbn [assoc_get].
    destruct (String.eqb_spec k "Top Strengths"); [reflexivity|].
    destruct (String.eqb_spec k "Areas to Improve"); [contradiction|].
    reflexivity. }
  split.
  - exact (proj1 (sections_independent stable_argsort 5%nat Improve
                    ranking_sheets [("Top Strengths", ranking_table)]
                    Hsame I)).
  - apply (proj1 (proj2 (proj2 (sections_independent stable_argsort 5%nat
                    Improve ranking_sheets [("Top Strengths", ranking_table)]
                    Hsame I))) Main [] []).
    vm_compute. reflexivity.
Defined.

(** C8, as stated, fails when a section raises.  In a sheet set without the
    Areas to Improve sheet whose Top Strengths table lacks a column, the
    sections end at Top Strengths with KeyError: no notice is shown for
    Areas to Improve.  And the sheet set without any sheet, where Top
    Strengths is absent, shows the notice of Areas to Improve, which the
    sheet set with that Top Strengths table does not. *)
Lemma failing_section_hides_later_notice :
  absent_or_empty (sheet_of Improve) [("Top Strengths", ranking_no_neutral)] /\
  (forall (argsort : list Q -> list nat) (N : nat),
      run (sections argsort N) [("Top Strengths", ranking_no_neutral)] =
      (Raise KeyError,
       {| store := [("Top Strengths", ranking_no_neutral)];
          ui := notice_shown Main Overall ++
                [(Main, Markdown (heading_of Strengths))] |}) /\
      ~ In (Main, Info (not_found (sheet_of Improve)))
           (ui (snd (run (sections argsort N)
                       [("Top Strengths", ranking_no_neutral)])))) /\
  absent_or_empty (sheet_of Strengths) [] /\
  (forall k, k <> sheet_of Strengths ->
             assoc_get k [] =
             assoc_get k [("Top Strengths", ranking_no_neutral)]) /\
  (forall (argsort : list Q -> list nat) (N : nat),
      In (Main, Info (not_found (sheet_of Improve)))
         (ui (snd (run (sections argsort N) [])))).
Proof.
  split; [exact I|]. split; [|split; [exact I|split]].
  - intros argsort N.
    assert (E : run (sections argsort N)
                  [("Top Strengths", ranking_no_neutral)] =
                (Raise KeyError,
                 {| store := [("Top Strengths", ranking_no_neutral)];
                    ui := notice_shown Main Overall ++
                          [(Main, Markdown (heading_of Strengths))] |})).
    { unfold run, sections. rewrite bind_run.
      rewrite overall_section_notice by exact I.
      rewrite notice_only_run. cbn [store ui app].
      rewrite bind_run. unfold strengths_section.
      rewrite (ranked_section_keyerror _ _ _ _ _ _ _ _ ranking_no_neutral).
      - reflexivity.
      - reflexivity.
      - reflexivity.
      - exists "Neutral". split; [cbn; tauto | reflexivity].
      - intros c col [<-|[<-|[<-|[]]]] H; try discriminate H;
          injection H as <-; repeat constructor. }
    split; [exact E|]. rewrite E. cbn [snd ui].
    unfold notice_shown. cbn [app In].
    intros [H|[H|[H|[]]]]; discriminate H.
  - intros k Hk. cbn [assoc_get].
    destruct (String.eqb_spec k "Top Strengths"); [contradiction|].
    reflexivity.
  - intros argsort N. unfold run, sections. rewrite bind_run.
    rewrite overall_section_notice by exact I.
    rewrite notice_only_run. rewrite bind_run.
    change (strengths_section argsort N) with (section argsort N Strengths).
    rewrite section_notice by exact I.
    rewrite notice_only_run. rewrite bind_run.
    change (improve_section argsort N) with (section argsort N Improve).
    rewrite section_notice by exact I.
    rewrite notice_only_run.
    rewrite trend_section_notice by exact I.
    rewrite notice_only_run. cbn [snd ui store].
    rewrite !in_app_iff. left. right. cbn [In]. right. now left.
Qed.

(** ** Each section and the sheet set of the run *)

Lemma overall_section_store (p : place) (s : state) (df : DataFrame)
    (pct : list value) :
  assoc_get "Overall Summary" (store s) = Some df ->
  empty df = false ->
  getitem df "Percentage" = Ok pct ->
  numeric pct ->
  store (snd (overall_section p s)) =
  assoc_set "Overall Summary"
    (setitem df "Percentage" (map normalized pct)) (store s).
Proof.
  intros Hs He Hp Np.
  rewrite (overall_section_enter p s df Hs He).
  rewrite bind_run, (obj_getitem_run _ _ _ _ df) by exact Hs.
  rewrite Hp, bind_run, lift_run, (series_apply_numeric pct Np).
  rewrite bind_run, (obj_setitem_run _ _ _ _ _ df) by exact Hs.
  match goal with
  | |- store (snd (?m ?q ?s1)) = _ =>
      assert (H : preserves_store m)
        by (unfold overall_metrics; preserves;
            apply metric_block_preserves);
      now rewrite H
  end.
Qed.

(** X22. What each section does to the sheet set of the run, whether it then
    completes or raises.  The Strengths and Areas-to-Improve sections and the
    single-series branch of the Yearly Trend section leave it as it is.  The
    Overall Summary section replaces the Percentage column of its stored
    table by the normalised values, and the three-series branch of the
    Yearly Trend section does so for the Positive, Neutral and Negative
    columns, leaving the index, the column names and the other columns.  No
    section changes the table of another sheet. *)
Theorem sections_copy_or_update_own_sheet :
  (forall (argsort : list Q -> list nat) (N : nat) (x : section_id)
          (p : place) (s : state),
      x = Strengths \/ x = Improve ->
      store (snd (section argsort N x p s)) = store s) /\
  (forall (p : place) (s : state) (df : DataFrame),
      assoc_get "Yearly Trend" (store s) = Some df ->
      existsb (String.eqb "positive %") (map lower (column_names df)) = true ->
      store (snd (trend_section p s)) = store s) /\
  (forall (p : place) (s : state) (df : DataFrame) (pct : list value),
      assoc_get "Overall Summary" (store s) = Some df ->
      empty df = false ->
      getitem df "Percentage" = Ok pct ->
      numeric pct ->
      store (snd (overall_section p s)) =
      assoc_set "Overall Summary"
        (setitem df "Percentage" (map normalized pct)) (store s)) /\
  (forall (p : place) (s : state) (df : DataFrame),
      assoc_get "Yearly Trend" (store s) = Some df ->
      empty df = false ->
      existsb (String.eqb "positive %") (map lower (column_names df)) = false ->
      loop_ready (column_names df) df ->
      NoDup (column_names df) ->
      store (snd (trend_section p s)) =
        assoc_set "Yearly Trend" (trend_normalized df) (store s) /\
      index (trend_normalized df) = index df /\
      column_names (trend_normalized df) = column_names df /\
      forall c, In c (column_names df) ->
                column (trend_normalized df) c =
                if is_category c then map normalized (column df c)
                else column df c) /\
  (forall (argsort : list Q -> list nat) (N : nat) (x : section_id)
          (p : place) (s : state) (k : string),
      k <> sheet_of x ->
      assoc_get k (store (snd (section argsort N x p s))) =
      assoc_get k (store s)).
Proof.
  split; [|split; [|split; [|split]]].
  - intros argsort N x p s [->| ->].
    + exact (ranked_section_preserves argsort (heading_of Strengths)
               (sheet_of Strengths) "Top Strengths" false N p s).
    + exact (ranked_section_preserves argsort (heading_of Improve)
               (sheet_of Improve) "Areas to Improve" true N p s).
  - apply trend_section_single_store.
  - apply overall_section_store.
  - intros p s df Hs He Hno Hr Hnd.
    split; [now apply trend_section_wide_store|]. split; [|split].
    + apply fold_normalize_index.
    + apply trend_normalized_names.
    + intros c Hc. now apply trend_normalized_column.
  - intros argsort N x p s k Hk.
    now apply (proj1 (section_confined argsort N x)).
Qed.

Lemma sections_copy_or_update_own_sheet_witness :
  store (snd (section stable_argsort 2 Strengths Main ranking_state))
  = store ranking_state /\
  store (snd (trend_section Main (trend_state trend_single)))
  = store (trend_state trend_single) /\
  store (snd (overall_section Main overall_state)) =
  assoc_set "Overall Summary"
    (setitem overall_table "Percentage"
       (map normalized [Num (6 # 10); Missing; Num (1 # 10)]))
    (store overall_state) /\
  store (snd (trend_section Main (trend_state trend_wide))) =
  assoc_set "Yearly Trend" (trend_normalized trend_wide)
    (store (trend_state trend_wide)) /\
  assoc_get "Top Strengths"
    (store (snd (section stable_argsort 2 Overall Main ranking_state)))
  = assoc_get "Top Strengths" (store ranking_state).
Proof.
  split; [|split; [|split; [|split]]].
  - apply (proj1 sections_copy_or_update_own_sheet). now left.
  - apply (proj1 (proj2 sections_copy_or_update_own_sheet) Main
             (trend_state trend_single) trend_single); reflexivity.
  - apply (proj1 (proj2 (proj2 sections_copy_or_update_own_sheet)) Main
             overall_state overall_table);
      try reflexivity.
    repeat constructor.
  - apply (proj1 (proj2 (proj2 (proj2 sections_copy_or_update_own_sheet)))
             Main (trend_state trend_wide) trend_wide);
      try reflexivity.
    + apply trend_wide_loop_ready.
    + apply trend_wide_names_NoDup.
  - apply (proj2 (proj2 (proj2 (proj2 sections_copy_or_update_own_sheet)))).
    cbn. discriminate.
Defined.

(** ** The Overall Summary section on a Percentage column without a number *)

Lemma first_selected_missing (pct : list value) :
  forallb isna pct = true ->
  forall mask : list bool,
    first_value (select mask pct) = Raise IndexError \/
    first_value (select mask pct) = Ok Missing.
Proof.
  unfold select. induction pct as [|v pct IH]; intros H mask.
  - left. now destruct mask.
  - cbn [forallb] in H. apply andb_true_iff in H as [Hv H].
    destruct mask as [|m mask]; [now left|].
    cbn [combine filter fst]. destruct m.
    + right. destruct v; try discriminate Hv. reflexivity.
    + now apply IH.
Qed.

Lemma metric_shown_all_missing (df : DataFrame) (col : nat) (label : string)
    (pct : list value) :
  getitem df "Percentage" = Ok pct ->
  forallb isna pct = true ->
  metric_shown df col label = [].
Proof.
  intros Hp Hm. unfold metric_shown, category_cell.
  destruct (getitem df "Category") as [cat|]; cbn [res_bind]; [|reflexivity].
  destruct (str_lower cat) as [low|]; cbn [res_bind]; [|reflexivity].
  rewrite Hp. cbn [res_bind].
  destruct (first_selected_missing pct Hm
              (map (value_eqb (Str (lower label))) low)) as [E|E];
    rewrite E; reflexivity.
Qed.

(** X23. When the Percentage column of the Overall Summary has rows and not
    one number in them, the section shows no metric, shows the donut, and
    then ends with TypeError where it rounds the column for the bar chart,
    which is not shown; the stored column has been replaced before. *)
Theorem overall_section_no_number :
  forall (p : place) (s : state) (df : DataFrame) (cat pct : list value),
    assoc_get "Overall Summary" (store s) = Some df ->
    empty df = false ->
    getitem df "Category" = Ok cat ->
    getitem df "Percentage" = Ok pct ->
    all_missing pct = true ->
    overall_section p s =
    (Raise TypeError,
     {| store := assoc_set "Overall Summary"
                   (setitem df "Percentage" (map normalized pct)) (store s);
        ui := ui s ++
              [ (p, Markdown "## Dataset Descriptive Summary");
                (p, Columns [1; 1; 1]);
                (p, Columns [12 # 10; 13 # 10]);
                (Column 0,
                 PlotlyChart
                   (donut (map normalized pct) cat "Overall Perception")) ]
     |}).
Proof.
  intros p s df cat pct Hs He Hc Hp Hm.
  assert (Hall : forallb isna pct = true).
  { unfold all_missing in Hm. now apply andb_true_iff in Hm as [_ Hm]. }
  assert (Np : numeric pct).
  { clear -Hall. induction pct as [|v pct IH]; constructor.
    - cbn [forallb] in Hall. apply andb_true_iff in Hall as [Hv _].
      now destruct v.
    - apply IH. cbn [forallb] in Hall.
      now apply andb_true_iff in Hall as [_ Hall]. }
  rewrite (overall_section_run_gen p s df cat pct) by assumption.
  rewrite Hm.
  assert (Hall' : forallb isna (map normalized pct) = true).
  { clear -Hall. induction pct as [|v pct IH]; [reflexivity|].
    cbn [forallb] in Hall. apply andb_true_iff in Hall as [Hv Hall].
    cbn [map forallb]. now rewrite isna_normalized, Hv, IH. }
  rewrite !(metric_shown_all_missing _ _ _ (map normalized pct))
    by (exact Hall' || apply getitem_setitem_same).
  cbn [app]. rewrite ?app_nil_r. reflexivity.
Qed.

Lemma overall_section_no_number_witness :
  overall_section Main
    {| store := [("Overall Summary", overall_blank)]; ui := [] |} =
  (Raise TypeError,
   {| store := assoc_set "Overall Summary"
                 (setitem overall_blank "Percentage"
                    (map normalized [Missing; Missing; Missing]))
                 [("Overall Summary", overall_blank)];
      ui := [] ++
            [ (Main, Markdown "## Dataset Descriptive Summary");
              (Main, Columns [1; 1; 1]);
              (Main, Columns [12 # 10; 13 # 10]);
              (Column 0,
               PlotlyChart
                 (donut (map normalized [Missing; Missing; Missing])
                    [Str "Positive"; Str "Neutral"; Str "Negative"]
                    "Overall Perception")) ] |}).
Proof.
  apply (overall_section_no_number Main
           {| store := [("Overall Summary", overall_blank)]; ui := [] |}
           overall_blank [Str "Positive"; Str "Neutral"; Str "Negative"]
           [Missing; Missing; Missing]); reflexivity.
Defined.

(** ** The trend reshape on a table with a column named Percent *)

(** X24. The reshape names its value column Percent.  When, in the
    three-series branch, the trend table already has a column of that name,
    the section ends with ValueError having shown only its heading; the
    Positive, Neutral and Negative columns of the stored table have been
    normalised before. *)
Theorem trend_section_percent_column :
  forall (p : place) (s : state) (df : DataFrame),
    assoc_get "Yearly Trend" (store s) = Some df ->
    empty df = false ->
    existsb (String.eqb "positive %") (map lower (column_names df)) = false ->
    loop_ready (column_names df) df ->
    In "Percent" (column_names df) ->
    trend_section p s =
    (Raise ValueError,
     {| store := assoc_set "Yearly Trend" (trend_normalized df) (store s);
        ui := ui s ++ [(p, Markdown "## Yearly Trend")] |}).
Proof.
  intros p s df Hs He Hno Hr Hin. unfold trend_section.
  rewrite bind_run, emit_run.
  rewrite bind_run, (sheets_get_run _ _ _ df) by exact Hs.
  rewrite bind_run, (deref_run _ _ _ df) by exact Hs.
  rewrite He. cbv zeta. rewrite Hno.
  rewrite bind_run, (trend_loop_run _ _ _ _ df) by assumption.
  fold (trend_normalized df).
  rewrite bind_run, (deref_run _ _ _ (trend_normalized df))
    by (cbn [store]; apply assoc_get_set_same).
  rewrite bind_run, lift_run.
  rewrite melt_value_name_taken
    by (rewrite trend_normalized_names; exact Hin).
  reflexivity.
Qed.

Lemma trend_section_percent_column_witness :
  trend_section Main (trend_state trend_percent) =
  (Raise ValueError,
   {| store := assoc_set "Yearly Trend" (trend_normalized trend_percent)
                 (store (trend_state trend_percent));
      ui := ui (trend_state trend_percent) ++
            [(Main, Markdown "## Yearly Trend")] |}).
Proof.
  apply (trend_section_percent_column Main (trend_state trend_percent)
           trend_percent); try reflexivity.
  - intros c [<-|[<-|[<-|[]]]] Hc; try discriminate Hc.
    exists [Num (8 # 10); Num (9 # 10)]. split; [reflexivity|].
    repeat constructor.
  - cbn. tauto.
Defined.
